(** * A model of [src/Convert/pdf_to_obsidian_converter.py]

    The class [RecipeExtractor] is modelled function by function.  A Python
    [str] is its list of code points ([list N]).  The calls into Python's [re]
    module are modelled by a small backtracking matcher with the semantics of
    CPython's [sre] engine for the constructs the program uses: character
    classes, greedy and lazy repetition of a class, ordered alternation,
    capture groups, [^], [$], positive lookahead, and the scanning loops of
    [re.search], [re.findall] and [re.sub].  The character classes [\s], [\d],
    [\w], [re.IGNORECASE] and [str.lower] follow the Unicode database of
    CPython 3.11. *)

From Stdlib Require Import String Ascii DecimalString DecimalNat.
From Stdlib Require Import List Bool Arith NArith ZArith Lia Sorted Permutation.
Import ListNotations.
Open Scope list_scope.

(** ** Strings *)

Definition pystr := list N.

(** An ASCII string literal as a Python [str]. *)
Definition u (s : string) : pystr := map N_of_ascii (list_ascii_of_string s).

(** The bullet character U+2022 used in the ingredient marker class. *)
Definition BULLET : N := 8226%N.

(** ** Unicode tables *)

Definition in_ranges (c : N) (rs : list (N * N)) : bool :=
  existsb (fun '(a, b) => (a <=? c)%N && (c <=? b)%N) rs.

(** Code points for which [str.isspace()] holds; the same set is matched by
    [\s] in a str pattern and removed by [str.strip()]. *)
Definition space_ranges : list (N * N) :=
  [(9,13); (28,32); (133,133); (160,160); (5760,5760); (8192,8202);
   (8232,8233); (8239,8239); (8287,8287); (12288,12288)]%N.

Local Open Scope N_scope.

(** Code points matched by [\w] in a str pattern: str.isalnum() or the underscore. *)
Definition word_ranges : list (N * N) := [
  (48,57); (65,90); (95,95); (97,122); (170,170); (178,179); (181,181); (185,186);
  (188,190); (192,214); (216,246); (248,705); (710,721); (736,740); (748,748); (750,750);
  (880,884); (886,887); (890,893); (895,895); (902,902); (904,906); (908,908); (910,929);
  (931,1013); (1015,1153); (1162,1327); (1329,1366); (1369,1369); (1376,1416); (1488,1514); (1519,1522);
  (1568,1610); (1632,1641); (1646,1647); (1649,1747); (1749,1749); (1765,1766); (1774,1788); (1791,1791);
  (1808,1808); (1810,1839); (1869,1957); (1969,1969); (1984,2026); (2036,2037); (2042,2042); (2048,2069);
  (2074,2074); (2084,2084); (2088,2088); (2112,2136); (2144,2154); (2160,2183); (2185,2190); (2208,2249);
  (2308,2361); (2365,2365); (2384,2384); (2392,2401); (2406,2415); (2417,2432); (2437,2444); (2447,2448);
  (2451,2472); (2474,2480); (2482,2482); (2486,2489); (2493,2493); (2510,2510); (2524,2525); (2527,2529);
  (2534,2545); (2548,2553); (2556,2556); (2565,2570); (2575,2576); (2579,2600); (2602,2608); (2610,2611);
  (2613,2614); (2616,2617); (2649,2652); (2654,2654); (2662,2671); (2674,2676); (2693,2701); (2703,2705);
  (2707,2728); (2730,2736); (2738,2739); (2741,2745); (2749,2749); (2768,2768); (2784,2785); (2790,2799);
  (2809,2809); (2821,2828); (2831,2832); (2835,2856); (2858,2864); (2866,2867); (2869,2873); (2877,2877);
  (2908,2909); (2911,2913); (2918,2927); (2929,2935); (2947,2947); (2949,2954); (2958,2960); (2962,2965);
  (2969,2970); (2972,2972); (2974,2975); (2979,2980); (2984,2986); (2990,3001); (3024,3024); (3046,3058);
  (3077,3084); (3086,3088); (3090,3112); (3114,3129); (3133,3133); (3160,3162); (3165,3165); (3168,3169);
  (3174,3183); (3192,3198); (3200,3200); (3205,3212); (3214,3216); (3218,3240); (3242,3251); (3253,3257);
  (3261,3261); (3293,3294); (3296,3297); (3302,3311); (3313,3314); (3332,3340); (3342,3344); (3346,3386);
  (3389,3389); (3406,3406); (3412,3414); (3416,3425); (3430,3448); (3450,3455); (3461,3478); (3482,3505);
  (3507,3515); (3517,3517); (3520,3526); (3558,3567); (3585,3632); (3634,3635); (3648,3654); (3664,3673);
  (3713,3714); (3716,3716); (3718,3722); (3724,3747); (3749,3749); (3751,3760); (3762,3763); (3773,3773);
  (3776,3780); (3782,3782); (3792,3801); (3804,3807); (3840,3840); (3872,3891); (3904,3911); (3913,3948);
  (3976,3980); (4096,4138); (4159,4169); (4176,4181); (4186,4189); (4193,4193); (4197,4198); (4206,4208);
  (4213,4225); (4238,4238); (4240,4249); (4256,4293); (4295,4295); (4301,4301); (4304,4346); (4348,4680);
  (4682,4685); (4688,4694); (4696,4696); (4698,4701); (4704,4744); (4746,4749); (4752,4784); (4786,4789);
  (4792,4798); (4800,4800); (4802,4805); (4808,4822); (4824,4880); (4882,4885); (4888,4954); (4969,4988);
  (4992,5007); (5024,5109); (5112,5117); (5121,5740); (5743,5759); (5761,5786); (5792,5866); (5870,5880);
  (5888,5905); (5919,5937); (5952,5969); (5984,5996); (5998,6000); (6016,6067); (6103,6103); (6108,6108);
  (6112,6121); (6128,6137); (6160,6169); (6176,6264); (6272,6276); (6279,6312); (6314,6314); (6320,6389);
  (6400,6430); (6470,6509); (6512,6516); (6528,6571); (6576,6601); (6608,6618); (6656,6678); (6688,6740);
  (6784,6793); (6800,6809); (6823,6823); (6917,6963); (6981,6988); (6992,7001); (7043,7072); (7086,7141);
  (7168,7203); (7232,7241); (7245,7293); (7296,7304); (7312,7354); (7357,7359); (7401,7404); (7406,7411);
  (7413,7414); (7418,7418); (7424,7615); (7680,7957); (7960,7965); (7968,8005); (8008,8013); (8016,8023);
  (8025,8025); (8027,8027); (8029,8029); (8031,8061); (8064,8116); (8118,8124); (8126,8126); (8130,8132);
  (8134,8140); (8144,8147); (8150,8155); (8160,8172); (8178,8180); (8182,8188); (8304,8305); (8308,8313);
  (8319,8329); (8336,8348); (8450,8450); (8455,8455); (8458,8467); (8469,8469); (8473,8477); (8484,8484);
  (8486,8486); (8488,8488); (8490,8493); (8495,8505); (8508,8511); (8517,8521); (8526,8526); (8528,8585);
  (9312,9371); (9450,9471); (10102,10131); (11264,11492); (11499,11502); (11506,11507); (11517,11517); (11520,11557);
  (11559,11559); (11565,11565); (11568,11623); (11631,11631); (11648,11670); (11680,11686); (11688,11694); (11696,11702);
  (11704,11710); (11712,11718); (11720,11726); (11728,11734); (11736,11742); (11823,11823); (12293,12295); (12321,12329);
  (12337,12341); (12344,12348); (12353,12438); (12445,12447); (12449,12538); (12540,12543); (12549,12591); (12593,12686);
  (12690,12693); (12704,12735); (12784,12799); (12832,12841); (12872,12879); (12881,12895); (12928,12937); (12977,12991);
  (13312,19903); (19968,42124); (42192,42237); (42240,42508); (42512,42539); (42560,42606); (42623,42653); (42656,42735);
  (42775,42783); (42786,42888); (42891,42954); (42960,42961); (42963,42963); (42965,42969); (42994,43009); (43011,43013);
  (43015,43018); (43020,43042); (43056,43061); (43072,43123); (43138,43187); (43216,43225); (43250,43255); (43259,43259);
  (43261,43262); (43264,43301); (43312,43334); (43360,43388); (43396,43442); (43471,43481); (43488,43492); (43494,43518);
  (43520,43560); (43584,43586); (43588,43595); (43600,43609); (43616,43638); (43642,43642); (43646,43695); (43697,43697);
  (43701,43702); (43705,43709); (43712,43712); (43714,43714); (43739,43741); (43744,43754); (43762,43764); (43777,43782);
  (43785,43790); (43793,43798); (43808,43814); (43816,43822); (43824,43866); (43868,43881); (43888,44002); (44016,44025);
  (44032,55203); (55216,55238); (55243,55291); (63744,64109); (64112,64217); (64256,64262); (64275,64279); (64285,64285);
  (64287,64296); (64298,64310); (64312,64316); (64318,64318); (64320,64321); (64323,64324); (64326,64433); (64467,64829);
  (64848,64911); (64914,64967); (65008,65019); (65136,65140); (65142,65276); (65296,65305); (65313,65338); (65345,65370);
  (65382,65470); (65474,65479); (65482,65487); (65490,65495); (65498,65500); (65536,65547); (65549,65574); (65576,65594);
  (65596,65597); (65599,65613); (65616,65629); (65664,65786); (65799,65843); (65856,65912); (65930,65931); (66176,66204);
  (66208,66256); (66273,66299); (66304,66339); (66349,66378); (66384,66421); (66432,66461); (66464,66499); (66504,66511);
  (66513,66517); (66560,66717); (66720,66729); (66736,66771); (66776,66811); (66816,66855); (66864,66915); (66928,66938);
  (66940,66954); (66956,66962); (66964,66965); (66967,66977); (66979,66993); (66995,67001); (67003,67004); (67072,67382);
  (67392,67413); (67424,67431); (67456,67461); (67463,67504); (67506,67514); (67584,67589); (67592,67592); (67594,67637);
  (67639,67640); (67644,67644); (67647,67669); (67672,67702); (67705,67742); (67751,67759); (67808,67826); (67828,67829);
  (67835,67867); (67872,67897); (67968,68023); (68028,68047); (68050,68096); (68112,68115); (68117,68119); (68121,68149);
  (68160,68168); (68192,68222); (68224,68255); (68288,68295); (68297,68324); (68331,68335); (68352,68405); (68416,68437);
  (68440,68466); (68472,68497); (68521,68527); (68608,68680); (68736,68786); (68800,68850); (68858,68899); (68912,68921);
  (69216,69246); (69248,69289); (69296,69297); (69376,69415); (69424,69445); (69457,69460); (69488,69505); (69552,69579);
  (69600,69622); (69635,69687); (69714,69743); (69745,69746); (69749,69749); (69763,69807); (69840,69864); (69872,69881);
  (69891,69926); (69942,69951); (69956,69956); (69959,69959); (69968,70002); (70006,70006); (70019,70066); (70081,70084);
  (70096,70106); (70108,70108); (70113,70132); (70144,70161); (70163,70187); (70272,70278); (70280,70280); (70282,70285);
  (70287,70301); (70303,70312); (70320,70366); (70384,70393); (70405,70412); (70415,70416); (70419,70440); (70442,70448);
  (70450,70451); (70453,70457); (70461,70461); (70480,70480); (70493,70497); (70656,70708); (70727,70730); (70736,70745);
  (70751,70753); (70784,70831); (70852,70853); (70855,70855); (70864,70873); (71040,71086); (71128,71131); (71168,71215);
  (71236,71236); (71248,71257); (71296,71338); (71352,71352); (71360,71369); (71424,71450); (71472,71483); (71488,71494);
  (71680,71723); (71840,71922); (71935,71942); (71945,71945); (71948,71955); (71957,71958); (71960,71983); (71999,71999);
  (72001,72001); (72016,72025); (72096,72103); (72106,72144); (72161,72161); (72163,72163); (72192,72192); (72203,72242);
  (72250,72250); (72272,72272); (72284,72329); (72349,72349); (72368,72440); (72704,72712); (72714,72750); (72768,72768);
  (72784,72812); (72818,72847); (72960,72966); (72968,72969); (72971,73008); (73030,73030); (73040,73049); (73056,73061);
  (73063,73064); (73066,73097); (73112,73112); (73120,73129); (73440,73458); (73648,73648); (73664,73684); (73728,74649);
  (74752,74862); (74880,75075); (77712,77808); (77824,78894); (82944,83526); (92160,92728); (92736,92766); (92768,92777);
  (92784,92862); (92864,92873); (92880,92909); (92928,92975); (92992,92995); (93008,93017); (93019,93025); (93027,93047);
  (93053,93071); (93760,93846); (93952,94026); (94032,94032); (94099,94111); (94176,94177); (94179,94179); (94208,100343);
  (100352,101589); (101632,101640); (110576,110579); (110581,110587); (110589,110590); (110592,110882); (110928,110930); (110948,110951);
  (110960,111355); (113664,113770); (113776,113788); (113792,113800); (113808,113817); (119520,119539); (119648,119672); (119808,119892);
  (119894,119964); (119966,119967); (119970,119970); (119973,119974); (119977,119980); (119982,119993); (119995,119995); (119997,120003);
  (120005,120069); (120071,120074); (120077,120084); (120086,120092); (120094,120121); (120123,120126); (120128,120132); (120134,120134);
  (120138,120144); (120146,120485); (120488,120512); (120514,120538); (120540,120570); (120572,120596); (120598,120628); (120630,120654);
  (120656,120686); (120688,120712); (120714,120744); (120746,120770); (120772,120779); (120782,120831); (122624,122654); (123136,123180);
  (123191,123197); (123200,123209); (123214,123214); (123536,123565); (123584,123627); (123632,123641); (124896,124902); (124904,124907);
  (124909,124910); (124912,124926); (124928,125124); (125127,125135); (125184,125251); (125259,125259); (125264,125273); (126065,126123);
  (126125,126127); (126129,126132); (126209,126253); (126255,126269); (126464,126467); (126469,126495); (126497,126498); (126500,126500);
  (126503,126503); (126505,126514); (126516,126519); (126521,126521); (126523,126523); (126530,126530); (126535,126535); (126537,126537);
  (126539,126539); (126541,126543); (126545,126546); (126548,126548); (126551,126551); (126553,126553); (126555,126555); (126557,126557);
  (126559,126559); (126561,126562); (126564,126564); (126567,126570); (126572,126578); (126580,126583); (126585,126588); (126590,126590);
  (126592,126601); (126603,126619); (126625,126627); (126629,126633); (126635,126651); (127232,127244); (130032,130041); (131072,173791);
  (173824,177976); (177984,178205); (178208,183969); (183984,191456); (194560,195101); (196608,201546)].

(** Code points with the Unicode Cased property (c.islower() or c.isupper() or c.istitle()). *)
Definition cased_ranges : list (N * N) := [
  (65,90); (97,122); (170,170); (181,181); (186,186); (192,214); (216,246); (248,442);
  (444,447); (452,659); (661,696); (704,705); (736,740); (837,837); (880,883); (886,887);
  (890,893); (895,895); (902,902); (904,906); (908,908); (910,929); (931,1013); (1015,1153);
  (1162,1327); (1329,1366); (1376,1416); (4256,4293); (4295,4295); (4301,4301); (4304,4346); (4349,4351);
  (5024,5109); (5112,5117); (7296,7304); (7312,7354); (7357,7359); (7424,7615); (7680,7957); (7960,7965);
  (7968,8005); (8008,8013); (8016,8023); (8025,8025); (8027,8027); (8029,8029); (8031,8061); (8064,8116);
  (8118,8124); (8126,8126); (8130,8132); (8134,8140); (8144,8147); (8150,8155); (8160,8172); (8178,8180);
  (8182,8188); (8305,8305); (8319,8319); (8336,8348); (8450,8450); (8455,8455); (8458,8467); (8469,8469);
  (8473,8477); (8484,8484); (8486,8486); (8488,8488); (8490,8493); (8495,8500); (8505,8505); (8508,8511);
  (8517,8521); (8526,8526); (8544,8575); (8579,8580); (9398,9449); (11264,11492); (11499,11502); (11506,11507);
  (11520,11557); (11559,11559); (11565,11565); (42560,42605); (42624,42653); (42786,42887); (42891,42894); (42896,42954);
  (42960,42961); (42963,42963); (42965,42969); (42997,42998); (43000,43002); (43824,43866); (43868,43880); (43888,43967);
  (64256,64262); (64275,64279); (65313,65338); (65345,65370); (66560,66639); (66736,66771); (66776,66811); (66928,66938);
  (66940,66954); (66956,66962); (66964,66965); (66967,66977); (66979,66993); (66995,67001); (67003,67004); (67456,67456);
  (67459,67461); (67463,67504); (67506,67514); (68736,68786); (68800,68850); (71840,71903); (93760,93823); (119808,119892);
  (119894,119964); (119966,119967); (119970,119970); (119973,119974); (119977,119980); (119982,119993); (119995,119995); (119997,120003);
  (120005,120069); (120071,120074); (120077,120084); (120086,120092); (120094,120121); (120123,120126); (120128,120132); (120134,120134);
  (120138,120144); (120146,120485); (120488,120512); (120514,120538); (120540,120570); (120572,120596); (120598,120628); (120630,120654);
  (120656,120686); (120688,120712); (120714,120744); (120746,120770); (120772,120779); (122624,122633); (122635,122654); (125184,125251);
  (127280,127305); (127312,127337); (127344,127369)].

(** Code points with the Unicode Case_Ignorable property, as used by str.lower for the final sigma. *)
Definition case_ignorable_ranges : list (N * N) := [
  (39,39); (46,46); (58,58); (94,94); (96,96); (168,168); (173,173); (175,175);
  (180,180); (183,184); (688,879); (884,885); (890,890); (900,901); (903,903); (1155,1161);
  (1369,1369); (1375,1375); (1425,1469); (1471,1471); (1473,1474); (1476,1477); (1479,1479); (1524,1524);
  (1536,1541); (1552,1562); (1564,1564); (1600,1600); (1611,1631); (1648,1648); (1750,1757); (1759,1768);
  (1770,1773); (1807,1807); (1809,1809); (1840,1866); (1958,1968); (2027,2037); (2042,2042); (2045,2045);
  (2070,2093); (2137,2139); (2184,2184); (2192,2193); (2200,2207); (2249,2306); (2362,2362); (2364,2364);
  (2369,2376); (2381,2381); (2385,2391); (2402,2403); (2417,2417); (2433,2433); (2492,2492); (2497,2500);
  (2509,2509); (2530,2531); (2558,2558); (2561,2562); (2620,2620); (2625,2626); (2631,2632); (2635,2637);
  (2641,2641); (2672,2673); (2677,2677); (2689,2690); (2748,2748); (2753,2757); (2759,2760); (2765,2765);
  (2786,2787); (2810,2815); (2817,2817); (2876,2876); (2879,2879); (2881,2884); (2893,2893); (2901,2902);
  (2914,2915); (2946,2946); (3008,3008); (3021,3021); (3072,3072); (3076,3076); (3132,3132); (3134,3136);
  (3142,3144); (3146,3149); (3157,3158); (3170,3171); (3201,3201); (3260,3260); (3263,3263); (3270,3270);
  (3276,3277); (3298,3299); (3328,3329); (3387,3388); (3393,3396); (3405,3405); (3426,3427); (3457,3457);
  (3530,3530); (3538,3540); (3542,3542); (3633,3633); (3636,3642); (3654,3662); (3761,3761); (3764,3772);
  (3782,3782); (3784,3789); (3864,3865); (3893,3893); (3895,3895); (3897,3897); (3953,3966); (3968,3972);
  (3974,3975); (3981,3991); (3993,4028); (4038,4038); (4141,4144); (4146,4151); (4153,4154); (4157,4158);
  (4184,4185); (4190,4192); (4209,4212); (4226,4226); (4229,4230); (4237,4237); (4253,4253); (4348,4348);
  (4957,4959); (5906,5908); (5938,5939); (5970,5971); (6002,6003); (6068,6069); (6071,6077); (6086,6086);
  (6089,6099); (6103,6103); (6109,6109); (6155,6159); (6211,6211); (6277,6278); (6313,6313); (6432,6434);
  (6439,6440); (6450,6450); (6457,6459); (6679,6680); (6683,6683); (6742,6742); (6744,6750); (6752,6752);
  (6754,6754); (6757,6764); (6771,6780); (6783,6783); (6823,6823); (6832,6862); (6912,6915); (6964,6964);
  (6966,6970); (6972,6972); (6978,6978); (7019,7027); (7040,7041); (7074,7077); (7080,7081); (7083,7085);
  (7142,7142); (7144,7145); (7149,7149); (7151,7153); (7212,7219); (7222,7223); (7288,7293); (7376,7378);
  (7380,7392); (7394,7400); (7405,7405); (7412,7412); (7416,7417); (7468,7530); (7544,7544); (7579,7679);
  (8125,8125); (8127,8129); (8141,8143); (8157,8159); (8173,8175); (8189,8190); (8203,8207); (8216,8217);
  (8228,8228); (8231,8231); (8234,8238); (8288,8292); (8294,8303); (8305,8305); (8319,8319); (8336,8348);
  (8400,8432); (11388,11389); (11503,11505); (11631,11631); (11647,11647); (11744,11775); (11823,11823); (12293,12293);
  (12330,12333); (12337,12341); (12347,12347); (12441,12446); (12540,12542); (40981,40981); (42232,42237); (42508,42508);
  (42607,42610); (42612,42621); (42623,42623); (42652,42655); (42736,42737); (42752,42785); (42864,42864); (42888,42890);
  (42994,42996); (43000,43001); (43010,43010); (43014,43014); (43019,43019); (43045,43046); (43052,43052); (43204,43205);
  (43232,43249); (43263,43263); (43302,43309); (43335,43345); (43392,43394); (43443,43443); (43446,43449); (43452,43453);
  (43471,43471); (43493,43494); (43561,43566); (43569,43570); (43573,43574); (43587,43587); (43596,43596); (43632,43632);
  (43644,43644); (43696,43696); (43698,43700); (43703,43704); (43710,43711); (43713,43713); (43741,43741); (43756,43757);
  (43763,43764); (43766,43766); (43867,43871); (43881,43883); (44005,44005); (44008,44008); (44013,44013); (64286,64286);
  (64434,64450); (65024,65039); (65043,65043); (65056,65071); (65106,65106); (65109,65109); (65279,65279); (65287,65287);
  (65294,65294); (65306,65306); (65342,65342); (65344,65344); (65392,65392); (65438,65439); (65507,65507); (65529,65531);
  (66045,66045); (66272,66272); (66422,66426); (67456,67461); (67463,67504); (67506,67514); (68097,68099); (68101,68102);
  (68108,68111); (68152,68154); (68159,68159); (68325,68326); (68900,68903); (69291,69292); (69446,69456); (69506,69509);
  (69633,69633); (69688,69702); (69744,69744); (69747,69748); (69759,69761); (69811,69814); (69817,69818); (69821,69821);
  (69826,69826); (69837,69837); (69888,69890); (69927,69931); (69933,69940); (70003,70003); (70016,70017); (70070,70078);
  (70089,70092); (70095,70095); (70191,70193); (70196,70196); (70198,70199); (70206,70206); (70367,70367); (70371,70378);
  (70400,70401); (70459,70460); (70464,70464); (70502,70508); (70512,70516); (70712,70719); (70722,70724); (70726,70726);
  (70750,70750); (70835,70840); (70842,70842); (70847,70848); (70850,70851); (71090,71093); (71100,71101); (71103,71104);
  (71132,71133); (71219,71226); (71229,71229); (71231,71232); (71339,71339); (71341,71341); (71344,71349); (71351,71351);
  (71453,71455); (71458,71461); (71463,71467); (71727,71735); (71737,71738); (71995,71996); (71998,71998); (72003,72003);
  (72148,72151); (72154,72155); (72160,72160); (72193,72202); (72243,72248); (72251,72254); (72263,72263); (72273,72278);
  (72281,72283); (72330,72342); (72344,72345); (72752,72758); (72760,72765); (72767,72767); (72850,72871); (72874,72880);
  (72882,72883); (72885,72886); (73009,73014); (73018,73018); (73020,73021); (73023,73029); (73031,73031); (73104,73105);
  (73109,73109); (73111,73111); (73459,73460); (78896,78904); (92912,92916); (92976,92982); (92992,92995); (94031,94031);
  (94095,94111); (94176,94177); (94179,94180); (110576,110579); (110581,110587); (110589,110590); (113821,113822); (113824,113827);
  (118528,118573); (118576,118598); (119143,119145); (119155,119170); (119173,119179); (119210,119213); (119362,119364); (121344,121398);
  (121403,121452); (121461,121461); (121476,121476); (121499,121503); (121505,121519); (122880,122886); (122888,122904); (122907,122913);
  (122915,122916); (122918,122922); (123184,123197); (123566,123566); (123628,123631); (125136,125142); (125252,125259); (127995,127999);
  (917505,917505); (917536,917631); (917760,917999)].

(** Simple lowercase mapping of str.lower, as runs (lo, hi, step, delta):
    a code point c with lo <= c <= hi and (c - lo) mod step = 0 maps to c + delta. *)
Definition lower_runs : list (N * N * N * Z) := [
  (65,90,1,(32)%Z); (192,214,1,(32)%Z); (216,222,1,(32)%Z); (256,302,2,(1)%Z); (306,310,2,(1)%Z); (313,327,2,(1)%Z);
  (330,374,2,(1)%Z); (376,376,1,(-121)%Z); (377,381,2,(1)%Z); (385,385,1,(210)%Z); (386,388,2,(1)%Z); (390,390,1,(206)%Z);
  (391,391,1,(1)%Z); (393,394,1,(205)%Z); (395,395,1,(1)%Z); (398,398,1,(79)%Z); (399,399,1,(202)%Z); (400,400,1,(203)%Z);
  (401,401,1,(1)%Z); (403,403,1,(205)%Z); (404,404,1,(207)%Z); (406,406,1,(211)%Z); (407,407,1,(209)%Z); (408,408,1,(1)%Z);
  (412,412,1,(211)%Z); (413,413,1,(213)%Z); (415,415,1,(214)%Z); (416,420,2,(1)%Z); (422,422,1,(218)%Z); (423,423,1,(1)%Z);
  (425,425,1,(218)%Z); (428,428,1,(1)%Z); (430,430,1,(218)%Z); (431,431,1,(1)%Z); (433,434,1,(217)%Z); (435,437,2,(1)%Z);
  (439,439,1,(219)%Z); (440,440,1,(1)%Z); (444,444,1,(1)%Z); (452,452,1,(2)%Z); (453,453,1,(1)%Z); (455,455,1,(2)%Z);
  (456,456,1,(1)%Z); (458,458,1,(2)%Z); (459,475,2,(1)%Z); (478,494,2,(1)%Z); (497,497,1,(2)%Z); (498,500,2,(1)%Z);
  (502,502,1,(-97)%Z); (503,503,1,(-56)%Z); (504,542,2,(1)%Z); (544,544,1,(-130)%Z); (546,562,2,(1)%Z); (570,570,1,(10795)%Z);
  (571,571,1,(1)%Z); (573,573,1,(-163)%Z); (574,574,1,(10792)%Z); (577,577,1,(1)%Z); (579,579,1,(-195)%Z); (580,580,1,(69)%Z);
  (581,581,1,(71)%Z); (582,590,2,(1)%Z); (880,882,2,(1)%Z); (886,886,1,(1)%Z); (895,895,1,(116)%Z); (902,902,1,(38)%Z);
  (904,906,1,(37)%Z); (908,908,1,(64)%Z); (910,911,1,(63)%Z); (913,929,1,(32)%Z); (931,939,1,(32)%Z); (975,975,1,(8)%Z);
  (984,1006,2,(1)%Z); (1012,1012,1,(-60)%Z); (1015,1015,1,(1)%Z); (1017,1017,1,(-7)%Z); (1018,1018,1,(1)%Z); (1021,1023,1,(-130)%Z);
  (1024,1039,1,(80)%Z); (1040,1071,1,(32)%Z); (1120,1152,2,(1)%Z); (1162,1214,2,(1)%Z); (1216,1216,1,(15)%Z); (1217,1229,2,(1)%Z);
  (1232,1326,2,(1)%Z); (1329,1366,1,(48)%Z); (4256,4293,1,(7264)%Z); (4295,4295,1,(7264)%Z); (4301,4301,1,(7264)%Z); (5024,5103,1,(38864)%Z);
  (5104,5109,1,(8)%Z); (7312,7354,1,(-3008)%Z); (7357,7359,1,(-3008)%Z); (7680,7828,2,(1)%Z); (7838,7838,1,(-7615)%Z); (7840,7934,2,(1)%Z);
  (7944,7951,1,(-8)%Z); (7960,7965,1,(-8)%Z); (7976,7983,1,(-8)%Z); (7992,7999,1,(-8)%Z); (8008,8013,1,(-8)%Z); (8025,8031,2,(-8)%Z);
  (8040,8047,1,(-8)%Z); (8072,8079,1,(-8)%Z); (8088,8095,1,(-8)%Z); (8104,8111,1,(-8)%Z); (8120,8121,1,(-8)%Z); (8122,8123,1,(-74)%Z);
  (8124,8124,1,(-9)%Z); (8136,8139,1,(-86)%Z); (8140,8140,1,(-9)%Z); (8152,8153,1,(-8)%Z); (8154,8155,1,(-100)%Z); (8168,8169,1,(-8)%Z);
  (8170,8171,1,(-112)%Z); (8172,8172,1,(-7)%Z); (8184,8185,1,(-128)%Z); (8186,8187,1,(-126)%Z); (8188,8188,1,(-9)%Z); (8486,8486,1,(-7517)%Z);
  (8490,8490,1,(-8383)%Z); (8491,8491,1,(-8262)%Z); (8498,8498,1,(28)%Z); (8544,8559,1,(16)%Z); (8579,8579,1,(1)%Z); (9398,9423,1,(26)%Z);
  (11264,11311,1,(48)%Z); (11360,11360,1,(1)%Z); (11362,11362,1,(-10743)%Z); (11363,11363,1,(-3814)%Z); (11364,11364,1,(-10727)%Z); (11367,11371,2,(1)%Z);
  (11373,11373,1,(-10780)%Z); (11374,11374,1,(-10749)%Z); (11375,11375,1,(-10783)%Z); (11376,11376,1,(-10782)%Z); (11378,11378,1,(1)%Z); (11381,11381,1,(1)%Z);
  (11390,11391,1,(-10815)%Z); (11392,11490,2,(1)%Z); (11499,11501,2,(1)%Z); (11506,11506,1,(1)%Z); (42560,42604,2,(1)%Z); (42624,42650,2,(1)%Z);
  (42786,42798,2,(1)%Z); (42802,42862,2,(1)%Z); (42873,42875,2,(1)%Z); (42877,42877,1,(-35332)%Z); (42878,42886,2,(1)%Z); (42891,42891,1,(1)%Z);
  (42893,42893,1,(-42280)%Z); (42896,42898,2,(1)%Z); (42902,42920,2,(1)%Z); (42922,42922,1,(-42308)%Z); (42923,42923,1,(-42319)%Z); (42924,42924,1,(-42315)%Z);
  (42925,42925,1,(-42305)%Z); (42926,42926,1,(-42308)%Z); (42928,42928,1,(-42258)%Z); (42929,42929,1,(-42282)%Z); (42930,42930,1,(-42261)%Z); (42931,42931,1,(928)%Z);
  (42932,42946,2,(1)%Z); (42948,42948,1,(-48)%Z); (42949,42949,1,(-42307)%Z); (42950,42950,1,(-35384)%Z); (42951,42953,2,(1)%Z); (42960,42960,1,(1)%Z);
  (42966,42968,2,(1)%Z); (42997,42997,1,(1)%Z); (65313,65338,1,(32)%Z); (66560,66599,1,(40)%Z); (66736,66771,1,(40)%Z); (66928,66938,1,(39)%Z);
  (66940,66954,1,(39)%Z); (66956,66962,1,(39)%Z); (66964,66965,1,(39)%Z); (68736,68786,1,(64)%Z); (71840,71871,1,(32)%Z); (93760,93791,1,(32)%Z);
  (125184,125217,1,(34)%Z)].

(** The digit zero of every run of ten Unicode decimal digits (category Nd). *)
Definition digit_zeros : list N := [
  48; 1632; 1776; 1984; 2406; 2534; 2662; 2790; 2918; 3046;
  3174; 3302; 3430; 3558; 3664; 3792; 3872; 4160; 4240; 6112;
  6160; 6470; 6608; 6784; 6800; 6992; 7088; 7232; 7248; 42528;
  43216; 43264; 43472; 43504; 43600; 44016; 65296; 66720; 68912; 69734;
  69872; 69942; 70096; 70384; 70736; 70864; 71248; 71360; 71472; 71904;
  72016; 72784; 73040; 73120; 92768; 92864; 93008; 120782; 120792; 120802;
  120812; 120822; 123200; 123632; 125264; 130032].

Local Close Scope N_scope.

Definition is_space (c : N) : bool := in_ranges c space_ranges.
Definition is_word (c : N) : bool := in_ranges c word_ranges.
Definition is_cased (c : N) : bool := in_ranges c cased_ranges.
Definition is_case_ignorable (c : N) : bool := in_ranges c case_ignorable_ranges.

(** The value of a decimal digit ([\d], and the digits [int()] accepts). *)
Definition digit_value (c : N) : option N :=
  match find (fun z => (z <=? c)%N && (c <? z + 10)%N) digit_zeros with
  | Some z => Some (c - z)%N
  | None => None
  end.

Definition is_digit (c : N) : bool :=
  match digit_value c with Some _ => true | None => false end.

(** *** [str.lower] *)

Fixpoint lower_simple_go (c : N) (rs : list (N * N * N * Z)) : N :=
  match rs with
  | [] => c
  | (lo, hi, st, d) :: rs' =>
      if (lo <=? c)%N && (c <=? hi)%N && ((c - lo) mod st =? 0)%N
      then Z.to_N (Z.of_N c + d) else lower_simple_go c rs'
  end.

(** Full lowercase mapping of one code point (U+0130 is the only code point
    whose lowercase form has two code points). *)
Definition lower_char (c : N) : list N :=
  if (c =? 304)%N then [105; 775]%N else [lower_simple_go c lower_runs].

Fixpoint first_not_ignorable (l : list N) : option N :=
  match l with
  | [] => None
  | c :: l' => if is_case_ignorable c then first_not_ignorable l' else Some c
  end.

(** CPython's [handle_capital_sigma]: U+03A3 becomes the final form U+03C2
    when preceded by a cased letter and not followed by one (case-ignorable
    code points being skipped on both sides), U+03C3 otherwise. *)
Definition capital_sigma (before_rev after : list N) : N :=
  let final :=
    match first_not_ignorable before_rev with
    | Some c => is_cased c
    | None => false
    end &&
    match first_not_ignorable after with
    | Some c => negb (is_cased c)
    | None => true
    end in
  if final then 962%N else 963%N.

Fixpoint lower_go (before_rev s : list N) : list N :=
  match s with
  | [] => []
  | c :: s' =>
      (if (c =? 931)%N then [capital_sigma before_rev s'] else lower_char c)
        ++ lower_go (c :: before_rev) s'
  end.

(** [str.lower()] *)
Definition py_lower (s : pystr) : pystr := lower_go [] s.

(** *** Character matching under [re.IGNORECASE]

    For the ASCII pattern characters of this program, a text character matches
    under [re.IGNORECASE] when it has the same ASCII case fold; besides the
    ASCII letters, U+0130 and U+0131 match [i], U+017F matches [s] and U+212A
    matches [k]. *)
Definition ascii_fold (c : N) : N :=
  if (65 <=? c)%N && (c <=? 90)%N then (c + 32)%N else c.

Definition ci_extra (c : N) : N :=
  match c with
  | 304%N | 305%N => 105%N
  | 383%N => 115%N
  | 8490%N => 107%N
  | _ => c
  end.

Definition ci_eq (p c : N) : bool := (ascii_fold (ci_extra c) =? ascii_fold p)%N.

(** [[A-Z]] under [re.IGNORECASE]. *)
Definition cls_AZ_i (c : N) : bool :=
  let f := ascii_fold (ci_extra c) in (97 <=? f)%N && (f <=? 122)%N.
(** [[a-z\s]] under [re.IGNORECASE]. *)
Definition cls_az_s_i (c : N) : bool := cls_AZ_i c || is_space c.
(** [[A-Za-z\s.]] under [re.IGNORECASE]. *)
Definition cls_AZaz_s_dot_i (c : N) : bool := cls_AZ_i c || is_space c || (c =? 46)%N.
(** [[^.!?\n]] *)
Definition cls_not_term (c : N) : bool :=
  negb ((c =? 46)%N || (c =? 33)%N || (c =? 63)%N || (c =? 10)%N).
(** [[0-9]] *)
Definition cls_09 (c : N) : bool := (48 <=? c)%N && (c <=? 57)%N.
(** [[•\-\*\d]] *)
Definition cls_bullet (c : N) : bool :=
  (c =? BULLET)%N || (c =? 45)%N || (c =? 42)%N || is_digit c.
(** The class of characters illegal in file names: less-than, greater-than,
    colon, double quote, slash, backslash, bar, question mark, star. *)
Definition cls_illegal (c : N) : bool := existsb (N.eqb c) (u "<>:" ++ [34%N] ++ u "/\|?*").
(** [[^\w\s-]] *)
Definition cls_not_word_space_hyphen (c : N) : bool :=
  negb (is_word c || is_space c || (c =? 45)%N).
(** [.] with [re.DOTALL] *)
Definition cls_any (c : N) : bool := true.

(** ** Regular expressions *)

(** A pattern.  Every repetition in the program's patterns repeats a single
    character class, so repetition is [Rep p lo hi greedy] over a class [p];
    [hi = None] is an unbounded repetition.  The flags are compiled into the
    pattern: [re.IGNORECASE] into the classes, [re.DOTALL] into [cls_any],
    [re.MULTILINE] into the boolean of [Caret] and [Dollar]. *)
Inductive re : Type :=
| Eps
| Chr (p : N -> bool)
| Rep (p : N -> bool) (lo : nat) (hi : option nat) (greedy : bool)
| Cat (r1 r2 : re)
| Alt (r1 r2 : re)
| Grp (r : re)
| Caret (multiline : bool)
| Dollar (multiline : bool)
| Ahead (r : re).

Fixpoint cat_all (rs : list re) : re :=
  match rs with
  | [] => Eps
  | [r] => r
  | r :: rs' => Cat r (cat_all rs')
  end.

Fixpoint alt_all (rs : list re) : re :=
  match rs with
  | [] => Eps
  | [r] => r
  | r :: rs' => Alt r (alt_all rs')
  end.

(** A literal, matched under [re.IGNORECASE]. *)
Definition lit_i (s : string) : re := cat_all (map (fun p => Chr (ci_eq p)) (u s)).

(** The span of group 1, when it took part in the match. *)
Definition grp := option (nat * nat).

Fixpoint first_some {A : Type} (f : nat -> option A) (l : list nat) : option A :=
  match l with
  | [] => None
  | x :: l' => match f x with Some y => Some y | None => first_some f l' end
  end.

Section Engine.
Variable s : pystr.

Definition char_at (i : nat) : option N := nth_error s i.

(** Number of consecutive characters satisfying [p] from position [i],
    at most [fuel]. *)
Fixpoint run_len (p : N -> bool) (i fuel : nat) : nat :=
  match fuel with
  | O => O
  | S f =>
      match char_at i with
      | Some c => if p c then S (run_len p (S i) f) else O
      | None => O
      end
  end.

(** The repetition counts a quantifier tries, in order: most first when
    greedy, fewest first when lazy. *)
Definition rep_counts (lo n : nat) (greedy : bool) : list nat :=
  if greedy then rev (seq lo (S n - lo)) else seq lo (S n - lo).

(** Backtracking matcher in continuation-passing style: [mt r i g k] matches
    [r] at position [i] with current group [g]; the continuation [k] receives
    the end position and the group, and its failure makes [mt] try the next
    alternative. *)
Fixpoint mt (r : re) (i : nat) (g : grp)
         (k : nat -> grp -> option (nat * grp)) : option (nat * grp) :=
  match r with
  | Eps => k i g
  | Chr p =>
      match char_at i with
      | Some c => if p c then k (S i) g else None
      | None => None
      end
  | Rep p lo hi greedy =>
      let n := run_len p i (match hi with Some h => h | None => length s end) in
      if n <? lo then None
      else first_some (fun j => k (i + j) g) (rep_counts lo n greedy)
  | Cat r1 r2 => mt r1 i g (fun j g' => mt r2 j g' k)
  | Alt r1 r2 =>
      match mt r1 i g k with
      | Some x => Some x
      | None => mt r2 i g k
      end
  | Grp r1 => mt r1 i g (fun j _ => k j (Some (i, j)))
  | Caret ml =>
      if (i =? 0) || (ml && match char_at (pred i) with Some c => (c =? 10)%N | None => false end)
      then k i g else None
  | Dollar ml =>
      if (i =? length s)
         || (match char_at i with Some c => (c =? 10)%N | None => false end
             && (ml || (S i =? length s)))
      then k i g else None
  | Ahead r1 =>
      match mt r1 i g (fun j g' => Some (j, g')) with
      | Some _ => k i g
      | None => None
      end
  end.

(** A match starting at [i]; with [must_advance] an empty match is refused,
    as CPython does right after an empty match. *)
Definition match_at (r : re) (i : nat) (must_advance : bool) : option (nat * grp) :=
  mt r i None (fun j g => if must_advance && (j =? i) then None else Some (j, g)).

(** [sre_search] from position [pos]: the leftmost start that matches. *)
Definition search_from (r : re) (pos : nat) (must_advance : bool)
  : option (nat * nat * grp) :=
  first_some
    (fun i => match match_at r i (must_advance && (i =? pos)) with
              | Some (j, g) => Some (i, j, g)
              | None => None
              end)
    (seq pos (S (length s) - pos)).

Definition slice (i j : nat) : pystr := firstn (j - i) (skipn i s).

(** [match.group(1)]; a group that did not take part would be [None] in
    Python, which no pattern of the program produces. *)
Definition group_str (g : grp) : pystr :=
  match g with Some (a, b) => slice a b | None => [] end.

(** The loop of [re.findall] for a pattern with one group. *)
Fixpoint findall_loop (r : re) (fuel pos : nat) (must_advance : bool) : list pystr :=
  match fuel with
  | O => []
  | S f =>
      match search_from r pos must_advance with
      | None => []
      | Some (st, en, g) => group_str g :: findall_loop r f en (en =? st)
      end
  end.

(** The loop of [re.sub] with a constant replacement. *)
Fixpoint sub_loop (r : re) (repl : pystr) (fuel pos : nat) (must_advance : bool) : pystr :=
  match fuel with
  | O => skipn pos s
  | S f =>
      match search_from r pos must_advance with
      | None => skipn pos s
      | Some (st, en, _) => slice pos st ++ repl ++ sub_loop r repl f en (en =? st)
      end
  end.

End Engine.

(** Each step of the loops either moves the position forward or turns
    [must_advance] on, so [2 * length s + 2] rounds always reach the end. *)
Definition loop_fuel (s : pystr) : nat := 2 * length s + 2.

(** [re.search(r, s)]: start, end and group 1 of the match. *)
Definition re_search (r : re) (s : pystr) : option (nat * nat * grp) :=
  search_from s r 0 false.

(** [re.findall(r, s)] *)
Definition re_findall (r : re) (s : pystr) : list pystr :=
  findall_loop s r (loop_fuel s) 0 false.

(** [re.sub(r, repl, s)] *)
Definition re_sub (r : re) (repl s : pystr) : pystr :=
  sub_loop s r repl (loop_fuel s) 0 false.

(** Patterns without a capture group pass the current group on unchanged. *)
Fixpoint grp_free (r : re) : bool :=
  match r with
  | Cat r1 r2 | Alt r1 r2 => grp_free r1 && grp_free r2
  | Grp _ => false
  | _ => true
  end.

(** ** String methods *)

Fixpoint lstrip_ws (s : pystr) : pystr :=
  match s with
  | [] => []
  | c :: s' => if is_space c then lstrip_ws s' else s
  end.

(** [str.strip()] *)
Definition py_strip (s : pystr) : pystr := rev (lstrip_ws (rev (lstrip_ws s))).

Fixpoint lstrip_char (ch : N) (s : pystr) : pystr :=
  match s with
  | [] => []
  | c :: s' => if (c =? ch)%N then lstrip_char ch s' else s
  end.

(** [str.rstrip(ch)] for a one-character argument *)
Definition py_rstrip_char (ch : N) (s : pystr) : pystr := rev (lstrip_char ch (rev s)).

Fixpoint is_prefix (p s : pystr) : bool :=
  match p, s with
  | [], _ => true
  | a :: p', b :: s' => (a =? b)%N && is_prefix p' s'
  | _ :: _, [] => false
  end.

(** [s.startswith((p1, p2, ...))] *)
Definition startswith_any (s : pystr) (ps : list pystr) : bool :=
  existsb (fun p => is_prefix p s) ps.

(** [needle in hay] *)
Fixpoint py_contains (needle hay : pystr) : bool :=
  is_prefix needle hay
  || match hay with [] => false | _ :: hay' => py_contains needle hay' end.

(** [s.split(sep)] for a one-character separator *)
Fixpoint split_char (sep : N) (s : pystr) : list pystr :=
  match s with
  | [] => [[]]
  | c :: s' =>
      if (c =? sep)%N then [] :: split_char sep s'
      else match split_char sep s' with
           | [] => [[c]]
           | w :: ws => (c :: w) :: ws
           end
  end.

(** [sep.join(l)] *)
Fixpoint py_join (sep : pystr) (l : list pystr) : pystr :=
  match l with
  | [] => []
  | [x] => x
  | x :: l' => x ++ sep ++ py_join sep l'
  end.

(** [s.replace(a, b)] for one-character [a] and [b] *)
Definition replace_char (a b : N) (s : pystr) : pystr :=
  map (fun c => if (c =? a)%N then b else c) s.

Definition is_nil {A : Type} (l : list A) : bool :=
  match l with [] => true | _ => false end.

(** ** [RecipeExtractor.parse_recipe_data] *)

(** The dictionary [recipe_data]; an absent calorie or protein value is the
    empty string, as in the source. *)
Record recipe := mk_recipe {
  title : pystr;
  calories : pystr;
  protein : pystr;
  ingredients : list pystr;
  directions : list pystr;
  pro_tips : list pystr
}.

(** Pattern "\s+" *)
Definition re_ws : re := Rep is_space 1 None true.

(** Pattern "([A-Z][^.!?\n]*(?:breakfast|...|wrap)[^.!?\n]*" closed by a parenthesis,
    IGNORECASE | MULTILINE *)
Definition re_title_meal : re :=
  Grp (cat_all
    [Chr cls_AZ_i; Rep cls_not_term 0 None true;
     alt_all (map lit_i ["breakfast"; "lunch"; "dinner"; "pizza"; "sandwich";
                         "burrito"; "bagel"; "waffle"; "pancake"; "salad";
                         "bowl"; "plate"; "wrap"]%string);
     Rep cls_not_term 0 None true]).

(** Pattern "([A-Z][a-z\s]+(?:chicken|turkey|beef|pork|fish)[^.!?\n]*" closed by a
    parenthesis, IGNORECASE | MULTILINE *)
Definition re_title_protein : re :=
  Grp (cat_all
    [Chr cls_AZ_i; Rep cls_az_s_i 1 None true;
     alt_all (map lit_i ["chicken"; "turkey"; "beef"; "pork"; "fish"]%string);
     Rep cls_not_term 0 None true]).

(** Pattern "^([A-Z][^.!?\n]{10,50})", IGNORECASE | MULTILINE *)
Definition re_title_start : re :=
  Cat (Caret true) (Grp (Cat (Chr cls_AZ_i) (Rep cls_not_term 10 (Some 50) true))).

Definition title_patterns : list re := [re_title_meal; re_title_protein; re_title_start].

(** Pattern "^[0-9]+\.?\s*" *)
Definition re_num_prefix : re :=
  cat_all [Caret false; Rep cls_09 1 None true; Rep (N.eqb 46) 0 (Some 1) true;
           Rep is_space 0 None true].

(** Pattern "([A-Za-z\s.]+(?:burrito|pizza|...|plate))", IGNORECASE *)
Definition re_common_name : re :=
  Grp (Cat (Rep cls_AZaz_s_dot_i 1 None true)
           (alt_all (map lit_i ["burrito"; "pizza"; "sandwich"; "bagel"; "waffle";
                                "pancake"; "salad"; "bowl"; "plate"]%string))).

(** Pattern "(\d+)\s*calories", IGNORECASE *)
Definition re_calories : re :=
  cat_all [Grp (Rep is_digit 1 None true); Rep is_space 0 None true; lit_i "calories"].

(** Pattern "(\d+)\s*grams?\s*of\s*protein", IGNORECASE *)
Definition re_protein : re :=
  cat_all [Grp (Rep is_digit 1 None true); Rep is_space 0 None true; lit_i "gram";
           Rep (ci_eq 115) 0 (Some 1) true; Rep is_space 0 None true; lit_i "of";
           Rep is_space 0 None true; lit_i "protein"].

(** Pattern "Ingredients\s*(.*?)(?:Directions|$)", IGNORECASE | DOTALL *)
Definition re_ingredients : re :=
  cat_all [lit_i "Ingredients"; Rep is_space 0 None true; Grp (Rep cls_any 0 None false);
           Alt (lit_i "Directions") (Dollar false)].

(** Pattern "^[•\-\*\d]+\.?\s*" *)
Definition re_bullet_prefix : re :=
  cat_all [Caret false; Rep cls_bullet 1 None true; Rep (N.eqb 46) 0 (Some 1) true;
           Rep is_space 0 None true].

(** Pattern "Directions\s*(.*?)(?:PRO TIP|$)", IGNORECASE | DOTALL *)
Definition re_directions : re :=
  cat_all [lit_i "Directions"; Rep is_space 0 None true; Grp (Rep cls_any 0 None false);
           Alt (lit_i "PRO TIP") (Dollar false)].

(** Pattern "(\d+\..*?)(?=\d+\.|$)", DOTALL *)
Definition re_numbered : re :=
  Cat (Grp (cat_all [Rep is_digit 1 None true; Chr (N.eqb 46); Rep cls_any 0 None false]))
      (Ahead (Alt (Cat (Rep is_digit 1 None true) (Chr (N.eqb 46))) (Dollar false))).

(** Pattern "^\d+\.?\s*" *)
Definition re_step_prefix : re :=
  cat_all [Caret false; Rep is_digit 1 None true; Rep (N.eqb 46) 0 (Some 1) true;
           Rep is_space 0 None true].

(** Pattern "PRO TIP[S]?\s*(.*?)$", IGNORECASE | DOTALL *)
Definition re_pro_tips : re :=
  cat_all [lit_i "PRO TIP"; Rep (ci_eq 83) 0 (Some 1) true; Rep is_space 0 None true;
           Grp (Rep cls_any 0 None false); Dollar false].

(** [text = re.sub(r"\s+", " ", text.strip())] *)
Definition clean_text (text : pystr) : pystr := re_sub re_ws (u " ") (py_strip text).

(** The loop over [title_patterns]: first pattern whose cleaned match is
    longer than 5 and does not start with a cooking verb. *)
Fixpoint pick_title (pats : list re) (text : pystr) : pystr :=
  match pats with
  | [] => []
  | r :: rs =>
      match re_search r text with
      | Some (_, _, g) =>
          let t := re_sub re_num_prefix [] (py_strip (group_str text g)) in
          if (5 <? length t)
             && negb (startswith_any (py_lower t) (map u ["throw"; "add"; "cook"; "place"]%string))
          then t else pick_title rs text
      | None => pick_title rs text
      end
  end.

Definition extract_title (text : pystr) : pystr :=
  let t := pick_title title_patterns text in
  if is_nil t then
    match re_findall re_common_name text with
    | n :: _ => py_strip n
    | [] => []
    end
  else t.

(** [match.group(1)] of the first match, or the empty string. *)
Definition search_group (r : re) (text : pystr) : pystr :=
  match re_search r text with
  | Some (_, _, g) => group_str text g
  | None => []
  end.

(** The loop over the lines of the ingredients section. *)
Fixpoint ingredient_lines (lines : list pystr) : list pystr :=
  match lines with
  | [] => []
  | l0 :: ls =>
      let l := py_strip l0 in
      if negb (is_nil l) && negb (startswith_any (py_lower l) [u "directions"; u "pro tip"])
      then
        let l' := re_sub re_bullet_prefix [] l in
        if is_nil l' then ingredient_lines ls else l' :: ingredient_lines ls
      else ingredient_lines ls
  end.

(** The loop over the numbered steps (and tips). *)
Fixpoint clean_steps (steps : list pystr) : list pystr :=
  match steps with
  | [] => []
  | st0 :: sts =>
      let st := py_strip st0 in
      if is_nil st then clean_steps sts
      else py_strip (re_sub re_step_prefix [] st) :: clean_steps sts
  end.

Definition extract_ingredients (text : pystr) : list pystr :=
  match re_search re_ingredients text with
  | Some (_, _, g) => ingredient_lines (split_char 10 (group_str text g))
  | None => []
  end.

Definition extract_numbered (section : re) (text : pystr) : list pystr :=
  match re_search section text with
  | Some (_, _, g) => clean_steps (re_findall re_numbered (group_str text g))
  | None => []
  end.

Definition parse_recipe_data (text0 : pystr) : recipe :=
  let text := clean_text text0 in
  {| title := extract_title text;
     calories := search_group re_calories text;
     protein := search_group re_protein text;
     ingredients := extract_ingredients text;
     directions := extract_numbered re_directions text;
     pro_tips := extract_numbered re_pro_tips text |}.

(** ** [int()] on a string *)

(** Decimal digits, with single underscores allowed between digits. *)
Fixpoint parse_digits (s : pystr) (acc : Z) (need_digit : bool) : option Z :=
  match s with
  | [] => if need_digit then None else Some acc
  | c :: s' =>
      match digit_value c with
      | Some d => parse_digits s' (10 * acc + Z.of_N d)%Z false
      | None => if (c =? 95)%N && negb need_digit then parse_digits s' acc true else None
      end
  end.

(** [sys.get_int_max_str_digits()]: the default limit on the number of
    digits of a decimal [int()] argument (Python 3.11 and later). *)
Definition int_max_str_digits : nat := 4300.

(** The part of [int(s)] after the sign: the digits with their single
    underscores, and [ValueError] when more than [int_max_str_digits] digits
    (underscores not counted) are given. *)
Definition int_digits (body : pystr) : option Z :=
  if int_max_str_digits <? length (filter (fun c => negb (c =? 95)%N) body)
  then None
  else parse_digits body 0 true.

(** [int(s)]: surrounding whitespace, an optional sign, then digits;
    [None] is the [ValueError]. *)
Definition py_int (s : pystr) : option Z :=
  match py_strip s with
  | [] => None
  | c :: rest =>
      if (c =? 45)%N then option_map Z.opp (int_digits rest)
      else if (c =? 43)%N then int_digits rest
      else int_digits (c :: rest)
  end.

(** ** [RecipeExtractor.generate_tags] *)

(** [self.ingredient_tags], in insertion order. *)
Definition ingredient_tags : list (string * list string) := [
  ("chicken", ["chicken"; "chicken breast"; "chicken tender"]);
  ("turkey", ["turkey"; "turkey bacon"; "turkey sausage"; "turkey chorizo"; "turkey pepperoni"]);
  ("beef", ["beef"; "ground beef"; "steak"]);
  ("pork", ["pork"; "bacon"; "ham"]);
  ("fish", ["fish"; "salmon"; "tuna"; "cod"]);
  ("egg", ["egg"; "egg white"; "eggs"]);
  ("breakfast", ["breakfast"; "bagel"; "waffle"; "pancake"; "burrito"; "scramble"]);
  ("lunch", ["lunch"; "sandwich"; "wrap"; "salad"]);
  ("dinner", ["dinner"; "pasta"; "rice"; "stir fry"]);
  ("snack", ["snack"; "bar"; "bite"; "ball"]);
  ("pizza", ["pizza"; "flatbread"; "pita"]);
  ("pasta", ["pasta"; "noodle"; "spaghetti"; "penne"]);
  ("sandwich", ["sandwich"; "sub"; "hoagie"]);
  ("burrito", ["burrito"; "wrap"; "tortilla"]);
  ("bagel", ["bagel"]);
  ("waffle", ["waffle"]);
  ("pancake", ["pancake"]);
  ("salad", ["salad"; "bowl"]);
  ("airfryer", ["air fryer"; "airfryer"]);
  ("baked", ["baked"; "oven"; "broil"]);
  ("grilled", ["grilled"; "grill"]);
  ("lowcarb", ["low carb"; "keto"; "carb balance"]);
  ("highprotein", ["protein"; "high protein"]);
  ("fatfree", ["fat free"; "fat-free"])]%string.

Fixpoint pystr_eqb (a b : pystr) : bool :=
  match a, b with
  | [], [] => true
  | x :: a', y :: b' => (x =? y)%N && pystr_eqb a' b'
  | _, _ => false
  end.

(** [tags.add(x)] on a set kept as a duplicate-free list. *)
Definition set_add (x : pystr) (tags : list pystr) : list pystr :=
  if existsb (pystr_eqb x) tags then tags else tags ++ [x].

(** Python's ordering of [str]: lexicographic on code points. *)
Fixpoint str_ltb (a b : pystr) : bool :=
  match a, b with
  | [], [] => false
  | [], _ :: _ => true
  | _ :: _, [] => false
  | x :: a', y :: b' => (x <? y)%N || ((x =? y)%N && str_ltb a' b')
  end.

Fixpoint insert_sorted (x : pystr) (l : list pystr) : list pystr :=
  match l with
  | [] => [x]
  | y :: l' => if str_ltb y x then y :: insert_sorted x l' else x :: l
  end.

(** [sorted(list(tags))] *)
Definition py_sorted (l : list pystr) : list pystr := fold_right insert_sorted [] l.

(** The lowercased text the keywords are searched in. *)
Definition all_text (r : recipe) : pystr :=
  py_lower (py_join (u " ") [title r; py_join (u " ") (ingredients r);
                             py_join (u " ") (directions r)]).

(** The loop over [self.ingredient_tags]. *)
Fixpoint keyword_tags_go (tax : list (string * list string)) (txt : pystr)
         (tags : list pystr) : list pystr :=
  match tax with
  | [] => tags
  | (tag, kws) :: tax' =>
      keyword_tags_go tax' txt
        (if existsb (fun kw => py_contains (py_lower (u kw)) txt) kws
         then set_add (u tag) tags else tags)
  end.

Definition keyword_tags (r : recipe) : list pystr :=
  keyword_tags_go ingredient_tags (all_text r) [].

(** The calorie rule; [None] when [int()] raises. *)
Definition calorie_tags (r : recipe) (tags : list pystr) : option (list pystr) :=
  if is_nil (calories r) then Some tags
  else match py_int (calories r) with
       | None => None
       | Some n =>
           Some (if (n <? 300)%Z then set_add (u "lowcalorie") tags
                 else if (500 <? n)%Z then set_add (u "highcalorie") tags
                 else tags)
       end.

(** The protein rule; [None] when [int()] raises. *)
Definition protein_tags (r : recipe) (tags : list pystr) : option (list pystr) :=
  if is_nil (protein r) then Some tags
  else match py_int (protein r) with
       | None => None
       | Some n => Some (if (40 <? n)%Z then set_add (u "highprotein") tags else tags)
       end.

(** [generate_tags]; [None] when it raises [ValueError]. *)
Definition generate_tags (r : recipe) : option (list pystr) :=
  match calorie_tags r (keyword_tags r) with
  | None => None
  | Some t1 =>
      match protein_tags r t1 with
      | None => None
      | Some t2 => Some (py_sorted (if is_nil t2 then [u "recipe"] else t2))
      end
  end.

(** ** [RecipeExtractor.create_markdown] *)

Definition NL : pystr := [10%N].

(** [str(i)] for a natural number. *)
Definition py_str_nat (n : nat) : pystr := u (NilEmpty.string_of_uint (Nat.to_uint n)).

Definition tag_line (tags : list pystr) : pystr := py_join (u " ") (map (fun t => u "#" ++ t) tags).

Definition nutrition_section (r : recipe) : pystr :=
  if negb (is_nil (calories r)) || negb (is_nil (protein r)) then
    u "## Nutrition Information" ++ NL ++ NL
    ++ (if negb (is_nil (calories r)) then u "- **Calories:** " ++ calories r ++ NL else [])
    ++ (if negb (is_nil (protein r)) then u "- **Protein:** " ++ protein r ++ u "g" ++ NL else [])
    ++ NL
  else [].

Definition bullets (items : list pystr) : pystr := concat (map (fun x => u "- " ++ x ++ NL) items).

Fixpoint numbered_lines (i : nat) (items : list pystr) : pystr :=
  match items with
  | [] => []
  | x :: xs => py_str_nat i ++ u ". " ++ x ++ NL ++ numbered_lines (S i) xs
  end.

Definition ingredients_section (r : recipe) : pystr :=
  if is_nil (ingredients r) then []
  else u "## Ingredients" ++ NL ++ NL ++ bullets (ingredients r) ++ NL.

Definition directions_section (r : recipe) : pystr :=
  if is_nil (directions r) then []
  else u "## Directions" ++ NL ++ NL ++ numbered_lines 1 (directions r) ++ NL.

Definition pro_tips_section (r : recipe) : pystr :=
  if is_nil (pro_tips r) then []
  else u "## Pro Tips" ++ NL ++ NL ++ bullets (pro_tips r) ++ NL.

(** [create_markdown]; [None] when [generate_tags] raises. *)
Definition create_markdown (r : recipe) : option pystr :=
  match generate_tags r with
  | None => None
  | Some tags =>
      Some (u "# " ++ title r ++ NL ++ NL ++ tag_line tags ++ NL ++ NL
            ++ nutrition_section r ++ ingredients_section r
            ++ directions_section r ++ pro_tips_section r)
  end.

(** ** [RecipeExtractor.sanitize_filename] *)

Definition sanitize_filename (title : pystr) : pystr :=
  let s1 := re_sub (Chr cls_illegal) [] title in
  let s2 := re_sub (Chr cls_not_word_space_hyphen) [] s1 in
  let s3 := py_strip (re_sub re_ws (u " ") s2) in
  let s4 := replace_char 32 95 s3 in
  let s5 := if 50 <? length s4 then py_rstrip_char 95 (firstn 50 s4) else s4 in
  if is_nil s5 then u "recipe" else s5.

(** The characters [sanitize_filename] leaves: word characters and hyphens. *)
Definition fname_char (c : N) : bool := is_word c || (c =? 45)%N.

(** ** [os.path] on POSIX *)

(** [s.rfind(ch)] for one character: the last index, [-1] when absent. *)
Fixpoint rfind_go (ch : N) (s : pystr) (i : nat) (acc : Z) : Z :=
  match s with
  | [] => acc
  | c :: s' => rfind_go ch s' (S i) (if (c =? ch)%N then Z.of_nat i else acc)
  end.

Definition rfind (ch : N) (s : pystr) : Z := rfind_go ch s 0 (-1).

(** [posixpath.basename]: [p[p.rfind('/') + 1:]]. *)
Definition os_path_basename (p : pystr) : pystr := skipn (Z.to_nat (rfind 47 p + 1)) p.

(** The [while filenameIndex < dotIndex] loop of [genericpath._splitext]:
    [true] when it returns the split, [false] when it falls through. *)
Fixpoint splitext_scan (p : pystr) (fi di fuel : nat) : bool :=
  match fuel with
  | O => false
  | S f =>
      if fi <? di then
        if negb (pystr_eqb (slice p fi (S fi)) (u ".")) then true
        else splitext_scan p (S fi) di f
      else false
  end.

(** [posixpath.splitext]: [genericpath._splitext(p, '/', None, '.')]. *)
Definition os_path_splitext (p : pystr) : pystr * pystr :=
  let sepIndex := rfind 47 p in
  let dotIndex := rfind 46 p in
  if (sepIndex <? dotIndex)%Z then
    let di := Z.to_nat dotIndex in
    if splitext_scan p (Z.to_nat (sepIndex + 1)) di (length p)
    then (firstn di p, skipn di p)
    else (p, [])
  else (p, []).

(** [s.endswith(suffix)] *)
Definition endswith (s suffix : pystr) : bool := is_prefix (rev suffix) (rev s).

(** [posixpath.join(a, b)] for two arguments. *)
Definition os_path_join (a b : pystr) : pystr :=
  if is_prefix (u "/") b then b
  else if is_nil a || endswith a (u "/") then a ++ b
  else a ++ u "/" ++ b.

(** ** [str.replace] *)

(** Occurrences of a non-empty [old], left to right, without overlap; one
    round per character of [s] suffices. *)
Fixpoint replace_go (old new s : pystr) (fuel : nat) : pystr :=
  match fuel with
  | O => s
  | S f =>
      match s with
      | [] => []
      | c :: s' =>
          if is_prefix old s then new ++ replace_go old new (skipn (length old) s) f
          else c :: replace_go old new s' f
      end
  end.

(** [s.replace(old, new)]; an empty [old] puts [new] around every character. *)
Definition py_replace (old new s : pystr) : pystr :=
  match old with
  | [] => new ++ concat (map (fun c => c :: new) s)
  | _ => replace_go old new s (length s)
  end.

(** ** [RecipeExtractor.process_pdf_file] *)

(** The files on disk: path and content, the newest first. *)
Definition files := list (pystr * pystr).

(** [os.path.exists(p)] *)
Definition os_path_exists (fs : files) (p : pystr) : bool :=
  existsb (fun e => pystr_eqb (fst e) p) fs.

(** The name tried in round [counter] of the duplicate loop. *)
Definition dup_candidate (original_output_path : pystr) (counter : nat) : pystr :=
  fst (os_path_splitext original_output_path) ++ u "_" ++ py_str_nat counter ++ u ".md".

(** The [while os.path.exists(output_path)] loop; [fuel] bounds the rounds and
    [None] is the loop still running when it runs out. *)
Fixpoint dup_loop (fs : files) (original_output_path output_path : pystr)
         (counter fuel : nat) : option pystr :=
  if os_path_exists fs output_path then
    match fuel with
    | O => None
    | S f => dup_loop fs original_output_path
               (dup_candidate original_output_path counter) (S counter) f
    end
  else Some output_path.

(** The title used when the parser found none. *)
Definition fallback_title (pdf_path : pystr) : pystr :=
  py_replace (u "Tasty Shreds Jan-Feb-March_Part") (u "Recipe ")
    (fst (os_path_splitext (os_path_basename pdf_path))).

(** [process_pdf_file]: [text] is what [extract_text_from_pdf(pdf_path)]
    returned; the result is the returned flag and the files afterwards.
    Writing a file is taken to succeed; an exception of [create_markdown]
    and a loop that ran out of rounds make the call return [False]. *)
Definition process_pdf_file (text pdf_path output_dir : pystr) (fs : files)
  : bool * files :=
  if is_nil text then (false, fs)
  else
    let r0 := parse_recipe_data text in
    let r := if is_nil (title r0)
             then mk_recipe (fallback_title pdf_path) (calories r0) (protein r0)
                    (ingredients r0) (directions r0) (pro_tips r0)
             else r0 in
    match create_markdown r with
    | None => (false, fs)
    | Some markdown =>
        let output_path :=
          os_path_join output_dir (sanitize_filename (title r) ++ u ".md") in
        match dup_loop fs output_path output_path 1 (S (length fs)) with
        | None => (false, fs)
        | Some p => (true, (p, markdown) :: fs)
        end
    end.

(** ** [RecipeExtractor.process_all_pdfs] *)

(** [re.search(r"Part(\d+)", x)] *)
Definition re_part : re :=
  Cat (cat_all (map (fun c => Chr (N.eqb c)) (u "Part"))) (Grp (Rep is_digit 1 None true)).

(** The sort key [int(re.search(r"Part(\d+)", x).group(1))]; [None] is the
    exception raised when there is no match. *)
Definition part_key (x : pystr) : option Z :=
  match re_search re_part x with
  | Some (_, _, g) => py_int (group_str x g)
  | None => None
  end.

(** [list.sort(key=...)] computes every key first. *)
Fixpoint keyed (l : list pystr) : option (list (Z * pystr)) :=
  match l with
  | [] => Some []
  | x :: l' =>
      match part_key x, keyed l' with
      | Some k, Some kl => Some ((k, x) :: kl)
      | _, _ => None
      end
  end.

(** Stable insertion: [x] comes from before every element of [l]. *)
Fixpoint insert_keyed (x : Z * pystr) (l : list (Z * pystr)) : list (Z * pystr) :=
  match l with
  | [] => [x]
  | y :: l' => if (fst x <=? fst y)%Z then x :: l else y :: insert_keyed x l'
  end.

Definition sort_by_part (l : list pystr) : option (list pystr) :=
  match keyed l with
  | Some kl => Some (map snd (fold_right insert_keyed [] kl))
  | None => None
  end.

(** The order of keyed names the insertion keeps, and the names of one key. *)
Definition key_le (a b : Z * pystr) : Prop := (fst a <= fst b)%Z.

Definition key_is (k : Z) (p : Z * pystr) : bool := (fst p =? k)%Z.

(** The order the sort puts two names in. *)
Definition part_le (a b : pystr) : Prop :=
  exists ka kb, part_key a = Some ka /\ part_key b = Some kb /\ (ka <= kb)%Z.

(** The names whose key is [k]. *)
Definition has_key (k : Z) (x : pystr) : bool :=
  match part_key x with Some k' => (k' =? k)%Z | None => false end.

(** The [for pdf_file in pdf_files] loop with its two counters. *)
Fixpoint process_loop (extract : pystr -> pystr) (output_dir : pystr)
         (pdf_files : list pystr) (successful failed : nat) (fs : files)
  : nat * nat * files :=
  match pdf_files with
  | [] => (successful, failed, fs)
  | pdf_file :: rest =>
      let (ok, fs') := process_pdf_file (extract pdf_file) pdf_file output_dir fs in
      if ok then process_loop extract output_dir rest (S successful) failed fs'
      else process_loop extract output_dir rest successful (S failed) fs'
  end.

(** [os.makedirs(p, exist_ok=True)] raises when [p] itself or one of its
    parent directories is an existing regular file ([FileExistsError],
    [NotADirectoryError]); paths are compared as strings, the files of [fs]
    are the only non-directories, and other OS errors are not modelled. *)
Definition os_makedirs_fails (fs : files) (p : pystr) : bool :=
  existsb (fun e => pystr_eqb (fst e) p || is_prefix (fst e ++ u "/") p) fs.

(** [process_all_pdfs]: [pdf_files] is what [glob.glob] returned and
    [extract] the text of each PDF; the result is the logged counters and
    the files afterwards, [None] when the sort or [os.makedirs] raises. *)
Definition process_all_pdfs (extract : pystr -> pystr) (directory : pystr)
           (pdf_files : list pystr) (fs : files) : option (nat * nat * files) :=
  if is_nil pdf_files then Some (0, 0, fs)
  else
    match sort_by_part pdf_files with
    | None => None
    | Some sorted =>
        let output_dir := os_path_join directory (u "obsidian_recipes") in
        if os_makedirs_fails fs output_dir then None
        else Some (process_loop extract output_dir sorted 0 0 fs)
    end.

(** The texts [process_pdf_file] turns into a note: not empty, with
    calorie and protein values [int()] accepts, i.e. within
    [int_max_str_digits] digits. *)
Definition converts (text : pystr) : bool :=
  negb (is_nil text)
  && (length (calories (parse_recipe_data text)) <=? int_max_str_digits)
  && (length (protein (parse_recipe_data text)) <=? int_max_str_digits).

(** ** Inputs used below *)

(** The raw text of the end-to-end example of the specification. *)
Definition spec_example : pystr :=
  u ("Turkey Bacon Breakfast Burrito ... 350 calories ... 28 grams of protein ... "
     ++ "Ingredients 2 eggs 2 turkey bacon strips Directions 1. Cook bacon "
     ++ "2. Scramble eggs PRO TIP Use low-sodium bacon").

(** The same example with the ingredients written as a bulleted list. *)
Definition bulleted_example : pystr :=
  u "Ingredients " ++ [BULLET] ++ u " 2 eggs " ++ [BULLET] ++ u " 1 cup milk "
  ++ [BULLET] ++ u " 1 tortilla Directions 1. Mix".

(** A text whose tips are not numbered. *)
Definition unnumbered_tips_example : pystr :=
  u "Oat Bowl Directions 1. Mix PRO TIPS Keep it cold. Serve warm.".

(** Records with integer nutrition values, as the parser produces them. *)
Definition plain_record : recipe :=
  mk_recipe (u "Morning Oats") (u "400") (u "30") [u "1 cup oats"] [u "Stir"] [].

Definition boundary_record : recipe :=
  mk_recipe (u "Morning Oats") (u "300") (u "41") [] [] [].

Definition protein_title_record : recipe :=
  mk_recipe (u "Protein Oats") [] (u "20") [] [] [].

Definition low_calorie_record : recipe :=
  mk_recipe (u "Oats") (u "250") [] [u "oats"] [] [].

(** The calorie and protein fields are absent or hold an integer [int()]
    accepts (at most [int_max_str_digits] digits), the record type of the
    specification. *)
Definition nutrition_ok (r : recipe) : Prop :=
  (calories r = [] \/ exists n, py_int (calories r) = Some n)
  /\ (protein r = [] \/ exists n, py_int (protein r) = Some n).

(** Every tag [generate_tags] may produce. *)
Definition all_tag_names : list pystr :=
  map (fun p => u (fst p)) ingredient_tags
  ++ [u "lowcalorie"; u "highcalorie"; u "highprotein"; u "recipe"].

(** * Properties *)

(** ** Facts about the matcher *)

Lemma first_some_seq_some {A : Type} (f : nat -> option A) a n y :
  first_some f (seq a n) = Some y ->
  exists x, a <= x < a + n /\ f x = Some y /\ forall z, a <= z < x -> f z = None.
Proof.
  revert a. induction n as [|n IH]; intros a; simpl; [discriminate|].
  destruct (f a) eqn:E; intros H.
  - injection H as <-. exists a. repeat split; try lia; auto.
  - destruct (IH (S a) H) as (x & Hx & Hfx & Hb).
    exists x. repeat split; try lia; auto.
    intros z Hz. destruct (Nat.eq_dec z a) as [->|]; [assumption | apply Hb; lia].
Qed.

Lemma first_some_seq_none {A : Type} (f : nat -> option A) a n :
  first_some f (seq a n) = None -> forall z, a <= z < a + n -> f z = None.
Proof.
  revert a. induction n as [|n IH]; intros a; simpl; [intros; lia|].
  destruct (f a) eqn:E; intros H; [discriminate|].
  intros z Hz. destruct (Nat.eq_dec z a) as [->|]; [assumption | apply (IH (S a) H); lia].
Qed.

Lemma first_some_in {A : Type} (f : nat -> option A) l y :
  first_some f l = Some y -> exists x, In x l /\ f x = Some y.
Proof.
  induction l as [|a l IH]; simpl; [discriminate|].
  destruct (f a) eqn:E; intros H.
  - injection H as <-. eauto.
  - destruct (IH H) as (x & Hx & Hf). eauto.
Qed.

Lemma first_some_none_in {A : Type} (f : nat -> option A) l x :
  first_some f l = None -> In x l -> f x = None.
Proof.
  induction l as [|a l IH]; simpl; [intros _ []|].
  destruct (f a) eqn:E; intros H [<-|Hx]; [discriminate | discriminate | exact E | exact (IH H Hx)].
Qed.

Lemma in_rep_counts lo n greedy j :
  In j (rep_counts lo n greedy) -> lo <= j <= n.
Proof.
  unfold rep_counts. intros H.
  assert (H' : In j (seq lo (S n - lo))) by (destruct greedy; [apply in_rev|]; exact H).
  apply in_seq in H'. lia.
Qed.

Section EngineFacts.
Variable s : pystr.

Lemma char_at_lt i c : char_at s i = Some c -> i < length s.
Proof. unfold char_at. intros H. apply nth_error_Some. congruence. Qed.

Lemma run_len_le p i f : i <= length s -> i + run_len s p i f <= length s.
Proof.
  revert i. induction f as [|f IH]; intros i Hi; cbn [run_len]; [lia|].
  destruct (char_at s i) as [c|] eqn:E; [|lia].
  destruct (p c); [|lia].
  apply char_at_lt in E. specialize (IH (S i)). lia.
Qed.

Lemma run_len_spec p i f m :
  m < run_len s p i f -> exists c, char_at s (i + m) = Some c /\ p c = true.
Proof.
  revert i m. induction f as [|f IH]; intros i m; cbn [run_len]; [intros; lia|].
  destruct (char_at s i) as [c|] eqn:E; [|intros; lia].
  destruct (p c) eqn:Ep; [|intros; lia].
  intros Hm. destruct m as [|m].
  - exists c. rewrite Nat.add_0_r. split; assumption.
  - destruct (IH (S i) m) as (c' & Hc' & Hp); [lia|].
    exists c'. split; [rewrite <- Hc'; f_equal; lia | exact Hp].
Qed.

(** The matcher only moves forward and stays inside the text; whatever it
    returns comes from its continuation. *)
Lemma mt_cps r : forall i g k x,
  i <= length s -> mt s r i g k = Some x ->
  exists j g', i <= j <= length s /\ k j g' = Some x.
Proof.
  induction r as [| p | p lo hi greedy | r1 IH1 r2 IH2 | r1 IH1 r2 IH2 | r1 IH1
                  | ml | ml | r1 IH1]; intros i g k x Hi; simpl.
  - intros H. exists i, g. split; [lia | exact H].
  - destruct (char_at s i) as [c|] eqn:E; [|discriminate].
    destruct (p c); [|discriminate]. intros H.
    apply char_at_lt in E. exists (S i), g. split; [lia | exact H].
  - set (n := run_len s p i _).
    assert (Hn : i + n <= length s) by (apply run_len_le; exact Hi).
    destruct (n <? lo); [discriminate|]. intros H.
    destruct (first_some_in _ _ _ H) as (j & Hj & Hk).
    apply in_rep_counts in Hj. exists (i + j), g. split; [lia | exact Hk].
  - intros H. destruct (IH1 _ _ _ _ Hi H) as (j1 & g1 & Hj1 & H1).
    destruct (IH2 _ _ _ _ (proj2 Hj1) H1) as (j & g' & Hj & Hk).
    exists j, g'. split; [lia | exact Hk].
  - destruct (mt s r1 i g k) eqn:E.
    + intros H. injection H as <-. exact (IH1 _ _ _ _ Hi E).
    + intros H. exact (IH2 _ _ _ _ Hi H).
  - intros H. destruct (IH1 _ _ _ _ Hi H) as (j & g' & Hj & Hk).
    exists j, (Some (i, j)). split; [exact Hj | exact Hk].
  - destruct (_ || _); [|discriminate]. intros H. exists i, g. split; [lia | exact H].
  - destruct (_ || _); [|discriminate]. intros H. exists i, g. split; [lia | exact H].
  - destruct (mt s r1 i g _); [|discriminate]. intros H.
    exists i, g. split; [lia | exact H].
Qed.

Lemma match_at_spec r i b j g :
  i <= length s -> match_at s r i b = Some (j, g) ->
  i <= j <= length s /\ (b = true -> j <> i).
Proof.
  unfold match_at. intros Hi H.
  destruct (mt_cps r i None _ _ Hi H) as (j' & g' & Hj' & Hk).
  destruct (b && (j' =? i)) eqn:E; [discriminate|].
  injection Hk as <- <-. split; [exact Hj'|].
  intros ->. simpl in E. apply Nat.eqb_neq in E. exact E.
Qed.

Lemma search_from_some r pos ma st en g :
  search_from s r pos ma = Some (st, en, g) ->
  pos <= st <= length s
  /\ match_at s r st (ma && (st =? pos)) = Some (en, g)
  /\ forall z, pos <= z < st -> match_at s r z (ma && (z =? pos)) = None.
Proof.
  unfold search_from. intros H.
  destruct (first_some_seq_some _ _ _ _ H) as (x & Hx & Hfx & Hb).
  destruct (match_at s r x _) as [[j g0]|] eqn:E; [|discriminate].
  injection Hfx as <- <- <-.
  split; [lia|]. split; [exact E|].
  intros z Hz. specialize (Hb z Hz).
  destruct (match_at s r z _) as [[? ?]|]; [discriminate | reflexivity].
Qed.

Lemma search_from_none r pos ma :
  search_from s r pos ma = None ->
  forall z, pos <= z <= length s -> match_at s r z (ma && (z =? pos)) = None.
Proof.
  unfold search_from. intros H z Hz.
  assert (Hr : pos <= z < pos + (S (length s) - pos)) by lia.
  pose proof (first_some_seq_none _ _ _ H z Hr) as Hz'. cbv beta in Hz'.
  destruct (match_at s r z (ma && (z =? pos))) as [[j g]|]; [discriminate | reflexivity].
Qed.

(** Every character [re.sub] outputs is either part of the replacement or a
    character of the input at which the pattern does not match. *)
Definition unmatched_char (r : re) (c : N) : Prop :=
  exists i b, nth_error s i = Some c /\ match_at s r i b = None.

Lemma in_skipn_unmatched r pos ma c :
  (forall z, pos <= z <= length s -> match_at s r z (ma && (z =? pos)) = None) ->
  In c (skipn pos s) -> unmatched_char r c.
Proof.
  intros Hz Hc. apply In_nth_error in Hc as (n & Hn).
  rewrite nth_error_skipn in Hn.
  exists (pos + n), (ma && (pos + n =? pos)). split; [exact Hn|].
  assert (Hlt : pos + n < length s) by (apply nth_error_Some; congruence).
  apply Hz. lia.
Qed.

Lemma in_slice_unmatched r pos st ma c :
  (forall z, pos <= z < st -> match_at s r z (ma && (z =? pos)) = None) ->
  In c (slice s pos st) -> unmatched_char r c.
Proof.
  unfold slice. intros Hz Hc. apply In_nth_error in Hc as (n & Hn).
  assert (Hlt : n < st - pos).
  { assert (Hl : n < length (firstn (st - pos) (skipn pos s)))
      by (apply nth_error_Some; congruence).
    rewrite length_firstn in Hl. lia. }
  rewrite nth_error_firstn in Hn. destruct (n <? st - pos) eqn:E; [|discriminate].
  rewrite nth_error_skipn in Hn.
  exists (pos + n), (ma && (pos + n =? pos)). split; [exact Hn|].
  apply Hz. lia.
Qed.

Definition loop_measure (pos : nat) (ma : bool) : nat :=
  2 * (length s - pos) + (if ma then 0 else 1).

Lemma sub_loop_chars r repl : forall fuel pos ma c,
  pos <= length s -> loop_measure pos ma < fuel ->
  In c (sub_loop s r repl fuel pos ma) -> In c repl \/ unmatched_char r c.
Proof.
  induction fuel as [|fuel IH]; intros pos ma c Hpos Hf; [lia|]. simpl.
  destruct (search_from s r pos ma) as [[[st en] g]|] eqn:E.
  - destruct (search_from_some _ _ _ _ _ _ E) as (Hst & Hm & Hb).
    destruct (match_at_spec _ _ _ _ _ (proj2 Hst) Hm) as [Hen Hadv].
    intros Hc. apply in_app_or in Hc as [Hc|Hc].
    + right. exact (in_slice_unmatched _ _ _ _ _ Hb Hc).
    + apply in_app_or in Hc as [Hc|Hc]; [left; exact Hc|].
      apply (IH en (en =? st)); [lia| |exact Hc].
      unfold loop_measure in *.
      destruct (Nat.eqb_spec en st) as [->|Hne]; [|lia].
      destruct (Nat.eqb_spec st pos) as [->|]; [|lia].
      destruct ma; [|lia]. exfalso. apply (Hadv eq_refl). reflexivity.
  - intros Hc. right. exact (in_skipn_unmatched _ _ _ _ (search_from_none _ _ _ E) Hc).
Qed.

End EngineFacts.

Lemma re_sub_chars r repl s c :
  In c (re_sub r repl s) -> In c repl \/ unmatched_char s r c.
Proof.
  unfold re_sub, loop_fuel. apply sub_loop_chars; unfold loop_measure; lia.
Qed.

Lemma re_sub_no_match r repl s :
  (forall i b, match_at s r i b = None) -> re_sub r repl s = s.
Proof.
  intros H. unfold re_sub, loop_fuel. rewrite Nat.add_comm. simpl.
  destruct (search_from s r 0 false) as [[[st en] g]|] eqn:E; [|reflexivity].
  destruct (search_from_some _ _ _ _ _ _ _ E) as (_ & Hm & _).
  rewrite H in Hm. discriminate.
Qed.


Lemma in_slice_in s i j c : In c (slice s i j) -> In c s.
Proof.
  unfold slice. intros H.
  rewrite <- (firstn_skipn i s). apply in_or_app. right.
  rewrite <- (firstn_skipn (j - i) (skipn i s)). apply in_or_app. left. exact H.
Qed.

Lemma in_group_str_in s g c : In c (group_str s g) -> In c s.
Proof. destruct g as [[a b]|]; simpl; [apply in_slice_in | intros []]. Qed.

Lemma mt_rep_advance s p lo hi gr i g k x :
  i <= length s -> mt s (Rep p lo hi gr) i g k = Some x ->
  exists j, i + lo <= j <= length s /\ k j g = Some x.
Proof.
  intros Hi. simpl.
  set (n := run_len s p i _).
  assert (Hn : i + n <= length s) by (apply run_len_le; exact Hi).
  destruct (n <? lo); [discriminate|]. intros H.
  destruct (first_some_in _ _ _ H) as (j & Hj & Hk).
  apply in_rep_counts in Hj. exists (i + j). split; [lia | exact Hk].
Qed.

Lemma mt_cat s r1 r2 i g k :
  mt s (Cat r1 r2) i g k = mt s r1 i g (fun j g' => mt s r2 j g' k).
Proof. reflexivity. Qed.

Lemma mt_caret0 s ml g k : mt s (Caret ml) 0 g k = k 0 g.
Proof. reflexivity. Qed.

(** A class repeated at least once does not match where the class fails. *)
Lemma match_at_rep1_none s p i b c :
  match_at s (Rep p 1 None true) i b = None -> nth_error s i = Some c -> p c = false.
Proof.
  intros H Hc. destruct (p c) eqn:Ep; [|reflexivity]. exfalso.
  assert (Hlt : i < length s) by (apply nth_error_Some; congruence).
  unfold match_at in H. simpl in H.
  destruct (length s) as [|len] eqn:Hlen; [lia|]. simpl in H.
  unfold char_at in H. rewrite Hc, Ep in H. simpl in H.
  apply (first_some_none_in _ _ 1) in H; [|apply in_or_app; right; left; reflexivity].
  cbv beta in H. destruct (b && (i + 1 =? i)) eqn:E; [|discriminate].
  apply andb_prop in E as [_ E]. apply Nat.eqb_eq in E. lia.
Qed.

(** A one-character class does not match where the class fails. *)
Lemma match_at_chr_none s p i b c :
  match_at s (Chr p) i b = None -> nth_error s i = Some c -> p c = false.
Proof.
  unfold match_at. cbn [mt]. unfold char_at. intros H Hc. rewrite Hc in H.
  destruct (p c); [|reflexivity].
  rewrite (proj2 (Nat.eqb_neq (S i) i) ltac:(lia)), andb_false_r in H. discriminate.
Qed.

Lemma match_at_chr_some s p i b x :
  match_at s (Chr p) i b = Some x -> exists c, nth_error s i = Some c /\ p c = true.
Proof.
  unfold match_at. cbn [mt]. unfold char_at.
  destruct (nth_error s i) as [c|]; [|discriminate].
  destruct (p c) eqn:Ep; [|discriminate]. eauto.
Qed.

Lemma match_at_rep1_some s p i b x :
  match_at s (Rep p 1 None true) i b = Some x ->
  exists c, nth_error s i = Some c /\ p c = true.
Proof.
  unfold match_at. simpl. destruct (length s) as [|len]; simpl; [discriminate|].
  unfold char_at. destruct (nth_error s i) as [c|]; [|discriminate].
  destruct (p c) eqn:Ep; [|discriminate]. eauto.
Qed.

(** After [clean_text] no whitespace is left but single spaces. *)
Lemma clean_text_chars text c :
  In c (clean_text text) -> c = 32%N \/ is_space c = false.
Proof.
  unfold clean_text. intros H.
  destruct (re_sub_chars _ _ _ _ H) as [Hc | (i & b & Hi & Hm)].
  - left. destruct Hc as [<-|[]]. reflexivity.
  - right. exact (match_at_rep1_none _ _ _ _ _ Hm Hi).
Qed.

Lemma clean_text_no_newline text : ~ In 10%N (clean_text text).
Proof.
  intros H. destruct (clean_text_chars _ _ H) as [E|E]; [discriminate | discriminate E].
Qed.

Lemma split_char_no_sep sep s : ~ In sep s -> split_char sep s = [s].
Proof.
  induction s as [|c s IH]; simpl; [reflexivity|]. intros H.
  destruct (N.eqb_spec c sep) as [->|]; [exfalso; apply H; left; reflexivity|].
  rewrite IH; [reflexivity | intros H'; apply H; right; exact H'].
Qed.

(** [re.sub] of a pattern anchored at the start, whose matches are never
    empty, removes a prefix. *)
Lemma re_sub_anchored_suffix r s :
  (forall i b, i <> 0 -> match_at s r i b = None) ->
  (forall b j g, match_at s r 0 b = Some (j, g) -> j <> 0) ->
  exists pre, s = pre ++ re_sub r [] s.
Proof.
  intros Hnz Hne. unfold re_sub, loop_fuel.
  replace (2 * length s + 2) with (S (S (2 * length s))) by lia.
  cbn [sub_loop].
  destruct (search_from s r 0 false) as [[[st en] g]|] eqn:E; [|exists []; reflexivity].
  destruct (search_from_some _ _ _ _ _ _ _ E) as (Hst & Hm & _).
  destruct (Nat.eq_dec st 0) as [->|Hst0]; [|rewrite Hnz in Hm; [discriminate | exact Hst0]].
  pose proof (Hne _ _ _ Hm) as Hen.
  cbn [sub_loop].
  destruct (search_from s r en (en =? 0)) as [[[st' en'] g']|] eqn:E2.
  - destruct (search_from_some _ _ _ _ _ _ _ E2) as (Hst' & Hm' & _).
    rewrite Hnz in Hm'; [discriminate | lia].
  - exists (firstn en s). simpl. symmetry. apply firstn_skipn.
Qed.

Lemma bullet_prefix_suffix l :
  exists pre, l = pre ++ re_sub re_bullet_prefix [] l.
Proof.
  apply re_sub_anchored_suffix.
  - intros i b Hi. unfold match_at, re_bullet_prefix. simpl.
    destruct i; [contradiction | reflexivity].
  - intros b j g H. unfold match_at, re_bullet_prefix in H. cbn [cat_all] in H.
    rewrite mt_cat, mt_caret0, mt_cat in H.
    destruct (mt_rep_advance _ _ _ _ _ _ _ _ _ (Nat.le_0_l _) H) as (j1 & Hj1 & H1).
    destruct (mt_cps _ _ _ _ _ _ (proj2 Hj1) H1) as (j2 & g2 & Hj2 & H2).
    destruct (b && (j2 =? 0)); [discriminate|]. injection H2 as <- _. lia.
Qed.

Lemma ingredient_lines_single l :
  ingredient_lines [l] = []
  \/ ingredient_lines [l] = [re_sub re_bullet_prefix [] (py_strip l)].
Proof.
  simpl. destruct (negb (is_nil (py_strip l)) && _); [|left; reflexivity].
  destruct (is_nil (re_sub re_bullet_prefix [] (py_strip l))); [left | right]; reflexivity.
Qed.

Lemma extract_ingredients_region text :
  extract_ingredients (clean_text text)
  = ingredient_lines [search_group re_ingredients (clean_text text)].
Proof.
  unfold extract_ingredients, search_group.
  destruct (re_search re_ingredients (clean_text text)) as [[[st en] g]|]; [|reflexivity].
  rewrite split_char_no_sep; [reflexivity|].
  intros H. apply in_group_str_in in H. exact (clean_text_no_newline _ H).
Qed.

(** ** Facts about [generate_tags] *)

Lemma pystr_eqb_eq a b : pystr_eqb a b = true <-> a = b.
Proof.
  revert b. induction a as [|x a IH]; intros [|y b]; simpl; try (split; congruence).
  rewrite andb_true_iff, N.eqb_eq, IH. split; [intros [-> ->]; reflexivity | intros H; injection H; auto].
Qed.

Lemma in_set_add x y l : In x (set_add y l) <-> x = y \/ In x l.
Proof.
  unfold set_add. destruct (existsb (pystr_eqb y) l) eqn:E.
  - apply existsb_exists in E as (z & Hz & Hyz). apply pystr_eqb_eq in Hyz as <-.
    split; [auto | intros [->|H]; auto].
  - rewrite in_app_iff. simpl. split; intros [H|H]; auto; destruct H as [<-|[]]; auto.
Qed.

Lemma in_insert_sorted x y l : In x (insert_sorted y l) <-> x = y \/ In x l.
Proof.
  induction l as [|z l IH]; simpl; [split; intros [H|H]; auto; contradiction|].
  destruct (str_ltb z y); simpl; [rewrite IH|]; split; intros; intuition congruence.
Qed.

Lemma in_py_sorted x l : In x (py_sorted l) <-> In x l.
Proof.
  unfold py_sorted. induction l as [|y l IH]; simpl; [reflexivity|].
  rewrite in_insert_sorted, IH. split; intros [H|H]; auto.
Qed.

(** The order [sorted] uses: [a <= b] when not [b < a]. *)
Definition str_le (a b : pystr) : Prop := str_ltb b a = false.

Lemma str_ltb_asym a b : str_ltb a b = true -> str_ltb b a = false.
Proof.
  revert b. induction a as [|x a IH]; intros [|y b]; simpl; try congruence.
  intros H. apply orb_true_iff in H as [H|H].
  - apply N.ltb_lt in H.
    rewrite (proj2 (N.ltb_ge y x) ltac:(lia)), (proj2 (N.eqb_neq y x) ltac:(lia)). reflexivity.
  - apply andb_true_iff in H as [Hxy H]. apply N.eqb_eq in Hxy as ->.
    rewrite N.ltb_irrefl, N.eqb_refl, IH; auto.
Qed.

Lemma insert_sorted_sorted x l : Sorted str_le l -> Sorted str_le (insert_sorted x l).
Proof.
  induction l as [|y l IH]; simpl; intros H; [repeat constructor|].
  destruct (str_ltb y x) eqn:E.
  - inversion H as [|? ? Hl Hhd]; subst. constructor; [apply IH; exact Hl|].
    destruct l as [|z l]; simpl; [constructor; apply str_ltb_asym; exact E|].
    inversion Hhd; subst.
    destruct (str_ltb z x); constructor; [assumption | apply str_ltb_asym; exact E].
  - constructor; [exact H | constructor; exact E].
Qed.

Lemma py_sorted_sorted l : Sorted str_le (py_sorted l).
Proof. unfold py_sorted. induction l; simpl; [constructor | apply insert_sorted_sorted; assumption]. Qed.

Lemma insert_sorted_nonempty x l : insert_sorted x l <> [].
Proof. destruct l; simpl; [congruence | destruct (str_ltb _ _); congruence]. Qed.

Lemma py_sorted_nonempty l : l <> [] -> py_sorted l <> [].
Proof. destruct l; simpl; [contradiction | intros _; apply insert_sorted_nonempty]. Qed.

Lemma in_keyword_tags_go t tax txt tags :
  In t (keyword_tags_go tax txt tags)
  <-> In t tags
      \/ exists tag kws, In (tag, kws) tax /\ t = u tag
         /\ existsb (fun kw => py_contains (py_lower (u kw)) txt) kws = true.
Proof.
  revert tags. induction tax as [|[tag kws] tax IH]; intros tags; simpl.
  - split; [auto | intros [H|(? & ? & [] & _)]; exact H].
  - rewrite IH. destruct (existsb _ kws) eqn:E.
    + rewrite in_set_add. split.
      * intros [[->|H]|(tg & ks & Hin & -> & Hk)]; [right; exists tag, kws; auto | left; exact H|].
        right. exists tg, ks. auto.
      * intros [H|(tg & ks & [Heq|Hin] & -> & Hk)]; [left; right; exact H| |].
        -- injection Heq as -> ->. left; left; reflexivity.
        -- right. exists tg, ks. auto.
    + split.
      * intros [H|(tg & ks & Hin & -> & Hk)]; [left; exact H|]. right. exists tg, ks. auto.
      * intros [H|(tg & ks & [Heq|Hin] & -> & Hk)]; [left; exact H| |].
        -- injection Heq as -> ->. congruence.
        -- right. exists tg, ks. auto.
Qed.

(** Every keyword of the taxonomy is already lowercase. *)
Lemma ingredient_tags_lower tag kws kw :
  In (tag, kws) ingredient_tags -> In kw kws -> py_lower (u kw) = u kw.
Proof.
  intros Ht Hk.
  assert (Hall : forallb (fun '(_, ks) => forallb (fun k => pystr_eqb (py_lower (u k)) (u k)) ks)
                   ingredient_tags = true) by (vm_compute; reflexivity).
  rewrite forallb_forall in Hall. specialize (Hall _ Ht). simpl in Hall.
  rewrite forallb_forall in Hall. apply pystr_eqb_eq. exact (Hall _ Hk).
Qed.

(** The two nutrition steps only add their own tags. *)
Lemma in_calorie_tags r tags tags' t :
  calorie_tags r tags = Some tags' ->
  In t tags' <-> In t tags
                 \/ (calories r <> [] /\ exists n, py_int (calories r) = Some n
                     /\ ((n < 300)%Z /\ t = u "lowcalorie"
                         \/ (500 < n)%Z /\ t = u "highcalorie")).
Proof.
  unfold calorie_tags. destruct (calories r) as [|c cs] eqn:Ec; simpl.
  - intros Hs. injection Hs as <-. split; [auto | intros [H|[Hne _]]; [exact H | congruence]].
  - destruct (py_int (c :: cs)) as [n|]; [|discriminate]. intros Hs. injection Hs as <-.
    destruct (Z.ltb_spec n 300) as [Hc|Hc]; [|destruct (Z.ltb_spec 500 n) as [Hc'|Hc']].
    + rewrite in_set_add. split.
      * intros [->|H]; [right; split; [congruence|]; exists n; split; [reflexivity|]; left; auto | left; exact H].
      * intros [H|(_ & m & Hm & [[_ ->]|[Hn ->]])]; [right; exact H|left; reflexivity|].
        injection Hm as <-. lia.
    + rewrite in_set_add. split.
      * intros [->|H]; [right; split; [congruence|]; exists n; split; [reflexivity|]; right; auto | left; exact H].
      * intros [H|(_ & m & Hm & [[Hn ->]|[_ ->]])]; [right; exact H| |left; reflexivity].
        injection Hm as <-. lia.
    + split; [auto|]. intros [H|(_ & m & Hm & [[Hn _]|[Hn _]])]; [exact H| |];
        injection Hm as <-; lia.
Qed.

Lemma in_protein_tags r tags tags' t :
  protein_tags r tags = Some tags' ->
  In t tags' <-> In t tags
                 \/ (protein r <> [] /\ exists n, py_int (protein r) = Some n
                     /\ (40 < n)%Z /\ t = u "highprotein").
Proof.
  unfold protein_tags. destruct (protein r) as [|c cs] eqn:Ec; simpl.
  - intros Hs. injection Hs as <-. split; [auto | intros [H|[Hne _]]; [exact H | congruence]].
  - destruct (py_int (c :: cs)) as [n|]; [|discriminate]. intros Hs. injection Hs as <-.
    destruct (Z.ltb_spec 40 n) as [Hc|Hc].
    + rewrite in_set_add. split.
      * intros [->|H]; [right; split; [congruence|]; exists n; auto | left; exact H].
      * intros [H|(_ & m & Hm & _ & ->)]; [right; exact H | left; reflexivity].
    + split; [auto|]. intros [H|(_ & m & Hm & Hn & _)]; [exact H|]. injection Hm as <-. lia.
Qed.

Lemma generate_tags_in r tags t :
  generate_tags r = Some tags ->
  exists t1 t2, calorie_tags r (keyword_tags r) = Some t1 /\ protein_tags r t1 = Some t2
  /\ (In t tags <-> In t t2 \/ (t2 = [] /\ t = u "recipe")).
Proof.
  unfold generate_tags.
  destruct (calorie_tags r (keyword_tags r)) as [t1|] eqn:E1; [|discriminate].
  destruct (protein_tags r t1) as [t2|] eqn:E2; [|discriminate]. intros H. injection H as <-.
  exists t1, t2. split; [reflexivity|]. split; [exact E2|].
  rewrite in_py_sorted. destruct t2 as [|x t2]; cbn [is_nil].
  - cbn [In]. split.
    + intros [H|[]]. right. split; [reflexivity | symmetry; exact H].
    + intros [[]|[_ H]]. left. symmetry. exact H.
  - split; [auto | intros [H|[H _]]; [exact H | discriminate]].
Qed.

Lemma not_in_by_eqb x l : existsb (pystr_eqb x) l = false -> ~ In x l.
Proof.
  intros H Hin. assert (E : existsb (pystr_eqb x) l = true).
  { apply existsb_exists. exists x. split; [exact Hin | apply pystr_eqb_eq; reflexivity]. }
  congruence.
Qed.

Lemma in_keyword_tags r t : In t (keyword_tags r) -> In t (map (fun p => u (fst p)) ingredient_tags).
Proof.
  unfold keyword_tags. rewrite in_keyword_tags_go.
  intros [[]|(tag & kws & Hin & -> & _)].
  apply in_map_iff. exists (tag, kws). auto.
Qed.

(** A keyword found in the text yields its tag. *)
Lemma keyword_tags_found r tag kws kw :
  In (tag, kws) ingredient_tags -> In kw kws -> py_contains (u kw) (all_text r) = true ->
  In (u tag) (keyword_tags r).
Proof.
  intros Ht Hk Hc. unfold keyword_tags. apply in_keyword_tags_go. right.
  exists tag, kws. split; [exact Ht|]. split; [reflexivity|].
  apply existsb_exists. exists kw. split; [exact Hk|].
  rewrite (ingredient_tags_lower _ _ _ Ht Hk). exact Hc.
Qed.

Lemma keyword_tags_none r :
  (forall tag kws kw, In (tag, kws) ingredient_tags -> In kw kws ->
     py_contains (u kw) (all_text r) = false) ->
  keyword_tags r = [].
Proof.
  intros H.
  assert (Hn : forall t, ~ In t (keyword_tags_go ingredient_tags (all_text r) [])).
  { intros t Hin. rewrite in_keyword_tags_go in Hin.
    destruct Hin as [[]|(tag & kws & Ht & _ & Hk)].
    apply existsb_exists in Hk as (kw & Hkw & Hc). cbv beta in Hc.
    rewrite (ingredient_tags_lower _ _ _ Ht Hkw), (H _ _ _ Ht Hkw) in Hc. discriminate. }
  generalize Hn. unfold keyword_tags.
  destruct (keyword_tags_go ingredient_tags (all_text r) []) as [|t ts]; [reflexivity|].
  intros Hn2. exfalso. apply (Hn2 t). left. reflexivity.
Qed.

(** The tags other than [recipe], by the rule that adds them. *)
Lemma in_generate_tags r tags t :
  generate_tags r = Some tags -> t <> u "recipe" ->
  In t tags <->
  In t (keyword_tags r)
  \/ (calories r <> [] /\ exists n, py_int (calories r) = Some n
      /\ ((n < 300)%Z /\ t = u "lowcalorie" \/ (500 < n)%Z /\ t = u "highcalorie"))
  \/ (protein r <> [] /\ exists n, py_int (protein r) = Some n
      /\ (40 < n)%Z /\ t = u "highprotein").
Proof.
  intros Hg Hr. destruct (generate_tags_in r tags t Hg) as (t1 & t2 & E1 & E2 & Ht).
  rewrite Ht, (in_protein_tags _ _ _ t E2), (in_calorie_tags _ _ _ t E1). split.
  - intros [[[H|H]|H]|[_ H]]; [left | right; left | right; right | contradiction]; exact H.
  - intros [H|[H|H]]; left; [left; left | left; right | right]; exact H.
Qed.

Lemma calorie_tags_int r tags tags' :
  calorie_tags r tags = Some tags' -> calories r <> [] -> exists n, py_int (calories r) = Some n.
Proof.
  unfold calorie_tags. destruct (calories r) as [|c cs]; [contradiction|]. simpl.
  destruct (py_int (c :: cs)) as [n|]; [eauto | discriminate].
Qed.

Lemma protein_tags_int r tags tags' :
  protein_tags r tags = Some tags' -> protein r <> [] -> exists n, py_int (protein r) = Some n.
Proof.
  unfold protein_tags. destruct (protein r) as [|c cs]; [contradiction|]. simpl.
  destruct (py_int (c :: cs)) as [n|]; [eauto | discriminate].
Qed.

Lemma in_generate_tags_names r tags t :
  generate_tags r = Some tags -> In t tags -> In t all_tag_names.
Proof.
  intros Hg. destruct (generate_tags_in r tags t Hg) as (t1 & t2 & E1 & E2 & Ht).
  rewrite Ht, (in_protein_tags _ _ _ t E2), (in_calorie_tags _ _ _ t E1).
  unfold all_tag_names. rewrite in_app_iff.
  intros [[[H|H]|H]|H].
  - left. apply (in_keyword_tags r). exact H.
  - destruct H as (_ & n & _ & [[_ ->]|[_ ->]]); right; simpl; auto.
  - destruct H as (_ & n & _ & _ & ->). right; simpl; auto.
  - destruct H as [_ ->]. right; simpl; auto.
Qed.


(** ** The end-to-end example *)

(** C1 (counterexample): on the spec's example text the ingredients are not
    ["2 eggs"; "2 turkey bacon strips"] and the pro tips are not
    ["Use low-sodium bacon"]. *)
Lemma spec_example_counterexample :
  ingredients (parse_recipe_data spec_example) <> [u "2 eggs"; u "2 turkey bacon strips"]
  /\ pro_tips (parse_recipe_data spec_example) <> [u "Use low-sodium bacon"].
Proof. split; vm_compute; congruence. Qed.

(** C1 (amended): on the spec's example text, the title is
    "Turkey Bacon Breakfast Burrito", calories are "350" and protein "28",
    the ingredients region becomes the single entry "eggs 2 turkey bacon
    strips", the directions are ["Cook bacon"; "Scramble eggs"], the
    un-numbered tip is dropped, and the tags are the sorted list
    breakfast, burrito, egg, pork, turkey. *)
Lemma spec_example_parse :
  let r := parse_recipe_data spec_example in
  title r = u "Turkey Bacon Breakfast Burrito"
  /\ calories r = u "350" /\ protein r = u "28"
  /\ ingredients r = [u "eggs 2 turkey bacon strips"]
  /\ directions r = [u "Cook bacon"; u "Scramble eggs"]
  /\ pro_tips r = []
  /\ generate_tags r = Some [u "breakfast"; u "burrito"; u "egg"; u "pork"; u "turkey"].
Proof. vm_compute. repeat split. Qed.

(** ** Totality *)

(** C4: [parse_recipe_data] is a total function (it has no error outcome),
    and on the empty text every field is empty. *)
Theorem parse_recipe_data_total_empty :
  (forall text, exists r, parse_recipe_data text = r)
  /\ parse_recipe_data [] = mk_recipe [] [] [] [] [] [].
Proof. split; [intros text; eexists; reflexivity | vm_compute; reflexivity]. Qed.

(** C2 (counterexample): a bulleted ingredients region is not split at its
    bullets; it yields one entry. *)
Lemma bulleted_example_counterexample :
  ingredients (parse_recipe_data bulleted_example)
  <> [u "2 eggs"; u "1 cup milk"; u "1 tortilla"].
Proof. vm_compute. congruence. Qed.

(** ** Ingredient splitting *)

(** C3: the whitespace normalisation leaves no newline, so splitting the
    ingredients region on newlines yields one line: the ingredients list has
    at most one element, and that element is the trimmed region with one
    leading bullet/number prefix removed from its front. *)
Theorem ingredients_at_most_one text :
  ~ In 10%N (clean_text text)
  /\ length (ingredients (parse_recipe_data text)) <= 1
  /\ (ingredients (parse_recipe_data text) = []
      \/ (ingredients (parse_recipe_data text)
          = [re_sub re_bullet_prefix []
               (py_strip (search_group re_ingredients (clean_text text)))]
          /\ exists pre,
               py_strip (search_group re_ingredients (clean_text text))
               = pre ++ re_sub re_bullet_prefix []
                          (py_strip (search_group re_ingredients (clean_text text))))).
Proof.
  split; [apply clean_text_no_newline|]. cbn [parse_recipe_data ingredients].
  rewrite extract_ingredients_region.
  destruct (ingredient_lines_single (search_group re_ingredients (clean_text text))) as [E|E];
    rewrite E; simpl; split; try lia; [left; reflexivity|].
  right. split; [reflexivity | apply bullet_prefix_suffix].
Qed.

(** C2 (amended): the ingredients region is not split at bullet or number
    markers.  When the trimmed region is non-empty, does not start with
    "directions" or "pro tip" (after lowercasing), and is more than a marker,
    the ingredients list is exactly one entry: the region with one leading
    marker prefix removed, the markers inside it kept. *)
Theorem ingredients_region_single_entry text :
  py_strip (search_group re_ingredients (clean_text text)) <> [] ->
  startswith_any (py_lower (py_strip (search_group re_ingredients (clean_text text))))
                 [u "directions"; u "pro tip"] = false ->
  re_sub re_bullet_prefix [] (py_strip (search_group re_ingredients (clean_text text))) <> [] ->
  ingredients (parse_recipe_data text)
  = [re_sub re_bullet_prefix [] (py_strip (search_group re_ingredients (clean_text text)))].
Proof.
  intros Hne Hstart Hent. cbn [parse_recipe_data ingredients].
  rewrite extract_ingredients_region. cbn [ingredient_lines]. rewrite Hstart.
  destruct (is_nil (py_strip (search_group re_ingredients (clean_text text)))) eqn:Es.
  - destruct (py_strip _); [contradiction | discriminate].
  - cbn [negb andb].
    destruct (is_nil (re_sub re_bullet_prefix [] _)) eqn:Er; [|reflexivity].
    destruct (re_sub re_bullet_prefix [] _); [contradiction | discriminate].
Qed.

(** C2 (amended), witness: the bulleted example gives one entry. *)
Lemma ingredients_region_single_entry_witness :
  ingredients (parse_recipe_data bulleted_example)
  = [re_sub re_bullet_prefix [] (py_strip (search_group re_ingredients (clean_text bulleted_example)))]
  /\ ingredients (parse_recipe_data bulleted_example)
     = [u "2 eggs " ++ [BULLET] ++ u " 1 cup milk " ++ [BULLET] ++ u " 1 tortilla"].
Proof.
  split; [|vm_compute; reflexivity].
  apply ingredients_region_single_entry; vm_compute; congruence.
Defined.

(** ** Tags *)

Ltac pystr_neq := let H := fresh in intros H; vm_compute in H; discriminate H.

Lemma not_keyword_tag r t :
  existsb (pystr_eqb t) (map (fun p => u (fst p)) ingredient_tags) = false ->
  ~ In t (keyword_tags r).
Proof. intros E H. apply in_keyword_tags in H. revert H. apply not_in_by_eqb. exact E. Qed.

Lemma generate_tags_ok r :
  nutrition_ok r ->
  exists tags, generate_tags r = Some tags /\ tags <> [] /\ Sorted str_le tags.
Proof.
  intros [Hc Hp]. unfold generate_tags.
  assert (E1 : exists t1, calorie_tags r (keyword_tags r) = Some t1).
  { unfold calorie_tags. destruct (is_nil (calories r)) eqn:En; [eauto|].
    destruct Hc as [Hc|[n Hn]]; [rewrite Hc in En; discriminate | rewrite Hn; eauto]. }
  destruct E1 as [t1 E1]. rewrite E1.
  assert (E2 : exists t2, protein_tags r t1 = Some t2).
  { unfold protein_tags. destruct (is_nil (protein r)) eqn:En; [eauto|].
    destruct Hp as [Hp|[n Hn]]; [rewrite Hp in En; discriminate | rewrite Hn; eauto]. }
  destruct E2 as [t2 E2]. rewrite E2.
  eexists. split; [reflexivity|]. split; [|apply py_sorted_sorted].
  apply py_sorted_nonempty. destruct t2; simpl; congruence.
Qed.

(** C5: for a record whose calorie and protein fields are absent or hold an
    integer [int()] accepts, [generate_tags] returns a non-empty list sorted ascending; and
    when no taxonomy keyword occurs in the lowercased title, ingredients and
    directions, the calories are absent or within 300..500 and the protein
    is absent or at most 40, the result is exactly ["recipe"]. *)
Theorem generate_tags_sorted_default r :
  (nutrition_ok r ->
   exists tags, generate_tags r = Some tags /\ tags <> [] /\ Sorted str_le tags)
  /\ ((forall tag kws kw, In (tag, kws) ingredient_tags -> In kw kws ->
        py_contains (u kw) (all_text r) = false) ->
      (calories r = [] \/ exists n, py_int (calories r) = Some n /\ (300 <= n <= 500)%Z) ->
      (protein r = [] \/ exists n, py_int (protein r) = Some n /\ (n <= 40)%Z) ->
      generate_tags r = Some [u "recipe"]).
Proof.
  split; [apply generate_tags_ok|].
  - intros Hk Hc Hp. unfold generate_tags. rewrite (keyword_tags_none r Hk).
    assert (E1 : calorie_tags r [] = Some []).
    { unfold calorie_tags. destruct Hc as [Hc|(n & Hn & Hb)]; [rewrite Hc; reflexivity|].
      destruct (is_nil (calories r)); [reflexivity|]. rewrite Hn.
      destruct (Z.ltb_spec n 300); [lia|]. destruct (Z.ltb_spec 500 n); [lia|]. reflexivity. }
    assert (E2 : protein_tags r [] = Some []).
    { unfold protein_tags. destruct Hp as [Hp|(n & Hn & Hb)]; [rewrite Hp; reflexivity|].
      destruct (is_nil (protein r)); [reflexivity|]. rewrite Hn.
      destruct (Z.ltb_spec 40 n); [lia|]. reflexivity. }
    rewrite E1, E2. reflexivity.
Qed.

(** C5, witness: a record with calories 400, protein 30 and no keyword. *)
Lemma generate_tags_sorted_default_witness :
  nutrition_ok plain_record
  /\ (exists tags, generate_tags plain_record = Some tags /\ tags <> [] /\ Sorted str_le tags)
  /\ generate_tags plain_record = Some [u "recipe"].
Proof.
  assert (Hok : nutrition_ok plain_record) by (split; right; eexists; vm_compute; reflexivity).
  split; [exact Hok|]. split; [exact (proj1 (generate_tags_sorted_default plain_record) Hok)|].
  apply (proj2 (generate_tags_sorted_default plain_record)).
  - intros tag kws kw Ht Hk.
    assert (Hall : forallb (fun '(_, ks) =>
                      forallb (fun k => negb (py_contains (u k) (all_text plain_record))) ks)
                     ingredient_tags = true) by (vm_compute; reflexivity).
    rewrite forallb_forall in Hall. specialize (Hall _ Ht). cbv beta iota in Hall.
    rewrite forallb_forall in Hall. apply negb_true_iff. exact (Hall _ Hk).
  - right. exists 400%Z. split; [vm_compute; reflexivity | lia].
  - right. exists 30%Z. split; [vm_compute; reflexivity | lia].
Defined.

(** C6: when calories are present, [lowcalorie] is among the tags exactly
    when the calorie integer is below 300 and [highcalorie] exactly when it
    is above 500 (so 300 and 500 give neither); when protein is present,
    [highprotein] is among the tags exactly when the taxonomy gave it or the
    protein integer is above 40. *)
Theorem generate_tags_thresholds r tags :
  generate_tags r = Some tags ->
  (calories r <> [] ->
   exists n, py_int (calories r) = Some n
   /\ (In (u "lowcalorie") tags <-> (n < 300)%Z)
   /\ (In (u "highcalorie") tags <-> (500 < n)%Z))
  /\ (protein r <> [] ->
      exists n, py_int (protein r) = Some n
      /\ (In (u "highprotein") tags <-> In (u "highprotein") (keyword_tags r) \/ (40 < n)%Z)).
Proof.
  intros Hg. destruct (generate_tags_in r tags [] Hg) as (t1 & t2 & E1 & E2 & _). split.
  - intros Hne. destruct (calorie_tags_int _ _ _ E1 Hne) as [n Hn].
    exists n. split; [exact Hn|]. split.
    + rewrite (in_generate_tags r tags _ Hg) by pystr_neq. split.
      * intros [H|[(_ & m & Hm & [[Hlt _]|[_ Heq]])|(_ & m & _ & _ & Heq)]].
        -- exfalso. revert H. apply not_keyword_tag. vm_compute. reflexivity.
        -- rewrite Hn in Hm. injection Hm as <-. exact Hlt.
        -- revert Heq. pystr_neq.
        -- revert Heq. pystr_neq.
      * intros Hlt. right. left. split; [exact Hne|]. exists n. split; [exact Hn|].
        left. split; [exact Hlt | reflexivity].
    + rewrite (in_generate_tags r tags _ Hg) by pystr_neq. split.
      * intros [H|[(_ & m & Hm & [[_ Heq]|[Hlt _]])|(_ & m & _ & _ & Heq)]].
        -- exfalso. revert H. apply not_keyword_tag. vm_compute. reflexivity.
        -- revert Heq. pystr_neq.
        -- rewrite Hn in Hm. injection Hm as <-. exact Hlt.
        -- revert Heq. pystr_neq.
      * intros Hlt. right. left. split; [exact Hne|]. exists n. split; [exact Hn|].
        right. split; [exact Hlt | reflexivity].
  - intros Hne. destruct (protein_tags_int _ _ _ E2 Hne) as [n Hn].
    exists n. split; [exact Hn|].
    rewrite (in_generate_tags r tags _ Hg) by pystr_neq. split.
    + intros [H|[(_ & m & _ & [[_ Heq]|[_ Heq]])|(_ & m & Hm & Hlt & _)]].
      * left. exact H.
      * revert Heq. pystr_neq.
      * revert Heq. pystr_neq.
      * right. rewrite Hn in Hm. injection Hm as <-. exact Hlt.
    + intros [H|Hlt]; [left; exact H|]. right. right. split; [exact Hne|].
      exists n. split; [exact Hn|]. split; [exact Hlt | reflexivity].
Qed.

(** C6, witness: calories 300 give neither calorie tag and protein 41 gives
    [highprotein]. *)
Lemma generate_tags_thresholds_witness :
  generate_tags boundary_record = Some [u "highprotein"]
  /\ (exists n, py_int (calories boundary_record) = Some n
      /\ (In (u "lowcalorie") [u "highprotein"] <-> (n < 300)%Z)
      /\ (In (u "highcalorie") [u "highprotein"] <-> (500 < n)%Z))
  /\ (exists n, py_int (protein boundary_record) = Some n
      /\ (In (u "highprotein") [u "highprotein"]
          <-> In (u "highprotein") (keyword_tags boundary_record) \/ (40 < n)%Z)).
Proof.
  assert (Hg : generate_tags boundary_record = Some [u "highprotein"]) by (vm_compute; reflexivity).
  split; [exact Hg|]. destruct (generate_tags_thresholds boundary_record _ Hg) as [Hc Hp].
  split; [apply Hc | apply Hp]; vm_compute; congruence.
Defined.

(** C10: whenever the lowercased title, ingredients and directions contain
    "protein", [highprotein] is among the tags, whatever the protein field. *)
Theorem protein_keyword_highprotein r tags :
  py_contains (u "protein") (all_text r) = true ->
  generate_tags r = Some tags ->
  In (u "highprotein") tags.
Proof.
  intros Hc Hg. apply (in_generate_tags r tags _ Hg); [pystr_neq|]. left.
  apply (keyword_tags_found r "highprotein" ["protein"; "high protein"]%string "protein");
    [| left; reflexivity | exact Hc].
  unfold ingredient_tags. repeat (first [left; reflexivity | right]).
Qed.

(** C10, witness: a "Protein Oats" record with protein 20. *)
Lemma protein_keyword_highprotein_witness :
  generate_tags protein_title_record = Some [u "highprotein"]
  /\ In (u "highprotein") [u "highprotein"].
Proof.
  split; [vm_compute; reflexivity|].
  apply (protein_keyword_highprotein protein_title_record); vm_compute; reflexivity.
Defined.

(** ** Markdown layout *)

Lemma in_py_join c sep l :
  In c (py_join sep l) -> In c sep \/ exists x, In x l /\ In c x.
Proof.
  induction l as [|x l IH]; simpl; [intros []|].
  destruct l as [|y l].
  - intros H. right. exists x. auto.
  - intros H. apply in_app_or in H as [H|H]; [right; exists x; auto|].
    apply in_app_or in H as [H|H]; [left; exact H|].
    destruct (IH H) as [H'|(z & Hz & Hc)]; [left; exact H'|].
    right. exists z. split; [right; exact Hz | exact Hc].
Qed.

Lemma tag_line_one_line r tags : generate_tags r = Some tags -> ~ In 10%N (tag_line tags).
Proof.
  intros Hg H. unfold tag_line in H. apply in_py_join in H as [H|(x & Hx & H)].
  - destruct H as [H|[]]. discriminate H.
  - apply in_map_iff in Hx as (t & <- & Ht). apply in_app_or in H as [H|H].
    + destruct H as [H|[]]. discriminate H.
    + pose proof (in_generate_tags_names r tags t Hg Ht) as Hn.
      assert (Hall : forallb (fun t => negb (existsb (N.eqb 10) t)) all_tag_names = true)
        by (vm_compute; reflexivity).
      rewrite forallb_forall in Hall. specialize (Hall t Hn).
      apply negb_true_iff in Hall.
      assert (E : existsb (N.eqb 10) t = true)
        by (apply existsb_exists; exists 10%N; split; [exact H | apply N.eqb_refl]).
      congruence.
Qed.

Lemma is_prefix_app p x : is_prefix p (p ++ x) = true.
Proof. induction p as [|a p IH]; simpl; [reflexivity|]. rewrite N.eqb_refl. exact IH. Qed.

Lemma later_sections_not_nutrition r :
  is_prefix (u "## Nutrition Information")
            (ingredients_section r ++ directions_section r ++ pro_tips_section r) = false.
Proof.
  unfold ingredients_section, directions_section, pro_tips_section.
  destruct (is_nil (ingredients r)), (is_nil (directions r)), (is_nil (pro_tips r));
    vm_compute; reflexivity.
Qed.

Lemma nutrition_prefix_iff r :
  is_prefix (u "## Nutrition Information")
            (nutrition_section r ++ ingredients_section r ++ directions_section r
             ++ pro_tips_section r) = true
  <-> calories r <> [] \/ protein r <> [].
Proof.
  assert (Hp : forall x, is_prefix (u "## Nutrition Information")
                 ((u "## Nutrition Information" ++ NL ++ NL ++ x) ++
                  ingredients_section r ++ directions_section r ++ pro_tips_section r) = true)
    by (intros x; rewrite <- app_assoc; apply is_prefix_app).
  unfold nutrition_section.
  destruct (calories r) as [|c cs]; destruct (protein r) as [|p ps]; cbn [is_nil negb orb].
  - rewrite app_nil_l, later_sections_not_nutrition.
    split; [discriminate | intros [H|H]; contradiction H; reflexivity].
  - rewrite Hp. split; [intros _; right; discriminate | reflexivity].
  - rewrite Hp. split; [intros _; left; discriminate | reflexivity].
  - rewrite Hp. split; [intros _; left; discriminate | reflexivity].
Qed.

(** C8: for a record whose calorie and protein fields are absent or hold an
    integer [int()] accepts, [create_markdown] returns the line "# " and the title, a blank
    line, one line of the sorted tags written "#tag" and joined by spaces, a
    blank line, and then the sections; the sections start with
    "## Nutrition Information" exactly when calories or protein are present. *)
Theorem create_markdown_layout r :
  nutrition_ok r ->
  exists tags after,
    generate_tags r = Some tags /\ Sorted str_le tags
    /\ create_markdown r
       = Some (u "# " ++ title r ++ NL ++ NL ++ tag_line tags ++ NL ++ NL ++ after)
    /\ tag_line tags = py_join (u " ") (map (fun t => u "#" ++ t) tags)
    /\ ~ In 10%N (tag_line tags)
    /\ (is_prefix (u "## Nutrition Information") after = true
        <-> calories r <> [] \/ protein r <> []).
Proof.
  intros Hok. destruct (generate_tags_ok r Hok) as (tags & Hg & _ & Hs).
  exists tags, (nutrition_section r ++ ingredients_section r ++ directions_section r
                ++ pro_tips_section r).
  split; [exact Hg|]. split; [exact Hs|]. split.
  - unfold create_markdown. rewrite Hg. reflexivity.
  - split; [reflexivity|]. split; [exact (tag_line_one_line r tags Hg)|].
    apply nutrition_prefix_iff.
Qed.

(** C8, witness: a record with calories 250 and one ingredient. *)
Lemma create_markdown_layout_witness :
  nutrition_ok low_calorie_record
  /\ exists tags after,
    generate_tags low_calorie_record = Some tags /\ Sorted str_le tags
    /\ create_markdown low_calorie_record
       = Some (u "# " ++ title low_calorie_record ++ NL ++ NL ++ tag_line tags ++ NL ++ NL ++ after)
    /\ tag_line tags = py_join (u " ") (map (fun t => u "#" ++ t) tags)
    /\ ~ In 10%N (tag_line tags)
    /\ (is_prefix (u "## Nutrition Information") after = true
        <-> calories low_calorie_record <> [] \/ protein low_calorie_record <> []).
Proof.
  assert (Hok : nutrition_ok low_calorie_record).
  { split; [right; eexists; vm_compute; reflexivity | left; reflexivity]. }
  split; [exact Hok | exact (create_markdown_layout low_calorie_record Hok)].
Defined.

(** ** File names *)

Lemma in_ranges_enum c rs :
  in_ranges c rs = true ->
  In c (flat_map (fun '(a, b) => map N.of_nat (seq (N.to_nat a) (S (N.to_nat b - N.to_nat a)))) rs).
Proof.
  unfold in_ranges. induction rs as [|[a b] rs IH]; cbn [existsb flat_map]; [discriminate|].
  intros H. apply in_or_app. apply orb_true_iff in H as [H|H]; [left | right; exact (IH H)].
  apply andb_true_iff in H as [Ha Hb]. apply N.leb_le in Ha, Hb.
  apply in_map_iff. exists (N.to_nat c). split; [apply N2Nat.id|].
  apply in_seq. lia.
Qed.

Lemma space_not_word c : is_space c = true -> is_word c = false.
Proof.
  intros H. apply in_ranges_enum in H.
  assert (Hall : forallb (fun c => negb (is_word c))
                   (flat_map (fun '(a, b) => map N.of_nat (seq (N.to_nat a)
                                                (S (N.to_nat b - N.to_nat a)))) space_ranges)
                 = true) by (vm_compute; reflexivity).
  rewrite forallb_forall in Hall. apply negb_true_iff. exact (Hall c H).
Qed.

Lemma fname_char_not_space c : fname_char c = true -> is_space c = false.
Proof.
  unfold fname_char. intros H. apply orb_true_iff in H as [H|H].
  - destruct (is_space c) eqn:E; [|reflexivity]. rewrite (space_not_word c E) in H. discriminate.
  - apply N.eqb_eq in H as ->. reflexivity.
Qed.

Lemma fname_char_not_illegal c : fname_char c = true -> cls_illegal c = false.
Proof.
  intros H. destruct (cls_illegal c) eqn:E; [|reflexivity]. exfalso.
  unfold cls_illegal in E. apply existsb_exists in E as (d & Hd & Hcd).
  apply N.eqb_eq in Hcd as <-. revert H.
  assert (Hall : forallb (fun d => negb (fname_char d)) (u "<>:" ++ [34%N] ++ u "/\|?*") = true)
    by (vm_compute; reflexivity).
  rewrite forallb_forall in Hall. rewrite (proj1 (negb_true_iff _) (Hall _ Hd)). discriminate.
Qed.

Lemma fname_char_kept c : fname_char c = true -> cls_not_word_space_hyphen c = false.
Proof.
  unfold fname_char, cls_not_word_space_hyphen. intros H.
  apply orb_true_iff in H as [H|H]; rewrite H; [reflexivity|]. rewrite !orb_true_r. reflexivity.
Qed.

Lemma in_lstrip_ws c s : In c (lstrip_ws s) -> In c s.
Proof.
  induction s as [|d s IH]; simpl; [auto|]. destruct (is_space d); [auto | tauto].
Qed.

Lemma in_py_strip c s : In c (py_strip s) -> In c s.
Proof.
  unfold py_strip. intros H. apply in_rev, in_lstrip_ws, in_rev, in_lstrip_ws in H. exact H.
Qed.

Lemma in_lstrip_char c ch s : In c (lstrip_char ch s) -> In c s.
Proof.
  induction s as [|d s IH]; simpl; [auto|]. destruct (d =? ch)%N; [auto | tauto].
Qed.

Lemma length_lstrip_char ch s : length (lstrip_char ch s) <= length s.
Proof. induction s as [|d s IH]; simpl; [lia|]. destruct (d =? ch)%N; simpl; lia. Qed.

Lemma lstrip_ws_id s : (forall c, In c s -> is_space c = false) -> lstrip_ws s = s.
Proof.
  destruct s as [|c s]; simpl; [reflexivity|]. intros H. rewrite (H c (or_introl eq_refl)).
  reflexivity.
Qed.

Lemma py_strip_id s : (forall c, In c s -> is_space c = false) -> py_strip s = s.
Proof.
  intros H. unfold py_strip. rewrite (lstrip_ws_id s H), lstrip_ws_id; [apply rev_involutive|].
  intros c Hc. apply H. apply in_rev. exact Hc.
Qed.

Lemma replace_char_id a b s : ~ In a s -> replace_char a b s = s.
Proof.
  induction s as [|c s IH]; simpl; [reflexivity|]. intros H.
  destruct (N.eqb_spec c a) as [->|]; [exfalso; apply H; left; reflexivity|].
  rewrite IH; [reflexivity | intros H'; apply H; right; exact H'].
Qed.

Lemma in_replace_char c a b s : In c (replace_char a b s) -> c = b \/ (c <> a /\ In c s).
Proof.
  unfold replace_char. intros H. apply in_map_iff in H as (d & <- & Hd).
  destruct (N.eqb_spec d a) as [->|Hne]; [left; reflexivity | right; auto].
Qed.

(** The characters left by each step of [sanitize_filename]. *)
Lemma sanitize_filename_chars t :
  (forall c, In c (sanitize_filename t) -> fname_char c = true)
  /\ sanitize_filename t <> [] /\ length (sanitize_filename t) <= 50.
Proof.
  unfold sanitize_filename. cbv zeta.
  set (s1 := re_sub (Chr cls_illegal) [] t).
  set (s2 := re_sub (Chr cls_not_word_space_hyphen) [] s1).
  set (s3 := py_strip (re_sub re_ws (u " ") s2)).
  set (s4 := replace_char 32 95 s3).
  assert (H2 : forall c, In c s2 -> cls_not_word_space_hyphen c = false).
  { intros c Hc. destruct (re_sub_chars _ _ _ _ Hc) as [[]|(i & b & Hi & Hm)].
    exact (match_at_chr_none _ _ _ _ _ Hm Hi). }
  assert (H3 : forall c, In c s3 -> c = 32%N \/ fname_char c = true).
  { intros c Hc. apply in_py_strip in Hc.
    destruct (re_sub_chars _ _ _ _ Hc) as [[<-|[]]|(i & b & Hi & Hm)]; [left; reflexivity|].
    right. pose proof (match_at_rep1_none _ _ _ _ _ Hm Hi) as Hs.
    assert (Hin : In c s2) by (eapply nth_error_In; exact Hi).
    specialize (H2 c Hin). unfold cls_not_word_space_hyphen in H2.
    apply negb_false_iff in H2. rewrite Hs, orb_false_r in H2. exact H2. }
  assert (H4 : forall c, In c s4 -> fname_char c = true).
  { intros c Hc. apply in_replace_char in Hc as [->|[Hne Hc]]; [vm_compute; reflexivity|].
    destruct (H3 c Hc) as [->|H]; [contradiction | exact H]. }
  set (s5 := if 50 <? length s4 then py_rstrip_char 95 (firstn 50 s4) else s4).
  assert (H5 : forall c, In c s5 -> fname_char c = true).
  { intros c Hc. unfold s5 in Hc. destruct (50 <? length s4); [|exact (H4 c Hc)].
    unfold py_rstrip_char in Hc. apply in_rev, in_lstrip_char, in_rev in Hc.
    apply H4. rewrite <- (firstn_skipn 50 s4). apply in_or_app. left. exact Hc. }
  assert (L5 : length s5 <= 50).
  { unfold s5. destruct (Nat.ltb_spec 50 (length s4)) as [Hl|Hl]; [|exact Hl].
    unfold py_rstrip_char. rewrite length_rev.
    pose proof (length_lstrip_char 95 (rev (firstn 50 s4))) as Hl'.
    rewrite length_rev, length_firstn in Hl'. lia. }
  clearbody s5. destruct s5 as [|c s5].
  - cbn [is_nil]. split; [|split; [discriminate | cbn; lia]].
    intros c Hc. assert (Hall : forallb fname_char (u "recipe") = true) by (vm_compute; reflexivity).
    rewrite forallb_forall in Hall. exact (Hall c Hc).
  - cbn [is_nil]. split; [exact H5|]. split; [discriminate | exact L5].
Qed.

(** [sanitize_filename] leaves a non-empty name of at most 50 word
    characters and hyphens unchanged. *)
Lemma sanitize_filename_fixed s :
  (forall c, In c s -> fname_char c = true) -> s <> [] -> length s <= 50 ->
  sanitize_filename s = s.
Proof.
  intros Hs Hne Hl. unfold sanitize_filename. cbv zeta.
  assert (E1 : re_sub (Chr cls_illegal) [] s = s).
  { apply re_sub_no_match. intros i b.
    destruct (match_at s (Chr cls_illegal) i b) as [x|] eqn:E; [|reflexivity].
    destruct (match_at_chr_some _ _ _ _ _ E) as (c & Hc & Hp).
    rewrite (fname_char_not_illegal c (Hs c (nth_error_In _ _ Hc))) in Hp. discriminate. }
  assert (E2 : re_sub (Chr cls_not_word_space_hyphen) [] s = s).
  { apply re_sub_no_match. intros i b.
    destruct (match_at s (Chr cls_not_word_space_hyphen) i b) as [x|] eqn:E; [|reflexivity].
    destruct (match_at_chr_some _ _ _ _ _ E) as (c & Hc & Hp).
    rewrite (fname_char_kept c (Hs c (nth_error_In _ _ Hc))) in Hp. discriminate. }
  assert (E3 : re_sub re_ws (u " ") s = s).
  { apply re_sub_no_match. intros i b.
    destruct (match_at s re_ws i b) as [x|] eqn:E; [|reflexivity].
    destruct (match_at_rep1_some _ _ _ _ _ E) as (c & Hc & Hp).
    rewrite (fname_char_not_space c (Hs c (nth_error_In _ _ Hc))) in Hp. discriminate. }
  assert (E4 : py_strip s = s).
  { apply py_strip_id. intros c Hc. exact (fname_char_not_space c (Hs c Hc)). }
  assert (E5 : replace_char 32 95 s = s).
  { apply replace_char_id. intros H. specialize (Hs _ H). vm_compute in Hs. discriminate. }
  rewrite E1, E2, E3, E4, E5.
  destruct (Nat.ltb_spec 50 (length s)) as [Hl'|_]; [lia|].
  destruct s; [contradiction | reflexivity].
Qed.

(** C9: [sanitize_filename] is idempotent, on every title. *)
Theorem sanitize_filename_idempotent t :
  sanitize_filename (sanitize_filename t) = sanitize_filename t.
Proof.
  destruct (sanitize_filename_chars t) as (Hc & Hne & Hl).
  apply sanitize_filename_fixed; assumption.
Qed.

(** ** Pro tips *)

Lemma mt_grp s r i g k : mt s (Grp r) i g k = mt s r i g (fun j _ => k j (Some (i, j))).
Proof. reflexivity. Qed.

Lemma mt_chr_some s p i g k x :
  mt s (Chr p) i g k = Some x -> exists c, char_at s i = Some c /\ p c = true.
Proof.
  cbn [mt]. destruct (char_at s i) as [c|]; [|discriminate].
  destruct (p c) eqn:Ep; [eauto | discriminate].
Qed.

(** A repetition that succeeds consumed [j] characters of its class. *)
Lemma mt_rep_run s p lo hi gr i g k x :
  mt s (Rep p lo hi gr) i g k = Some x ->
  exists j, lo <= j
  /\ (forall m, m < j -> exists c, char_at s (i + m) = Some c /\ p c = true)
  /\ k (i + j) g = Some x.
Proof.
  cbn [mt]. set (n := run_len s p i _).
  destruct (n <? lo) eqn:E; [discriminate|]. intros H.
  destruct (first_some_in _ _ _ H) as (j & Hj & Hk).
  apply in_rep_counts in Hj. exists j. split; [lia|]. split; [|exact Hk].
  intros m Hm. apply (run_len_spec s p i (match hi with Some h => h | None => length s end)).
  unfold n in Hj. lia.
Qed.

(** Every match of "(\d+\..*?)(?=\d+\.|$)" starts with a digit followed by a period. *)
Lemma numbered_digit_dot s i b x :
  match_at s re_numbered i b = Some x ->
  exists m d, nth_error s m = Some d /\ is_digit d = true /\ nth_error s (S m) = Some 46%N.
Proof.
  unfold match_at, re_numbered. cbn [cat_all]. rewrite mt_cat, mt_grp, mt_cat. intros H.
  apply mt_rep_run in H as (j & Hj & Hrun & Hk). cbv beta in Hk. rewrite mt_cat in Hk.
  apply mt_chr_some in Hk as (c & Hc & Hdot). apply N.eqb_eq in Hdot as <-.
  destruct (Hrun (j - 1)) as (d & Hd & Hdig); [lia|].
  exists (i + (j - 1)), d. split; [exact Hd|]. split; [exact Hdig|].
  unfold char_at in Hc. rewrite <- Hc. f_equal. lia.
Qed.

(** C7: when no digit is followed by a period in the region after the
    PRO TIP marker, the pro tips list is empty: tips without numbers are
    dropped. *)
Theorem pro_tips_unnumbered_dropped text :
  (forall m d, nth_error (search_group re_pro_tips (clean_text text)) m = Some d ->
     is_digit d = true ->
     nth_error (search_group re_pro_tips (clean_text text)) (S m) <> Some 46%N) ->
  pro_tips (parse_recipe_data text) = [].
Proof.
  intros H. cbn [parse_recipe_data pro_tips]. unfold extract_numbered.
  unfold search_group in H.
  destruct (re_search re_pro_tips (clean_text text)) as [[[st en] g]|]; [|reflexivity].
  set (R := group_str (clean_text text) g) in *.
  unfold re_findall, loop_fuel. rewrite Nat.add_comm. cbn [findall_loop Nat.add].
  destruct (search_from R re_numbered 0 false) as [[[st' en'] g']|] eqn:Es; [|reflexivity].
  exfalso. destruct (search_from_some _ _ _ _ _ _ _ Es) as (_ & Hm & _).
  destruct (numbered_digit_dot _ _ _ _ Hm) as (m & d & Hd & Hdig & Hdot).
  exact (H m d Hd Hdig Hdot).
Qed.

(** C7, witness: "PRO TIPS Keep it cold. Serve warm." gives no tip. *)
Lemma pro_tips_unnumbered_dropped_witness :
  pro_tips (parse_recipe_data unnumbered_tips_example) = [].
Proof.
  apply (pro_tips_unnumbered_dropped unnumbered_tips_example).
  intros m d Hd Hdig. exfalso.
  assert (Hall : forallb (fun c => negb (is_digit c))
                   (search_group re_pro_tips (clean_text unnumbered_tips_example)) = true)
    by (vm_compute; reflexivity).
  rewrite forallb_forall in Hall. specialize (Hall d (nth_error_In _ _ Hd)).
  rewrite Hdig in Hall. discriminate.
Defined.

(** ** Nutrition values of parsed records *)

Lemma mt_grp_free s r : grp_free r = true -> forall i g k x,
  i <= length s -> mt s r i g k = Some x ->
  exists j, i <= j <= length s /\ k j g = Some x.
Proof.
  induction r as [| p | p lo hi greedy | r1 IH1 r2 IH2 | r1 IH1 r2 IH2 | r1 IH1
                  | ml | ml | r1 IH1]; intros Hf i g k x Hi; cbn [mt];
    cbn [grp_free] in Hf; try (apply andb_true_iff in Hf as [Hf1 Hf2]).
  - intros H. exists i. split; [lia | exact H].
  - destruct (char_at s i) as [c|] eqn:E; [|discriminate].
    destruct (p c); [|discriminate]. intros H.
    apply char_at_lt in E. exists (S i). split; [lia | exact H].
  - set (n := run_len s p i _).
    assert (Hn : i + n <= length s) by (apply run_len_le; exact Hi).
    destruct (n <? lo); [discriminate|]. intros H.
    destruct (first_some_in _ _ _ H) as (j & Hj & Hk).
    apply in_rep_counts in Hj. exists (i + j). split; [lia | exact Hk].
  - intros H. destruct (IH1 Hf1 _ _ _ _ Hi H) as (j1 & Hj1 & H1).
    destruct (IH2 Hf2 _ _ _ _ (proj2 Hj1) H1) as (j & Hj & Hk).
    exists j. split; [lia | exact Hk].
  - destruct (mt s r1 i g k) eqn:E.
    + intros H. injection H as <-. exact (IH1 Hf1 _ _ _ _ Hi E).
    + intros H. exact (IH2 Hf2 _ _ _ _ Hi H).
  - discriminate.
  - destruct (_ || _); [|discriminate]. intros H. exists i. split; [lia | exact H].
  - destruct (_ || _); [|discriminate]. intros H. exists i. split; [lia | exact H].
  - destruct (mt s r1 i g _); [|discriminate]. intros H.
    exists i. split; [lia | exact H].
Qed.

(** A match of "(\d+)" followed by a group-free pattern captures a
    non-empty run of digits. *)
Lemma digits_group_match s r i b en g :
  grp_free r = true -> i <= length s ->
  match_at s (Cat (Grp (Rep is_digit 1 None true)) r) i b = Some (en, g) ->
  exists j, 1 <= j /\ i + j <= length s /\ g = Some (i, i + j)
  /\ forall m, m < j -> exists c, char_at s (i + m) = Some c /\ is_digit c = true.
Proof.
  intros Hf Hi. unfold match_at. rewrite mt_cat, mt_grp. intros H.
  apply mt_rep_run in H as (j & Hj & Hrun & Hk). cbv beta in Hk.
  assert (Hl : i + j <= length s).
  { destruct (Hrun (j - 1)) as (c & Hc & _); [lia|]. apply char_at_lt in Hc. lia. }
  apply (mt_grp_free s r Hf) in Hk as (j' & _ & Hk); [|exact Hl].
  destruct (b && (j' =? i)); [discriminate|]. injection Hk as _ <-.
  exists j. auto.
Qed.

Lemma space_not_digit c : is_space c = true -> is_digit c = false.
Proof.
  intros H. apply in_ranges_enum in H.
  assert (Hall : forallb (fun c => negb (is_digit c))
                   (flat_map (fun '(a, b) => map N.of_nat (seq (N.to_nat a)
                                                (S (N.to_nat b - N.to_nat a)))) space_ranges)
                 = true) by (vm_compute; reflexivity).
  rewrite forallb_forall in Hall. apply negb_true_iff. exact (Hall c H).
Qed.

Lemma parse_digits_all s : (forall c, In c s -> is_digit c = true) ->
  forall acc nd, (s <> [] \/ nd = false) -> exists n, parse_digits s acc nd = Some n.
Proof.
  induction s as [|c s IH]; intros Hd acc nd Hne.
  - destruct Hne as [H | ->]; [contradiction H; reflexivity | exists acc; reflexivity].
  - cbn [parse_digits]. specialize (Hd c (or_introl eq_refl)) as Hc. unfold is_digit in Hc.
    destruct (digit_value c) as [d|]; [|discriminate].
    apply IH; [intros c' H; apply Hd; right; exact H | right; reflexivity].
Qed.

Lemma digits_no_underscore s :
  (forall c, In c s -> is_digit c = true) -> filter (fun c => negb (c =? 95)%N) s = s.
Proof.
  induction s as [|c s IH]; intros Hd; [reflexivity|].
  cbn [filter]. destruct (N.eqb_spec c 95) as [->|_].
  - specialize (Hd 95%N (or_introl eq_refl)). vm_compute in Hd. discriminate Hd.
  - cbn [negb]. f_equal. apply IH. intros c' H. apply Hd. right. exact H.
Qed.

(** [int()] accepts a non-empty run of decimal digits exactly when it has at
    most [int_max_str_digits] of them. *)
Lemma py_int_digits_iff s :
  s <> [] -> (forall c, In c s -> is_digit c = true) ->
  (exists n, py_int s = Some n) <-> length s <= int_max_str_digits.
Proof.
  intros Hne Hd. unfold py_int.
  assert (Hs : forall c, In c s -> is_space c = false).
  { intros c Hc. destruct (is_space c) eqn:E; [|reflexivity].
    specialize (Hd c Hc). rewrite (space_not_digit c E) in Hd. discriminate. }
  rewrite (py_strip_id s Hs).
  destruct s as [|c rest]; [contradiction Hne; reflexivity|].
  pose proof (Hd c (or_introl eq_refl)) as Hc.
  destruct (N.eqb_spec c 45) as [->|_]; [discriminate Hc|].
  destruct (N.eqb_spec c 43) as [->|_]; [discriminate Hc|].
  unfold int_digits. rewrite (digits_no_underscore _ Hd).
  destruct (Nat.ltb_spec int_max_str_digits (length (c :: rest))) as [Hl|Hl].
  - split; [intros [n Hn]; discriminate Hn | lia].
  - split; [intros _; exact Hl | intros _].
    apply parse_digits_all; [exact Hd | left; discriminate].
Qed.

Lemma py_int_digits s :
  s <> [] -> (forall c, In c s -> is_digit c = true) -> length s <= int_max_str_digits ->
  exists n, py_int s = Some n.
Proof. intros Hne Hd Hl. apply (py_int_digits_iff s Hne Hd). exact Hl. Qed.

(** [calorie_tags] and [protein_tags] go through exactly when their [int()]
    calls do. *)
Lemma calorie_tags_some r tags :
  (exists t, calorie_tags r tags = Some t) <->
  (calories r = [] \/ exists n, py_int (calories r) = Some n).
Proof.
  unfold calorie_tags. destruct (calories r) as [|c cs] eqn:E; cbn [is_nil].
  - split; [intros _; left; reflexivity | intros _; eexists; reflexivity].
  - destruct (py_int (c :: cs)) as [n|].
    + split; [intros _; right; exists n; reflexivity | intros _; eexists; reflexivity].
    + split; [intros [t Ht]; discriminate Ht|].
      intros [H|[n Hn]]; [discriminate H | discriminate Hn].
Qed.

Lemma protein_tags_some r tags :
  (exists t, protein_tags r tags = Some t) <->
  (protein r = [] \/ exists n, py_int (protein r) = Some n).
Proof.
  unfold protein_tags. destruct (protein r) as [|c cs] eqn:E; cbn [is_nil].
  - split; [intros _; left; reflexivity | intros _; eexists; reflexivity].
  - destruct (py_int (c :: cs)) as [n|].
    + split; [intros _; right; exists n; reflexivity | intros _; eexists; reflexivity].
    + split; [intros [t Ht]; discriminate Ht|].
      intros [H|[n Hn]]; [discriminate H | discriminate Hn].
Qed.

(** [create_markdown] raises exactly when one of its [int()] calls does. *)
Lemma create_markdown_some_iff r :
  (exists md, create_markdown r = Some md) <-> nutrition_ok r.
Proof.
  unfold create_markdown, generate_tags, nutrition_ok. split.
  - intros [md Hmd].
    destruct (calorie_tags r (keyword_tags r)) as [t1|] eqn:E1; [|discriminate Hmd].
    destruct (protein_tags r t1) as [t2|] eqn:E2; [|discriminate Hmd].
    split; [apply (proj1 (calorie_tags_some r (keyword_tags r))) | apply (proj1 (protein_tags_some r t1))];
      eexists; eassumption.
  - intros [Hc Hp].
    destruct (proj2 (calorie_tags_some r (keyword_tags r)) Hc) as [t1 E1]. rewrite E1.
    destruct (proj2 (protein_tags_some r t1) Hp) as [t2 E2]. rewrite E2.
    eexists. reflexivity.
Qed.

(** * Further properties *)

(** ** The tag set *)

Lemma some_eq {A : Type} (a b : A) : Some a = Some b -> a = b.
Proof. intros H. injection H. auto. Qed.

Lemma set_add_nodup x l : NoDup l -> NoDup (set_add x l).
Proof.
  unfold set_add. intros H. destruct (existsb (pystr_eqb x) l) eqn:E; [exact H|].
  apply (Permutation_NoDup (Permutation_cons_append l x)).
  constructor; [|exact H]. exact (not_in_by_eqb x l E).
Qed.

Lemma keyword_tags_go_nodup tax txt tags : NoDup tags -> NoDup (keyword_tags_go tax txt tags).
Proof.
  revert tags. induction tax as [|[tag kws] tax IH]; intros tags H; simpl; [exact H|].
  apply IH. destruct (existsb _ kws); [apply set_add_nodup|]; exact H.
Qed.

Lemma insert_sorted_perm x l : Permutation (insert_sorted x l) (x :: l).
Proof.
  induction l as [|y l IH]; simpl; [reflexivity|].
  destruct (str_ltb y x); [|reflexivity].
  transitivity (y :: x :: l); [constructor; exact IH | constructor].
Qed.

Lemma py_sorted_perm l : Permutation (py_sorted l) l.
Proof.
  unfold py_sorted. induction l as [|x l IH]; simpl; [reflexivity|].
  rewrite insert_sorted_perm. constructor. exact IH.
Qed.

(** [generate_tags] returns distinct tags, each one of the taxonomy tags or
    [lowcalorie], [highcalorie], [highprotein] or [recipe]. *)
Theorem generate_tags_distinct_vocabulary r tags :
  generate_tags r = Some tags ->
  NoDup tags /\ forall t, In t tags -> In t all_tag_names.
Proof.
  intros Hg. split; [|intros t; apply (in_generate_tags_names r tags t Hg)].
  revert Hg. unfold generate_tags.
  destruct (calorie_tags r (keyword_tags r)) as [t1|] eqn:E1; [|discriminate].
  destruct (protein_tags r t1) as [t2|] eqn:E2; [|discriminate]. intros H. injection H as <-.
  apply (Permutation_NoDup (Permutation_sym (py_sorted_perm _))).
  destruct (is_nil t2); [constructor; [intros []|constructor]|].
  assert (H0 : NoDup (keyword_tags r)) by (unfold keyword_tags; apply keyword_tags_go_nodup; constructor).
  assert (H1 : NoDup t1).
  { revert E1. unfold calorie_tags. destruct (is_nil (calories r)).
    - intros E. apply some_eq in E. subst. exact H0.
    - destruct (py_int (calories r)) as [n|]; [|discriminate]. intros E. apply some_eq in E. subst.
      destruct (n <? 300)%Z; [apply set_add_nodup; exact H0|].
      destruct (500 <? n)%Z; [apply set_add_nodup|]; exact H0. }
  revert E2. unfold protein_tags. destruct (is_nil (protein r)).
  - intros E. apply some_eq in E. subst. exact H1.
  - destruct (py_int (protein r)) as [n|]; [|discriminate]. intros E. apply some_eq in E. subst.
    destruct (40 <? n)%Z; [apply set_add_nodup|]; exact H1.
Qed.

(** Witness: the spec's example record. *)
Lemma generate_tags_distinct_vocabulary_witness :
  NoDup [u "breakfast"; u "burrito"; u "egg"; u "pork"; u "turkey"]
  /\ forall t, In t [u "breakfast"; u "burrito"; u "egg"; u "pork"; u "turkey"] ->
     In t all_tag_names.
Proof.
  apply (generate_tags_distinct_vocabulary (parse_recipe_data spec_example)).
  vm_compute. reflexivity.
Defined.

(** The fallback tag [recipe] only ever appears alone: it is among the tags
    exactly when the tag list is ["recipe"]. *)
Theorem generate_tags_recipe_alone r tags :
  generate_tags r = Some tags -> (In (u "recipe") tags <-> tags = [u "recipe"]).
Proof.
  intros Hg. split; [|intros ->; left; reflexivity].
  intros Hin. pose proof Hg as Hg'. revert Hg'. unfold generate_tags.
  destruct (calorie_tags r (keyword_tags r)) as [t1|] eqn:E1; [|discriminate].
  destruct (protein_tags r t1) as [t2|] eqn:E2; [|discriminate].
  destruct t2 as [|x t2]; intros H; injection H as <-; [reflexivity|].
  exfalso.
  assert (Hin2 : In (u "recipe") (x :: t2)).
  { rewrite in_insert_sorted, in_py_sorted in Hin.
    destruct Hin as [->|H]; [left; reflexivity | right; exact H]. }
  clear Hin. rename Hin2 into Hin.
  apply (in_protein_tags _ _ _ _ E2) in Hin as [Hin|(_ & _ & _ & _ & Heq)];
    [|revert Heq; pystr_neq].
  apply (in_calorie_tags _ _ _ _ E1) in Hin as [Hin|(_ & _ & _ & [[_ Heq]|[_ Heq]])];
    [|revert Heq; pystr_neq|revert Heq; pystr_neq].
  revert Hin. apply not_keyword_tag. vm_compute. reflexivity.
Qed.

(** Witness: a record with no keyword and calories 400. *)
Lemma generate_tags_recipe_alone_witness :
  In (u "recipe") [u "recipe"] <-> [u "recipe"] = [u "recipe"].
Proof. apply (generate_tags_recipe_alone plain_record). vm_compute. reflexivity. Defined.

(** ** Fields of a parsed record *)

Lemma in_re_sub_nil r s c : In c (re_sub r [] s) -> In c s.
Proof.
  intros H. destruct (re_sub_chars _ _ _ _ H) as [[]|(i & b & Hi & _)].
  exact (nth_error_In _ _ Hi).
Qed.

Lemma in_search_group r s c : In c (search_group r s) -> In c s.
Proof.
  unfold search_group. destruct (re_search r s) as [[[? ?] g]|]; [apply in_group_str_in | intros []].
Qed.

Lemma in_findall_loop s r fuel pos ma x c :
  In x (findall_loop s r fuel pos ma) -> In c x -> In c s.
Proof.
  revert pos ma. induction fuel as [|fuel IH]; intros pos ma; cbn [findall_loop]; [intros []|].
  destruct (search_from s r pos ma) as [[[st en] g]|]; [|intros []].
  intros [<-|H]; [apply in_group_str_in | exact (IH _ _ H)].
Qed.

Lemma in_re_findall r s x c : In x (re_findall r s) -> In c x -> In c s.
Proof. apply in_findall_loop. Qed.

Lemma in_clean_steps l x c : In x (clean_steps l) -> In c x -> exists y, In y l /\ In c y.
Proof.
  induction l as [|y l IH]; cbn [clean_steps]; [intros []|].
  destruct (is_nil (py_strip y)).
  - intros Hx Hc. destruct (IH Hx Hc) as (z & Hz & Hcz). exists z. split; [right|]; assumption.
  - intros [<-|Hx] Hc.
    + exists y. split; [left; reflexivity|].
      apply in_py_strip, in_re_sub_nil, in_py_strip in Hc. exact Hc.
    + destruct (IH Hx Hc) as (z & Hz & Hcz). exists z. split; [right|]; assumption.
Qed.

Lemma in_ingredient_lines l x c : In x (ingredient_lines l) -> In c x -> exists y, In y l /\ In c y.
Proof.
  induction l as [|y l IH]; cbn [ingredient_lines]; [intros []|].
  assert (Hrest : In x (ingredient_lines l) -> In c x -> exists z, In z (y :: l) /\ In c z).
  { intros Hx Hc. destruct (IH Hx Hc) as (z & Hz & Hcz). exists z. split; [right|]; assumption. }
  destruct (negb _ && negb _); [|exact Hrest].
  destruct (is_nil (re_sub re_bullet_prefix [] (py_strip y))); [exact Hrest|].
  intros [<-|Hx] Hc; [|exact (Hrest Hx Hc)].
  exists y. split; [left; reflexivity|]. apply in_re_sub_nil, in_py_strip in Hc. exact Hc.
Qed.

Lemma in_split_char sep s x c : In x (split_char sep s) -> In c x -> In c s.
Proof.
  revert x. induction s as [|d s IH]; intros x; cbn [split_char].
  - intros [<-|[]] [].
  - destruct (d =? sep)%N.
    + intros [<-|Hx] Hc; [destruct Hc | right; exact (IH x Hx Hc)].
    + destruct (split_char sep s) as [|w ws] eqn:E.
      * intros [<-|[]] [<-|[]]. left. reflexivity.
      * intros [<-|Hx] Hc.
        -- destruct Hc as [<-|Hc]; [left; reflexivity|]. right. apply (IH w); [left; reflexivity | exact Hc].
        -- right. apply (IH x); [right; exact Hx | exact Hc].
Qed.

Lemma in_pick_title pats s c : In c (pick_title pats s) -> In c s.
Proof.
  induction pats as [|r rs IH]; cbn [pick_title]; [intros []|].
  destruct (re_search r s) as [[[? ?] g]|]; [|exact IH].
  destruct (_ && _); [|exact IH].
  intros Hc. apply in_re_sub_nil, in_py_strip, in_group_str_in in Hc. exact Hc.
Qed.

Lemma in_extract_title s c : In c (extract_title s) -> In c s.
Proof.
  unfold extract_title. destruct (is_nil (pick_title title_patterns s)); [|apply in_pick_title].
  destruct (re_findall re_common_name s) as [|n ns] eqn:E; [intros []|].
  intros Hc. apply in_py_strip in Hc. apply (in_re_findall re_common_name s n); [|exact Hc].
  rewrite E. left. reflexivity.
Qed.

Lemma in_extract_numbered section s x c :
  In x (extract_numbered section s) -> In c x -> In c s.
Proof.
  unfold extract_numbered. destruct (re_search section s) as [[[? ?] g]|]; [|intros []].
  intros Hx Hc. destruct (in_clean_steps _ _ _ Hx Hc) as (y & Hy & Hcy).
  apply (in_group_str_in s g). exact (in_re_findall _ _ _ _ Hy Hcy).
Qed.

(** Every character of every field of a parsed record is a character of the
    whitespace-normalised text; so no field contains a newline or any
    whitespace other than a plain space. *)
Theorem parse_recipe_data_fields_from_clean_text text c :
  let r := parse_recipe_data text in
  (In c (title r) \/ In c (calories r) \/ In c (protein r)
   \/ exists x, In x (ingredients r ++ directions r ++ pro_tips r) /\ In c x) ->
  In c (clean_text text) /\ (c = 32%N \/ is_space c = false).
Proof.
  cbn zeta. intros H.
  assert (Hin : In c (clean_text text)).
  { cbn [parse_recipe_data title calories protein ingredients directions pro_tips] in H.
    destruct H as [H|[H|[H|(x & Hx & Hc)]]];
      [exact (in_extract_title _ _ H) | exact (in_search_group _ _ _ H)
      | exact (in_search_group _ _ _ H) |].
    apply in_app_or in Hx as [Hx|Hx]; [|apply in_app_or in Hx as [Hx|Hx]];
      [| exact (in_extract_numbered _ _ _ _ Hx Hc) | exact (in_extract_numbered _ _ _ _ Hx Hc)].
    revert Hx. unfold extract_ingredients.
    destruct (re_search re_ingredients (clean_text text)) as [[[? ?] g]|]; [|intros []].
    intros Hx. destruct (in_ingredient_lines _ _ _ Hx Hc) as (y & Hy & Hcy).
    apply (in_group_str_in _ g). exact (in_split_char _ _ _ _ Hy Hcy). }
  split; [exact Hin | exact (clean_text_chars _ _ Hin)].
Qed.

(** Witness: the first character of the example's title. *)
Lemma parse_recipe_data_fields_from_clean_text_witness :
  In 84%N (clean_text spec_example) /\ (84%N = 32%N \/ is_space 84 = false).
Proof.
  apply (parse_recipe_data_fields_from_clean_text spec_example 84%N). left.
  vm_compute. left. reflexivity.
Defined.

(** ** Calories, protein and the markdown of a parsed record *)

Lemma search_group_digit_run r text :
  grp_free r = true ->
  let v := search_group (Cat (Grp (Rep is_digit 1 None true)) r) text in
  v = [] \/ (v <> [] /\ forall c, In c v -> is_digit c = true).
Proof.
  intros Hf. cbv zeta. unfold search_group, re_search.
  destruct (search_from text _ 0 false) as [[[st en] g]|] eqn:E; [|left; reflexivity].
  right. destruct (search_from_some _ _ _ _ _ _ _ E) as ((_ & Hst) & Hm & _).
  destruct (digits_group_match _ _ _ _ _ _ Hf Hst Hm) as (j & Hj & Hl & -> & Hrun).
  unfold group_str, slice. split.
  - intros H. apply (f_equal (@length N)) in H. rewrite length_firstn, length_skipn in H.
    simpl in H. lia.
  - intros c Hc. apply In_nth_error in Hc as (m & Hm').
    rewrite nth_error_firstn in Hm'. destruct (Nat.ltb_spec m (st + j - st)) as [Hmj|]; [|discriminate].
    rewrite nth_error_skipn in Hm'.
    destruct (Hrun m) as (c' & Hc' & Hd); [lia|].
    unfold char_at in Hc'. rewrite Hc' in Hm'. injection Hm' as <-. exact Hd.
Qed.

Lemma digit_run_int v :
  v = [] \/ (v <> [] /\ forall c, In c v -> is_digit c = true) ->
  (v = [] \/ exists n, py_int v = Some n) <-> length v <= int_max_str_digits.
Proof.
  intros [->|[Hne Hd]].
  - split; [intros _; cbn [length]; unfold int_max_str_digits; lia | intros _; left; reflexivity].
  - rewrite <- (py_int_digits_iff v Hne Hd). split; [intros [H|H]; [contradiction|exact H] | intros H; right; exact H].
Qed.

Lemma parse_recipe_data_nutrition_iff text :
  nutrition_ok (parse_recipe_data text) <->
  length (calories (parse_recipe_data text)) <= int_max_str_digits
  /\ length (protein (parse_recipe_data text)) <= int_max_str_digits.
Proof.
  unfold nutrition_ok.
  rewrite (digit_run_int (calories (parse_recipe_data text))), (digit_run_int (protein (parse_recipe_data text)));
    [reflexivity | apply search_group_digit_run; reflexivity | apply search_group_digit_run; reflexivity].
Qed.

(** The calorie and protein values of a parsed record are empty or a
    non-empty run of decimal digits, and [create_markdown] succeeds on the
    record, whatever title is put in it, exactly when neither value has more
    than [int_max_str_digits] digits: otherwise [int()] raises. *)
Theorem parse_recipe_data_markdown_limit text t :
  let r := parse_recipe_data text in
  (calories r = [] \/ (calories r <> [] /\ forall c, In c (calories r) -> is_digit c = true))
  /\ (protein r = [] \/ (protein r <> [] /\ forall c, In c (protein r) -> is_digit c = true))
  /\ ((exists md, create_markdown (mk_recipe t (calories r) (protein r) (ingredients r)
                                   (directions r) (pro_tips r)) = Some md)
      <-> length (calories r) <= int_max_str_digits /\ length (protein r) <= int_max_str_digits).
Proof.
  cbv zeta. split; [|split].
  - apply search_group_digit_run. reflexivity.
  - apply search_group_digit_run. reflexivity.
  - rewrite create_markdown_some_iff, <- parse_recipe_data_nutrition_iff. reflexivity.
Qed.

(** ** Steps and ingredient lines *)

Lemma lstrip_ws_idem s : lstrip_ws (lstrip_ws s) = lstrip_ws s.
Proof.
  induction s as [|c s IH]; cbn [lstrip_ws]; [reflexivity|].
  destruct (is_space c) eqn:E; [exact IH|]. cbn [lstrip_ws]. rewrite E. reflexivity.
Qed.

Lemma lstrip_ws_suffix s : exists p, s = p ++ lstrip_ws s.
Proof.
  induction s as [|c s IH]; cbn [lstrip_ws]; [exists []; reflexivity|].
  destruct (is_space c).
  - destruct IH as [p Hp]. exists (c :: p). simpl. f_equal. exact Hp.
  - exists []. reflexivity.
Qed.

Lemma lstrip_ws_nonempty_head s c t : lstrip_ws s = c :: t -> is_space c = false.
Proof.
  induction s as [|d s IH]; cbn [lstrip_ws]; [discriminate|].
  destruct (is_space d) eqn:E; [exact IH|]. intros H. injection H as -> _. exact E.
Qed.

(** [str.strip()] is idempotent. *)
Lemma py_strip_idem s : py_strip (py_strip s) = py_strip s.
Proof.
  unfold py_strip.
  set (a := lstrip_ws s). set (b := lstrip_ws (rev a)).
  assert (Hb : lstrip_ws (rev b) = rev b).
  { destruct (lstrip_ws_suffix (rev a)) as [p Hp]. fold b in Hp.
    assert (Ha : a = rev b ++ rev p) by (rewrite <- rev_app_distr, <- Hp, rev_involutive; reflexivity).
    destruct (rev b) as [|c t] eqn:Eb; [reflexivity|].
    cbn [lstrip_ws]. rewrite (lstrip_ws_nonempty_head s c (t ++ rev p)); [reflexivity|].
    fold a. rewrite Ha. reflexivity. }
  rewrite Hb, rev_involutive. unfold b. rewrite lstrip_ws_idem. reflexivity.
Qed.

Lemma clean_steps_trimmed l x : In x (clean_steps l) -> py_strip x = x.
Proof.
  induction l as [|y l IH]; cbn [clean_steps]; [intros []|].
  destruct (is_nil (py_strip y)); [exact IH|].
  intros [<-|H]; [apply py_strip_idem | exact (IH H)].
Qed.

(** Every direction and every pro tip of a parsed record is stripped: it
    neither starts nor ends with whitespace. *)
Theorem parse_recipe_data_steps_trimmed text x :
  In x (directions (parse_recipe_data text) ++ pro_tips (parse_recipe_data text)) ->
  py_strip x = x.
Proof.
  cbn [parse_recipe_data directions pro_tips]. unfold extract_numbered.
  intros H. apply in_app_or in H as [H|H]; revert H;
    match goal with |- context [re_search ?sec ?t] =>
      destruct (re_search sec t) as [[[? ?] g]|]; [apply clean_steps_trimmed | intros []] end.
Qed.

(** Witness: the first direction of the example. *)
Lemma parse_recipe_data_steps_trimmed_witness :
  In (u "Cook bacon") (directions (parse_recipe_data spec_example)
                       ++ pro_tips (parse_recipe_data spec_example))
  /\ py_strip (u "Cook bacon") = u "Cook bacon".
Proof.
  assert (H : In (u "Cook bacon") (directions (parse_recipe_data spec_example)
                       ++ pro_tips (parse_recipe_data spec_example)))
    by (vm_compute; left; reflexivity).
  split; [exact H | exact (parse_recipe_data_steps_trimmed spec_example _ H)].
Defined.

Lemma ingredient_lines_nonempty l x : In x (ingredient_lines l) -> x <> [].
Proof.
  induction l as [|y l IH]; cbn [ingredient_lines]; [intros []|].
  destruct (negb _ && negb _); [|exact IH].
  destruct (re_sub re_bullet_prefix [] (py_strip y)) as [|c t] eqn:E; cbn [is_nil]; [exact IH|].
  intros [<-|H]; [discriminate | exact (IH H)].
Qed.

(** The parser never records an empty ingredient line. *)
Theorem parse_recipe_data_ingredients_nonempty text x :
  In x (ingredients (parse_recipe_data text)) -> x <> [].
Proof.
  cbn [parse_recipe_data ingredients]. unfold extract_ingredients.
  destruct (re_search re_ingredients (clean_text text)) as [[[? ?] g]|];
    [apply ingredient_lines_nonempty | intros []].
Qed.

(** Witness: the ingredient line of the example. *)
Lemma parse_recipe_data_ingredients_nonempty_witness :
  In (u "eggs 2 turkey bacon strips") (ingredients (parse_recipe_data spec_example))
  /\ u "eggs 2 turkey bacon strips" <> [].
Proof.
  assert (H : In (u "eggs 2 turkey bacon strips") (ingredients (parse_recipe_data spec_example)))
    by (vm_compute; left; reflexivity).
  split; [exact H | exact (parse_recipe_data_ingredients_nonempty spec_example _ H)].
Defined.

(** ** [os.path] *)

Lemma rfind_go_app ch x z i acc :
  rfind_go ch (x ++ z) i acc = rfind_go ch z (i + length x) (rfind_go ch x i acc).
Proof.
  revert i acc. induction x as [|c x IH]; intros i acc; cbn [app rfind_go length].
  - rewrite Nat.add_0_r. reflexivity.
  - rewrite IH. f_equal. lia.
Qed.

Lemma rfind_go_absent ch y i acc : ~ In ch y -> rfind_go ch y i acc = acc.
Proof.
  revert i acc. induction y as [|c y IH]; intros i acc Hn; cbn [rfind_go]; [reflexivity|].
  destruct (N.eqb_spec c ch) as [->|_]; [contradiction Hn; left; reflexivity|].
  apply IH. intros H. apply Hn. right. exact H.
Qed.

Lemma rfind_last ch x y : ~ In ch y -> rfind ch (x ++ ch :: y) = Z.of_nat (length x).
Proof.
  intros Hy. unfold rfind. rewrite rfind_go_app. cbn [rfind_go]. rewrite N.eqb_refl.
  apply rfind_go_absent. exact Hy.
Qed.

Lemma rfind_absent ch y : ~ In ch y -> rfind ch y = (-1)%Z.
Proof. apply rfind_go_absent. Qed.

Lemma last_occurrence (ch : N) (s : pystr) :
  ~ In ch s \/ exists x y, s = x ++ ch :: y /\ ~ In ch y.
Proof.
  induction s as [|c s IH] using rev_ind; [left; intros []|].
  destruct (N.eqb_spec c ch) as [->|Hne].
  - right. exists s, []. split; [reflexivity | intros []].
  - destruct IH as [H|(x & y & -> & Hy)].
    + left. intros H'. apply in_app_or in H' as [H'|[H'|[]]]; [exact (H H') | exact (Hne H')].
    + right. exists x, (y ++ [c]). split; [rewrite <- app_assoc; reflexivity|].
      intros H'. apply in_app_or in H' as [H'|[H'|[]]]; [exact (Hy H') | exact (Hne H')].
Qed.

Lemma basename_no_slash b : ~ In 47%N b -> os_path_basename b = b.
Proof. intros H. unfold os_path_basename. rewrite rfind_absent by exact H. reflexivity. Qed.

Lemma basename_after_slash x b : ~ In 47%N b -> os_path_basename (x ++ 47%N :: b) = b.
Proof.
  intros H. unfold os_path_basename. rewrite rfind_last by exact H.
  replace (Z.to_nat (Z.of_nat (length x) + 1)) with (length (x ++ [47%N]))
    by (rewrite length_app; simpl; lia).
  replace (x ++ 47%N :: b) with ((x ++ [47%N]) ++ b) by (rewrite <- app_assoc; reflexivity).
  rewrite skipn_app, skipn_all, Nat.sub_diag. reflexivity.
Qed.

Lemma endswith_slash a : endswith a (u "/") = true -> exists a', a = a' ++ [47%N].
Proof.
  unfold endswith. change (u "/") with [47%N]. cbn [rev app].
  destruct (rev a) as [|c t] eqn:E; [discriminate|].
  cbn [is_prefix]. rewrite andb_true_r. intros H. apply N.eqb_eq in H. subst c.
  exists (rev t). rewrite <- (rev_involutive a), E. reflexivity.
Qed.

Lemma join_shape a b : is_prefix (u "/") b = false ->
  os_path_join a b = b \/ exists x, os_path_join a b = x ++ 47%N :: b.
Proof.
  intros Hb. unfold os_path_join. rewrite Hb.
  destruct (is_nil a) eqn:Ea; cbn [orb].
  - destruct a; [|discriminate]. left. reflexivity.
  - right. destruct (endswith a (u "/")) eqn:Ee.
    + destruct (endswith_slash a Ee) as [a' ->]. exists a'. rewrite <- app_assoc. reflexivity.
    + exists a. reflexivity.
Qed.

Lemma no_slash_prefix b : ~ In 47%N b -> is_prefix (u "/") b = false.
Proof.
  destruct b as [|c b]; [reflexivity|]. intros H. change (u "/") with [47%N].
  cbn [is_prefix]. rewrite andb_true_r.
  apply N.eqb_neq. intros <-. apply H. left. reflexivity.
Qed.

(** [os.path.basename] undoes [os.path.join] with a name that holds no
    slash. *)
Theorem basename_join a b : ~ In 47%N b -> os_path_basename (os_path_join a b) = b.
Proof.
  intros H. destruct (join_shape a b (no_slash_prefix b H)) as [->|[x ->]].
  - apply basename_no_slash. exact H.
  - apply basename_after_slash. exact H.
Qed.

(** Witness: a directory and the name of a markdown file. *)
Lemma basename_join_witness :
  ~ In 47%N (u "Oat_Bowl.md") /\ os_path_basename (os_path_join (u "out") (u "Oat_Bowl.md")) = u "Oat_Bowl.md".
Proof.
  assert (H : ~ In 47%N (u "Oat_Bowl.md")) by (cbn; intuition discriminate).
  split; [exact H | exact (basename_join (u "out") _ H)].
Defined.

(** [os.path.splitext] splits a path: the two parts give the path back, and
    the extension is empty or starts with its only dot and has no slash. *)
Theorem splitext_parts p :
  fst (os_path_splitext p) ++ snd (os_path_splitext p) = p
  /\ (snd (os_path_splitext p) = []
      \/ exists e, snd (os_path_splitext p) = 46%N :: e /\ ~ In 46%N e /\ ~ In 47%N e).
Proof.
  unfold os_path_splitext. cbv zeta.
  destruct (Z.ltb_spec (rfind 47 p) (rfind 46 p)) as [Hlt|]; [|split; [apply app_nil_r | left; reflexivity]].
  destruct (splitext_scan _ _ _ _); [|split; [apply app_nil_r | left; reflexivity]].
  cbn [fst snd]. split; [apply firstn_skipn|]. right.
  destruct (last_occurrence 46 p) as [Hn|(x & y & -> & Hy)].
  { rewrite (rfind_absent _ _ Hn) in Hlt. unfold rfind in Hlt.
    exfalso. clear Hn. assert (Hge : forall s i acc, (-1 <= acc)%Z -> (-1 <= rfind_go 47 s i acc)%Z).
    { induction s as [|c s IH]; intros i acc Ha; cbn [rfind_go]; [exact Ha|].
      apply IH. destruct (c =? 47)%N; lia. }
    specialize (Hge p 0 (-1)%Z ltac:(lia)). lia. }
  rewrite rfind_last by exact Hy. rewrite Nat2Z.id, skipn_app, skipn_all, Nat.sub_diag.
  cbn [app skipn]. exists y. split; [reflexivity|]. split; [exact Hy|].
  intros H47. rewrite (rfind_last _ _ _ Hy) in Hlt.
  destruct (last_occurrence 47 (x ++ 46%N :: y)) as [Hn|(x' & y' & E & Hy')].
  - apply Hn. apply in_or_app. right. right. exact H47.
  - rewrite E, rfind_last in Hlt by exact Hy'.
    apply In_nth_error in H47 as [j Hj].
    assert (Hp : nth_error (x ++ 46%N :: y) (length x + S j) = Some 47%N).
    { rewrite nth_error_app2 by lia. replace (length x + S j - length x) with (S j) by lia.
      exact Hj. }
    rewrite E in Hp. rewrite nth_error_app2 in Hp by lia.
    destruct (length x + S j - length x') as [|m] eqn:Em; [lia|].
    cbn [nth_error] in Hp. apply nth_error_In in Hp. exact (Hy' Hp).
Qed.

(** ** The duplicate loop of [process_pdf_file] *)

Lemma os_path_exists_in fs p : os_path_exists fs p = true <-> In p (map fst fs).
Proof.
  unfold os_path_exists. rewrite existsb_exists, in_map_iff. split.
  - intros (e & He & Eq). apply pystr_eqb_eq in Eq. exists e. auto.
  - intros (e & <- & He). exists e. split; [exact He | apply pystr_eqb_eq; reflexivity].
Qed.

Lemma u_inj a b : u a = u b -> a = b.
Proof.
  unfold u. intros H.
  rewrite <- (string_of_list_ascii_of_string a), <- (string_of_list_ascii_of_string b). f_equal.
  revert H. generalize (list_ascii_of_string a) (list_ascii_of_string b).
  induction l as [|x l IH]; intros [|y l']; cbn [map]; try discriminate; [reflexivity|].
  intros H. injection H as Hxy Hl. f_equal; [|exact (IH _ Hl)].
  rewrite <- (ascii_N_embedding x), <- (ascii_N_embedding y), Hxy. reflexivity.
Qed.

(** [str(i)] is injective. *)
Lemma py_str_nat_inj m n : py_str_nat m = py_str_nat n -> m = n.
Proof.
  unfold py_str_nat. intros H. apply u_inj in H.
  apply (f_equal NilEmpty.uint_of_string) in H. rewrite !NilEmpty.usu in H.
  injection H as H. rewrite <- (Unsigned.of_to m), <- (Unsigned.of_to n), H. reflexivity.
Qed.

Lemma dup_candidate_inj o m n : dup_candidate o m = dup_candidate o n -> m = n.
Proof.
  unfold dup_candidate. intros H. apply app_inv_head in H. cbn [u] in H.
  injection H as H. apply app_inv_tail in H. exact (py_str_nat_inj _ _ H).
Qed.

Lemma dup_loop_some fs o out c fuel p :
  dup_loop fs o out c fuel = Some p ->
  os_path_exists fs p = false
  /\ (p = out
      \/ exists k, c <= k < c + fuel /\ p = dup_candidate o k /\ os_path_exists fs out = true
         /\ forall k', c <= k' < k -> os_path_exists fs (dup_candidate o k') = true).
Proof.
  revert out c. induction fuel as [|f IH]; intros out c; cbn [dup_loop];
    destruct (os_path_exists fs out) eqn:E; try discriminate;
    try (intros H; injection H as <-; split; [exact E | left; reflexivity]).
  intros H. destruct (IH _ _ H) as (Hp & [->|(k & Hk & -> & Hc & Hprior)]); split; try exact Hp.
  - right. exists c. split; [lia|]. split; [reflexivity|]. split; [first [exact E | reflexivity]|]. intros k' Hk'; lia.
  - right. exists k. split; [lia|]. split; [reflexivity|]. split; [first [exact E | reflexivity]|].
    intros k' Hk'. destruct (Nat.eq_dec k' c) as [->|Hne]; [exact Hc | apply Hprior; lia].
Qed.

Lemma dup_loop_none fs o out c fuel :
  dup_loop fs o out c fuel = None ->
  forall k, c <= k < c + fuel -> os_path_exists fs (dup_candidate o k) = true.
Proof.
  revert out c. induction fuel as [|f IH]; intros out c; cbn [dup_loop];
    destruct (os_path_exists fs out) eqn:E; try discriminate; [intros _ k Hk; lia|].
  intros H k Hk. destruct (Nat.eq_dec k c) as [->|Hne].
  - destruct f as [|f']; cbn [dup_loop] in H;
      destruct (os_path_exists fs (dup_candidate o c)); try discriminate; reflexivity.
  - apply (IH _ _ H). lia.
Qed.

(** With one round more than there are files, the loop always finds a free
    name. *)
Lemma dup_loop_enough fs o out : exists p, dup_loop fs o out 1 (S (length fs)) = Some p.
Proof.
  destruct (dup_loop fs o out 1 (S (length fs))) as [p|] eqn:E; [exists p; reflexivity|].
  exfalso. pose proof (dup_loop_none _ _ _ _ _ E) as Hall.
  assert (Hnd : NoDup (map (dup_candidate o) (seq 1 (S (length fs))))).
  { apply Finite.Injective_map_NoDup; [intros m n; apply dup_candidate_inj | apply seq_NoDup]. }
  apply NoDup_incl_length with (l' := map fst fs) in Hnd.
  - rewrite length_map, length_seq, length_map in Hnd. lia.
  - intros x Hx. apply in_map_iff in Hx as (k & <- & Hk). apply in_seq in Hk.
    apply os_path_exists_in. apply Hall. lia.
Qed.

(** ** The path [process_pdf_file] writes *)

Lemma rfind_bound ch s : (-1 <= rfind ch s < Z.of_nat (length s))%Z.
Proof.
  unfold rfind.
  assert (H : forall s i acc, (-1 <= acc < Z.of_nat i)%Z ->
            (-1 <= rfind_go ch s i acc < Z.of_nat (i + length s))%Z).
  { induction s0 as [|c s0 IH]; intros i acc Ha; cbn [rfind_go length].
    - rewrite Nat.add_0_r. exact Ha.
    - replace (i + S (length s0)) with (S i + length s0) by lia.
      apply IH. destruct (c =? ch)%N; lia. }
  apply (H s 0 (-1)%Z). lia.
Qed.

Lemma rfind_app_absent ch j z : ~ In ch z -> rfind ch (j ++ z) = rfind ch j.
Proof. intros H. unfold rfind. rewrite rfind_go_app. apply rfind_go_absent. exact H. Qed.

Lemma slice_one p i c : nth_error p i = Some c -> slice p i (S i) = [c].
Proof.
  intros H. apply nth_error_split in H as (l1 & l2 & -> & <-).
  unfold slice. rewrite skipn_app, skipn_all, Nat.sub_diag.
  replace (S (length l1) - length l1) with 1 by lia. reflexivity.
Qed.

Lemma splitext_scan_true p fi di fuel m c :
  fi <= m < di -> di - fi <= fuel -> nth_error p m = Some c -> c <> 46%N ->
  splitext_scan p fi di fuel = true.
Proof.
  revert fi. induction fuel as [|f IH]; intros fi Hm Hf Hc Hd; [lia|]. cbn [splitext_scan].
  destruct (Nat.ltb_spec fi di) as [_|]; [|lia].
  destruct (Nat.eq_dec fi m) as [->|Hne].
  - rewrite (slice_one _ _ _ Hc). change (u ".") with [46%N]. cbn [pystr_eqb].
    rewrite andb_true_r. destruct (N.eqb_spec c 46); [contradiction|]. reflexivity.
  - destruct (negb _); [reflexivity|]. apply (IH (S fi)); auto; lia.
Qed.

Lemma splitext_ext j f e :
  f <> [] -> ~ In 46%N f -> ~ In 47%N f -> ~ In 46%N e -> ~ In 47%N e ->
  os_path_splitext (j ++ f ++ 46%N :: e) = (j ++ f, 46%N :: e).
Proof.
  intros Hne H46 H47 He46 He47.
  assert (Hmd : ~ In 47%N (f ++ 46%N :: e)).
  { intros H. apply in_app_or in H as [H|[H|H]]; [exact (H47 H) | discriminate H | exact (He47 H)]. }
  assert (E47 : rfind 47 (j ++ f ++ 46%N :: e) = rfind 47 j) by (apply rfind_app_absent; exact Hmd).
  assert (E46 : rfind 46 (j ++ f ++ 46%N :: e) = Z.of_nat (length (j ++ f)))
    by (rewrite app_assoc; apply rfind_last; exact He46).
  pose proof (rfind_bound 47 j) as Hb.
  unfold os_path_splitext. cbv zeta. rewrite E47, E46, Nat2Z.id, length_app.
  destruct (Z.ltb_spec (rfind 47 j) (Z.of_nat (length j + length f))) as [_|]; [|lia].
  destruct f as [|c f']; [contradiction Hne; reflexivity|].
  rewrite (splitext_scan_true _ _ _ _ (length j) c).
  - rewrite app_assoc, firstn_app, skipn_app, <- (length_app j (c :: f')), firstn_all,
      skipn_all, Nat.sub_diag. cbn [firstn skipn]. rewrite !app_nil_r. reflexivity.
  - cbn [length]. lia.
  - rewrite !length_app. cbn [length]. lia.
  - rewrite nth_error_app2, Nat.sub_diag by lia. reflexivity.
  - intros ->. apply H46. left. reflexivity.
Qed.

Lemma splitext_md j f :
  f <> [] -> ~ In 46%N f -> ~ In 47%N f ->
  os_path_splitext (j ++ f ++ u ".md") = (j ++ f, u ".md").
Proof.
  intros Hne H46 H47. change (u ".md") with (46%N :: u "md").
  apply splitext_ext; try assumption; cbn; intuition discriminate.
Qed.

Lemma join_app a b c : b <> [] -> ~ In 47%N b -> os_path_join a (b ++ c) = os_path_join a b ++ c.
Proof.
  intros Hne H. destruct b as [|d b']; [contradiction Hne; reflexivity|].
  assert (Hp : forall z, is_prefix (u "/") (d :: z) = false).
  { intros z. change (u "/") with [47%N]. cbn [is_prefix]. rewrite andb_true_r.
    apply N.eqb_neq. intros <-. apply H. left. reflexivity. }
  unfold os_path_join. cbn [app]. rewrite !Hp.
  destruct (is_nil a || endswith a (u "/")); rewrite <- !app_assoc; reflexivity.
Qed.

Lemma join_split a b : b <> [] -> ~ In 47%N b -> exists j, os_path_join a b = j ++ b.
Proof.
  intros Hne H. destruct (join_shape a b (no_slash_prefix b H)) as [->|[x ->]].
  - exists []. reflexivity.
  - exists (x ++ [47%N]). rewrite <- app_assoc. reflexivity.
Qed.

Lemma sanitize_filename_no_dot_slash t :
  sanitize_filename t <> [] /\ ~ In 46%N (sanitize_filename t) /\ ~ In 47%N (sanitize_filename t).
Proof.
  destruct (sanitize_filename_chars t) as (Hc & Hne & _).
  split; [exact Hne|]. split; intros H; specialize (Hc _ H); vm_compute in Hc; discriminate Hc.
Qed.

Lemma markdown_with_title text t :
  (exists md, create_markdown (mk_recipe t (calories (parse_recipe_data text))
    (protein (parse_recipe_data text)) (ingredients (parse_recipe_data text))
    (directions (parse_recipe_data text)) (pro_tips (parse_recipe_data text))) = Some md)
  <-> length (calories (parse_recipe_data text)) <= int_max_str_digits
      /\ length (protein (parse_recipe_data text)) <= int_max_str_digits.
Proof. rewrite create_markdown_some_iff, <- parse_recipe_data_nutrition_iff. reflexivity. Qed.

Lemma converts_iff text :
  converts text = true <->
  is_nil text = false
  /\ length (calories (parse_recipe_data text)) <= int_max_str_digits
  /\ length (protein (parse_recipe_data text)) <= int_max_str_digits.
Proof.
  unfold converts. rewrite !andb_true_iff, negb_true_iff, !Nat.leb_le. tauto.
Qed.

(** The title [process_pdf_file] files a text under, and its steps. *)
Lemma process_pdf_file_unfold text pdf_path output_dir fs t :
  is_nil text = false ->
  t = (if is_nil (title (parse_recipe_data text)) then fallback_title pdf_path
       else title (parse_recipe_data text)) ->
  process_pdf_file text pdf_path output_dir fs =
  match create_markdown (mk_recipe t (calories (parse_recipe_data text))
          (protein (parse_recipe_data text)) (ingredients (parse_recipe_data text))
          (directions (parse_recipe_data text)) (pro_tips (parse_recipe_data text))) with
  | None => (false, fs)
  | Some md =>
      match dup_loop fs (os_path_join output_dir (sanitize_filename t ++ u ".md"))
              (os_path_join output_dir (sanitize_filename t ++ u ".md")) 1 (S (length fs)) with
      | None => (false, fs)
      | Some p => (true, (p, md) :: fs)
      end
  end.
Proof.
  intros Hn ->. unfold process_pdf_file. rewrite Hn. cbv zeta.
  destruct (is_nil (title (parse_recipe_data text))).
  - reflexivity.
  - change (create_markdown (parse_recipe_data text)) with
      (create_markdown (mk_recipe (title (parse_recipe_data text)) (calories (parse_recipe_data text))
        (protein (parse_recipe_data text)) (ingredients (parse_recipe_data text))
        (directions (parse_recipe_data text)) (pro_tips (parse_recipe_data text)))).
    reflexivity.
Qed.

Lemma process_pdf_file_cases text pdf_path output_dir fs :
  (converts text = false /\ process_pdf_file text pdf_path output_dir fs = (false, fs))
  \/ (converts text = true /\ exists p md,
        process_pdf_file text pdf_path output_dir fs = (true, (p, md) :: fs)
        /\ os_path_exists fs p = false).
Proof.
  destruct (is_nil text) eqn:En.
  - left. split; [unfold converts; rewrite En; reflexivity|].
    unfold process_pdf_file. rewrite En. reflexivity.
  - set (t := if is_nil (title (parse_recipe_data text)) then fallback_title pdf_path
              else title (parse_recipe_data text)).
    rewrite (process_pdf_file_unfold text pdf_path output_dir fs t En eq_refl).
    destruct (create_markdown (mk_recipe t (calories (parse_recipe_data text))
          (protein (parse_recipe_data text)) (ingredients (parse_recipe_data text))
          (directions (parse_recipe_data text)) (pro_tips (parse_recipe_data text)))) as [md|] eqn:Em.
    + right. split.
      { apply converts_iff. split; [exact En|]. apply (markdown_with_title text t). exists md. exact Em. }
      match goal with |- context [dup_loop fs ?o ?o 1 (S (length fs))] =>
        destruct (dup_loop_enough fs o o) as [p Hp]; rewrite Hp;
        destruct (dup_loop_some _ _ _ _ _ _ Hp) as [Hnew _] end.
      exists p, md. split; [reflexivity | exact Hnew].
    + left. split; [|reflexivity].
      destruct (converts text) eqn:Ec; [|reflexivity].
      apply converts_iff in Ec as (_ & Hl).
      apply (markdown_with_title text t) in Hl as [md Hmd]. rewrite Em in Hmd. discriminate Hmd.
Qed.

(** [process_pdf_file] returns [True] exactly when the extracted text is not
    empty and its calorie and protein values are within [int()]'s digit
    limit; it then adds one file, at a path that did not exist, and keeps
    every other file; when it returns [False] nothing is written. *)
Theorem process_pdf_file_outcome text pdf_path output_dir fs :
  (converts text = false /\ process_pdf_file text pdf_path output_dir fs = (false, fs))
  \/ (converts text = true /\ exists p md,
        process_pdf_file text pdf_path output_dir fs = (true, (p, md) :: fs)
        /\ os_path_exists fs p = false).
Proof. apply process_pdf_file_cases. Qed.


(** The file [process_pdf_file] writes lies in the output directory and is
    named after the sanitized title: [<name>.md], or [<name>_<k>.md] with
    [k] between 1 and the number of files that existed. *)
Theorem process_pdf_file_path text pdf_path output_dir fs :
  converts text = true ->
  let t := if is_nil (title (parse_recipe_data text)) then fallback_title pdf_path
           else title (parse_recipe_data text) in
  exists p md, process_pdf_file text pdf_path output_dir fs = (true, (p, md) :: fs)
  /\ (p = os_path_join output_dir (sanitize_filename t ++ u ".md")
      \/ exists k, 1 <= k <= length fs
         /\ p = os_path_join output_dir (sanitize_filename t ++ u "_" ++ py_str_nat k ++ u ".md")).
Proof.
  intros Hc. apply converts_iff in Hc as (En & Hl). cbv zeta.
  set (t := if is_nil (title (parse_recipe_data text)) then fallback_title pdf_path
            else title (parse_recipe_data text)).
  rewrite (process_pdf_file_unfold text pdf_path output_dir fs t En eq_refl).
  destruct (proj2 (markdown_with_title text t) Hl) as [md Hmd]. rewrite Hmd.
  set (f := sanitize_filename t).
  destruct (sanitize_filename_no_dot_slash t) as (Hne & H46 & H47). fold f in Hne, H46, H47.
  set (o := os_path_join output_dir (f ++ u ".md")).
  destruct (dup_loop_enough fs o o) as [p Hp]. rewrite Hp.
  exists p, md. split; [reflexivity|].
  destruct (dup_loop_some _ _ _ _ _ _ Hp) as (_ & [->|(k & Hk & -> & Ho & Hprior)]); [left; reflexivity|].
  right. destruct (join_split output_dir f Hne H47) as [j Ej].
  assert (Eo : o = j ++ f ++ u ".md") by (unfold o; rewrite join_app, Ej, <- app_assoc by assumption; reflexivity).
  assert (Hroot : fst (os_path_splitext o) = j ++ f) by (rewrite Eo, splitext_md by assumption; reflexivity).
  exists k. split.
  - split; [lia|].
    assert (Hnd : NoDup (o :: map (dup_candidate o) (seq 1 (k - 1)))).
    { constructor.
      - intros H. apply in_map_iff in H as (k' & Ek' & _). revert Ek'.
        unfold dup_candidate. rewrite Hroot, Eo, <- app_assoc. intros H.
        apply app_inv_head, app_inv_head in H. discriminate H.
      - apply Finite.Injective_map_NoDup; [intros m n; apply dup_candidate_inj | apply seq_NoDup]. }
    apply NoDup_incl_length with (l' := map fst fs) in Hnd.
    + cbn [length] in Hnd. rewrite length_map, length_seq, length_map in Hnd. lia.
    + intros x [<-|Hx]; apply os_path_exists_in; [exact Ho|].
      apply in_map_iff in Hx as (k' & <- & Hk'). apply in_seq in Hk'. apply Hprior. lia.
  - unfold dup_candidate. rewrite Hroot, <- Ej, <- join_app by assumption. reflexivity.
Qed.

(** Witness: the example text, with its first name already taken. *)
Lemma process_pdf_file_path_witness :
  let fs := [(u "out/Turkey_Bacon_Breakfast_Burrito.md", [])] in
  converts spec_example = true
  /\ exists p md, process_pdf_file spec_example (u "in.pdf") (u "out") fs = (true, (p, md) :: fs)
     /\ (p = os_path_join (u "out") (sanitize_filename (title (parse_recipe_data spec_example)) ++ u ".md")
         \/ exists k, 1 <= k <= length fs
            /\ p = os_path_join (u "out") (sanitize_filename (title (parse_recipe_data spec_example))
                                             ++ u "_" ++ py_str_nat k ++ u ".md")).
Proof.
  cbv zeta. assert (H : converts spec_example = true) by (vm_compute; reflexivity).
  split; [exact H|].
  exact (process_pdf_file_path spec_example (u "in.pdf") (u "out")
           [(u "out/Turkey_Bacon_Breakfast_Burrito.md", [])] H).
Defined.

(** ** The sort of [process_all_pdfs] *)

Lemma insert_keyed_perm x l : Permutation (insert_keyed x l) (x :: l).
Proof.
  induction l as [|y l IH]; cbn [insert_keyed]; [reflexivity|].
  destruct (fst x <=? fst y)%Z; [reflexivity|].
  rewrite IH. apply perm_swap.
Qed.

Lemma insert_keyed_hdrel z x l :
  HdRel key_le z l -> key_le z x -> HdRel key_le z (insert_keyed x l).
Proof.
  destruct l as [|y l]; cbn [insert_keyed]; intros Hz Hx; [constructor; exact Hx|].
  destruct (fst x <=? fst y)%Z; constructor; [exact Hx|]. inversion Hz. assumption.
Qed.

Lemma insert_keyed_sorted x l : Sorted key_le l -> Sorted key_le (insert_keyed x l).
Proof.
  induction l as [|y l IH]; cbn [insert_keyed]; intros Hs; [repeat constructor|].
  destruct (Z.leb_spec (fst x) (fst y)) as [Hle|Hgt].
  - constructor; [exact Hs | constructor; exact Hle].
  - inversion Hs as [|? ? Hl Hh]; subst. constructor; [exact (IH Hl)|].
    apply insert_keyed_hdrel; [exact Hh | unfold key_le; lia].
Qed.

Lemma insert_keyed_stable k x l :
  filter (key_is k) (insert_keyed x l) = filter (key_is k) (x :: l).
Proof.
  induction l as [|y l IH]; cbn [insert_keyed]; [reflexivity|].
  destruct (Z.leb_spec (fst x) (fst y)) as [Hle|Hgt]; [reflexivity|].
  change (filter (key_is k) (y :: insert_keyed x l))
    with (if key_is k y then y :: filter (key_is k) (insert_keyed x l)
          else filter (key_is k) (insert_keyed x l)).
  rewrite IH. cbn [filter]. unfold key_is.
  destruct (Z.eqb_spec (fst y) k), (Z.eqb_spec (fst x) k); try reflexivity; lia.
Qed.

Lemma sort_keyed_props kl :
  let sk := fold_right insert_keyed [] kl in
  Permutation sk kl /\ Sorted key_le sk /\ forall k, filter (key_is k) sk = filter (key_is k) kl.
Proof.
  cbv zeta. induction kl as [|x kl (IHp & IHs & IHf)]; cbn [fold_right].
  - split; [reflexivity|]. split; [constructor | reflexivity].
  - split; [rewrite insert_keyed_perm, IHp; reflexivity|].
    split; [apply insert_keyed_sorted; exact IHs|].
    intros k. rewrite insert_keyed_stable. cbn [filter]. rewrite IHf. reflexivity.
Qed.

Lemma keyed_some l kl :
  keyed l = Some kl -> map snd kl = l /\ forall p, In p kl -> part_key (snd p) = Some (fst p).
Proof.
  revert kl. induction l as [|x l IH]; intros kl; cbn [keyed].
  - intros H. injection H as <-. split; [reflexivity | intros p []].
  - destruct (part_key x) as [k|] eqn:Ek; [|discriminate].
    destruct (keyed l) as [kl'|]; [|discriminate]. intros H. injection H as <-.
    destruct (IH kl' eq_refl) as [Hm Hk]. split; [cbn [map]; rewrite Hm; reflexivity|].
    intros p [<-|Hp]; [exact Ek | exact (Hk p Hp)].
Qed.

Lemma keyed_none l : keyed l = None <-> exists x, In x l /\ part_key x = None.
Proof.
  induction l as [|x l IH]; cbn [keyed].
  - split; [discriminate | intros (x & [] & _)].
  - destruct (part_key x) as [k|] eqn:Ek.
    + destruct (keyed l) as [kl|].
      * split; [discriminate|]. intros (y & [<-|Hy] & Hn); [congruence|].
        discriminate (proj2 IH (ex_intro _ y (conj Hy Hn))).
      * split; [|reflexivity]. intros _. destruct (proj1 IH eq_refl) as (y & Hy & Hn).
        exists y. split; [right; exact Hy | exact Hn].
    + split; [|reflexivity]. intros _. exists x. split; [left; reflexivity | exact Ek].
Qed.

Lemma sorted_map_snd sk :
  (forall p, In p sk -> part_key (snd p) = Some (fst p)) ->
  Sorted key_le sk -> Sorted part_le (map snd sk).
Proof.
  induction sk as [|p sk IH]; intros Hk Hs; cbn [map]; [constructor|].
  inversion Hs as [|? ? Hl Hh]; subst. constructor.
  - apply IH; [intros q Hq; apply Hk; right; exact Hq | exact Hl].
  - destruct sk as [|q sk]; cbn [map]; constructor. inversion Hh as [|? ? Hpq]; subst.
    exists (fst p), (fst q). split; [apply Hk; left; reflexivity|].
    split; [apply Hk; right; left; reflexivity | exact Hpq].
Qed.

Lemma filter_map_snd k kl :
  (forall p, In p kl -> part_key (snd p) = Some (fst p)) ->
  filter (has_key k) (map snd kl) = map snd (filter (key_is k) kl).
Proof.
  induction kl as [|p kl IH]; intros Hk; [reflexivity|]. cbn [map filter].
  unfold has_key at 1. rewrite (Hk p (or_introl eq_refl)). unfold key_is at 1.
  rewrite IH by (intros q Hq; apply Hk; right; exact Hq).
  destruct (fst p =? k)%Z; reflexivity.
Qed.

Lemma sort_by_part_some l l' :
  sort_by_part l = Some l' ->
  Permutation l l' /\ Sorted part_le l'
  /\ forall k, filter (has_key k) l' = filter (has_key k) l.
Proof.
  unfold sort_by_part. destruct (keyed l) as [kl|] eqn:E; [|discriminate].
  intros H. injection H as <-. destruct (keyed_some l kl E) as [Hm Hk].
  destruct (sort_keyed_props kl) as (Hp & Hs & Hf). cbv zeta in Hp, Hs, Hf.
  set (sk := fold_right insert_keyed [] kl) in *.
  assert (Hk' : forall p, In p sk -> part_key (snd p) = Some (fst p)).
  { intros p Hp'. apply Hk. exact (Permutation_in _ Hp Hp'). }
  split; [rewrite <- Hm; apply Permutation_map; symmetry; exact Hp|].
  split; [exact (sorted_map_snd sk Hk' Hs)|].
  intros k. rewrite <- Hm, !filter_map_snd by assumption. rewrite Hf. reflexivity.
Qed.

(** The files are sorted by the number after "Part": the result is a
    permutation of the names, ordered by their keys, and names with equal
    keys keep their order (the sort is stable). *)
Theorem sort_by_part_sorted l l' :
  sort_by_part l = Some l' ->
  Permutation l l' /\ Sorted part_le l'
  /\ forall k, filter (has_key k) l' = filter (has_key k) l.
Proof. apply sort_by_part_some. Qed.

(** Witness: two parts listed out of order. *)
Lemma sort_by_part_sorted_witness :
  let l := [u "d/Tasty Shreds Jan-Feb-March_Part10.pdf"; u "d/Tasty Shreds Jan-Feb-March_Part2.pdf"] in
  let l' := [u "d/Tasty Shreds Jan-Feb-March_Part2.pdf"; u "d/Tasty Shreds Jan-Feb-March_Part10.pdf"] in
  sort_by_part l = Some l'
  /\ (Permutation l l' /\ Sorted part_le l'
      /\ forall k, filter (has_key k) l' = filter (has_key k) l).
Proof.
  cbv zeta. assert (H : sort_by_part [u "d/Tasty Shreds Jan-Feb-March_Part10.pdf";
                                     u "d/Tasty Shreds Jan-Feb-March_Part2.pdf"]
                        = Some [u "d/Tasty Shreds Jan-Feb-March_Part2.pdf";
                                u "d/Tasty Shreds Jan-Feb-March_Part10.pdf"])
    by (vm_compute; reflexivity).
  split; [exact H | exact (sort_by_part_sorted _ _ H)].
Defined.

(** [process_all_pdfs] raises exactly when there are files and either one
    of them has no "Part" followed by digits for the sort key, or
    [os.makedirs] cannot create "<directory>/obsidian_recipes" because that
    path or one of its parents is an existing file. *)
Theorem process_all_pdfs_raises extract directory pdf_files fs :
  process_all_pdfs extract directory pdf_files fs = None
  <-> pdf_files <> []
      /\ ((exists x, In x pdf_files /\ part_key x = None)
          \/ os_makedirs_fails fs (os_path_join directory (u "obsidian_recipes")) = true).
Proof.
  unfold process_all_pdfs, sort_by_part.
  destruct pdf_files as [|x l]; cbn [is_nil].
  - split; [discriminate | intros [H _]; contradiction H; reflexivity].
  - rewrite <- keyed_none. destruct (keyed (x :: l)) as [kl|]; cbv zeta.
    + destruct (os_makedirs_fails fs (os_path_join directory (u "obsidian_recipes"))).
      * split; [intros _; split; [discriminate | right; reflexivity] | reflexivity].
      * split; [discriminate | intros [_ [H|H]]; discriminate H].
    + split; [intros _; split; [discriminate | left; reflexivity] | reflexivity].
Qed.

(** ** The loop of [process_all_pdfs] *)





(** [sanitize_filename] always returns a name of 1 to 50 characters made of
    word characters and hyphens only: no dot, no slash, no space. *)
Theorem sanitize_filename_shape t :
  sanitize_filename t <> [] /\ length (sanitize_filename t) <= 50
  /\ forall c, In c (sanitize_filename t) -> is_word c = true \/ c = 45%N.
Proof.
  destruct (sanitize_filename_chars t) as (Hc & Hne & Hl).
  split; [exact Hne|]. split; [exact Hl|]. intros c H. specialize (Hc c H).
  unfold fname_char in Hc. apply orb_true_iff in Hc as [Hc|Hc]; [left; exact Hc | right; apply N.eqb_eq; exact Hc].
Qed.

(** ** The fallback title *)

Lemma replace_go_absent a old new s fuel : ~ In a s -> replace_go (a :: old) new s fuel = s.
Proof.
  revert fuel. induction s as [|c s IH]; intros [|f] H; cbn [replace_go]; try reflexivity.
  cbn [is_prefix]. destruct (N.eqb_spec a c) as [->|_]; [contradiction H; left; reflexivity|].
  cbn [andb]. rewrite IH; [reflexivity|]. intros H'. apply H. right. exact H'.
Qed.

Lemma py_replace_head a old new s :
  ~ In a s -> py_replace (a :: old) new ((a :: old) ++ s) = new ++ s.
Proof.
  intros H. unfold py_replace. cbn [length app replace_go].
  change (a :: old ++ s) with ((a :: old) ++ s).
  rewrite (is_prefix_app (a :: old) s). f_equal.
  change (S (length old)) with (length (a :: old)).
  rewrite skipn_app, skipn_all, Nat.sub_diag. apply replace_go_absent. exact H.
Qed.

Lemma digits_not_in ds c : (forall d, In d ds -> is_digit d = true) -> is_digit c = false -> ~ In c ds.
Proof. intros Hd Hc H. rewrite (Hd c H) in Hc. discriminate. Qed.

(** For a PDF named "Tasty Shreds Jan-Feb-March_Part<digits>.pdf", in any
    directory, the title used when the text gives none is "Recipe <digits>". *)
Theorem fallback_title_part d ds :
  (forall c, In c ds -> is_digit c = true) ->
  fallback_title (os_path_join d (u "Tasty Shreds Jan-Feb-March_Part" ++ ds ++ u ".pdf"))
  = u "Recipe " ++ ds.
Proof.
  intros Hd.
  set (old := u "Tasty Shreds Jan-Feb-March_Part").
  assert (Hold : forall c, In c old -> c <> 46%N /\ c <> 47%N)
    by (intros c Hc; vm_compute in Hc; intuition (subst; discriminate)).
  assert (H47 : ~ In 47%N (old ++ ds ++ u ".pdf")).
  { intros H. apply in_app_or in H as [H|H]; [exact (proj2 (Hold _ H) eq_refl)|].
    apply in_app_or in H as [H|H]; [exact (digits_not_in ds 47 Hd eq_refl H)|].
    vm_compute in H. intuition discriminate. }
  assert (Hb : os_path_basename (os_path_join d (old ++ ds ++ u ".pdf")) = old ++ ds ++ u ".pdf").
  { destruct (join_shape d _ (no_slash_prefix _ H47)) as [->|[x ->]];
      [apply basename_no_slash | apply basename_after_slash]; exact H47. }
  unfold fallback_title. fold old. rewrite Hb.
  replace (old ++ ds ++ u ".pdf") with ([] ++ (old ++ ds) ++ 46%N :: u "pdf")
    by (rewrite <- app_assoc; reflexivity).
  rewrite splitext_ext.
  - cbn [fst app]. change old with (84%N :: tl old). apply py_replace_head.
    exact (digits_not_in ds 84 Hd eq_refl).
  - intros H. apply (f_equal (@length N)) in H. rewrite length_app in H. cbn in H. lia.
  - intros H. apply in_app_or in H as [H|H];
      [exact (proj1 (Hold _ H) eq_refl) | exact (digits_not_in ds 46 Hd eq_refl H)].
  - intros H. apply in_app_or in H as [H|H];
      [exact (proj2 (Hold _ H) eq_refl) | exact (digits_not_in ds 47 Hd eq_refl H)].
  - cbn. intuition discriminate.
  - cbn. intuition discriminate.
Qed.

(** Witness: part 12 in a directory. *)
Lemma fallback_title_part_witness :
  (forall c, In c (u "12") -> is_digit c = true)
  /\ fallback_title (os_path_join (u "pdfs") (u "Tasty Shreds Jan-Feb-March_Part" ++ u "12" ++ u ".pdf"))
     = u "Recipe " ++ u "12".
Proof.
  assert (H : forall c, In c (u "12") -> is_digit c = true)
    by (intros c Hc; vm_compute in Hc; destruct Hc as [<-|[<-|[]]]; reflexivity).
  split; [exact H | exact (fallback_title_part (u "pdfs") (u "12") H)].
Defined.

(** ** The sort key *)

Lemma part_match_digits s i b en g :
  i <= length s -> match_at s re_part i b = Some (en, g) ->
  exists j0 j, 1 <= j /\ g = Some (j0, j0 + j)
  /\ forall m, m < j -> exists c, char_at s (j0 + m) = Some c /\ is_digit c = true.
Proof.
  intros Hi. unfold match_at, re_part. rewrite mt_cat. intros H.
  apply (mt_grp_free s (cat_all (map (fun c => Chr (N.eqb c)) (u "Part"))) eq_refl)
    in H as (j0 & _ & H); [|exact Hi].
  rewrite mt_grp in H. apply mt_rep_run in H as (j & Hj & Hrun & Hk). cbv beta in Hk.
  destruct (b && (j0 + j =? i)); [discriminate|]. injection Hk as _ <-.
  exists j0, j. auto.
Qed.

(** The sort key [int(re.search(r"Part(\d+)", x).group(1))] raises exactly
    when the search finds nothing, or when the digits it finds are more than
    [int_max_str_digits]. *)
Theorem part_key_none x :
  part_key x = None
  <-> match re_search re_part x with
      | None => True
      | Some (_, _, g) => int_max_str_digits < length (group_str x g)
      end.
Proof.
  unfold part_key, re_search.
  destruct (search_from x re_part 0 false) as [[[st en] g]|] eqn:E; [|split; reflexivity].
  destruct (search_from_some _ _ _ _ _ _ _ E) as ((_ & Hst) & Hm & _).
  destruct (part_match_digits _ _ _ _ _ Hst Hm) as (j0 & j & Hj & -> & Hrun).
  assert (Hl : j0 + j <= length x).
  { destruct (Hrun (j - 1)) as (c & Hc & _); [lia|]. apply char_at_lt in Hc. lia. }
  assert (Hne : group_str x (Some (j0, j0 + j)) <> []).
  { unfold group_str, slice. intros H.
    apply (f_equal (@length N)) in H. rewrite length_firstn, length_skipn in H. simpl in H. lia. }
  assert (Hd : forall c, In c (group_str x (Some (j0, j0 + j))) -> is_digit c = true).
  { unfold group_str, slice. intros c Hc. apply In_nth_error in Hc as (m & Hm').
    rewrite nth_error_firstn in Hm'. destruct (Nat.ltb_spec m (j0 + j - j0)) as [Hmj|]; [|discriminate].
    rewrite nth_error_skipn in Hm'.
    destruct (Hrun m) as (c' & Hc' & Hd); [lia|].
    unfold char_at in Hc'. rewrite Hc' in Hm'. injection Hm' as <-. exact Hd. }
  pose proof (py_int_digits_iff _ Hne Hd) as Hiff.
  destruct (py_int (group_str x (Some (j0, j0 + j)))) as [n|] eqn:Ev.
  - split; [discriminate|]. intros Hlt.
    assert (Hle : length (group_str x (Some (j0, j0 + j))) <= int_max_str_digits)
      by (apply Hiff; exists n; reflexivity).
    lia.
  - split; [intros _ | reflexivity].
    destruct (Nat.ltb_spec int_max_str_digits (length (group_str x (Some (j0, j0 + j))))) as [H|H];
      [exact H|].
    apply Hiff in H as [n Hn]. discriminate Hn.
Qed.
